(** * The SWE-bench harness scripts of cognos-lang, embedded in Rocq

    [scripts/swe-bench-full.py] and [scripts/swe-bench-run.py] drive an
    external coding agent over benchmark instances.  Both scripts are
    sequential programs that talk to the outside world through
    [subprocess.run], the file system and the process environment.  The
    embedding keeps that shape: a state-and-exception monad over a [world]
    (the files the harness owns and the list of child processes it has
    launched), and an [environ] record that answers everything the harness
    cannot decide by itself (what a child process returns, whether a
    workspace directory exists, the dataset, the wall clock).

    Console output and the pacing [time.sleep] are left out; where a
    progress line evaluates [result[...]], the lookups are kept, since they
    can raise. *)

From Stdlib Require Import ZArith String Ascii List Bool Lia Sorted Permutation.
From stdpp Require Import base option gmap strings list.

Local Open Scope string_scope.
Local Open Scope Z_scope.

(** ** Python strings

    A Python [str] is modelled as a Rocq [string]; its characters are the
    code points below 256. *)
Module PyStr.

(** [str.isspace] on the code points below 256: TAB..CR, FS..US, SPACE,
    NEL and NBSP. *)
Definition is_space (c : ascii) : bool :=
  let n := nat_of_ascii c in
  ((9 <=? n)%nat && (n <=? 13)%nat)
  || ((28 <=? n)%nat && (n <=? 32)%nat)
  || (n =? 133)%nat || (n =? 160)%nat.

Fixpoint lstrip (s : string) : string :=
  match s with
  | EmptyString => EmptyString
  | String c s' => if is_space c then lstrip s' else s
  end.

Definition is_empty (s : string) : bool :=
  match s with EmptyString => true | String _ _ => false end.

Fixpoint rstrip (s : string) : string :=
  match s with
  | EmptyString => EmptyString
  | String c s' =>
      let r := rstrip s' in
      if is_space c && is_empty r then EmptyString else String c r
  end.

(** [s.strip()] *)
Definition strip (s : string) : string := rstrip (lstrip s).

(** [s.startswith(p)] *)
Definition startswith (p s : string) : bool := String.prefix p s.

(** [s.find(sub)]: the lowest index at which [sub] occurs. *)
Fixpoint find (sub s : string) : option nat :=
  if String.prefix sub s then Some 0%nat
  else match s with
       | EmptyString => None
       | String _ s' => S <$> find sub s'
       end.

(** [sub in s] *)
Definition contains (sub s : string) : bool := bool_decide (is_Some (find sub s)).

(** [s[i:j]] for indices that are already within [0 .. len(s)]. *)
Definition slice (i j : nat) (s : string) : string :=
  String.substring i (j - i) s.

(** [s.split(sep)] for a one-character separator. *)
Fixpoint split (sep : ascii) (s : string) : list string :=
  match s with
  | EmptyString => [EmptyString]
  | String c s' =>
      let r := split sep s' in
      if Ascii.eqb c sep then EmptyString :: r
      else match r with
           | h :: t => String c h :: t
           | [] => [String c EmptyString]
           end
  end.

Fixpoint split_first (sep : ascii) (s : string) : option (string * string) :=
  match s with
  | EmptyString => None
  | String c s' =>
      if Ascii.eqb c sep then Some (EmptyString, s')
      else match split_first sep s' with
           | Some (a, b) => Some (String c a, b)
           | None => None
           end
  end.

(** [s.split(sep, 1)] for a one-character separator: at most one cut. *)
Definition split1 (sep : ascii) (s : string) : list string :=
  match split_first sep s with
  | Some (a, b) => [a; b]
  | None => [s]
  end.

Definition CR : ascii := ascii_of_nat 13.
Definition LF : ascii := ascii_of_nat 10.

(** Text-mode reading translates ["\r\n"] and a lone ["\r"] to ["\n"]. *)
Fixpoint universal_newlines (s : string) : string :=
  match s with
  | EmptyString => EmptyString
  | String c r =>
      if Ascii.eqb c CR then
        String LF
          match r with
          | EmptyString => EmptyString
          | String c2 r2 =>
              if Ascii.eqb c2 LF then universal_newlines r2
              else universal_newlines r
          end
      else String c (universal_newlines r)
  end.

(** The lines of a text, each with its terminating newline kept. *)
Fixpoint keepends (s : string) : list string :=
  match s with
  | EmptyString => []
  | String c s' =>
      if Ascii.eqb c LF then String c EmptyString :: keepends s'
      else match keepends s' with
           | h :: t => String c h :: t
           | [] => [String c EmptyString]
           end
  end.

(** [for line in f] over a file opened in text mode. *)
Definition file_lines (content : string) : list string :=
  keepends (universal_newlines content).

Fixpoint last_char (s : string) : option ascii :=
  match s with
  | EmptyString => None
  | String c s' =>
      match last_char s' with
      | Some d => Some d
      | None => Some c
      end
  end.

(** [s.rstrip("/")] *)
Fixpoint rstrip_slash (s : string) : string :=
  match s with
  | EmptyString => EmptyString
  | String c s' =>
      let r := rstrip_slash s' in
      if Ascii.eqb c "/" && is_empty r then EmptyString else String c r
  end.

(** [s.replace(a, b)] for a one-character [a]. *)
Fixpoint replace_char (a : ascii) (b : string) (s : string) : string :=
  match s with
  | EmptyString => EmptyString
  | String c s' =>
      if Ascii.eqb c a then b +:+ replace_char a b s'
      else String c (replace_char a b s')
  end.

End PyStr.

(** ** Exceptions, values and the outside world *)

Inductive exn : Type :=
| TimeoutExpired (msg : string)   (* subprocess.TimeoutExpired *)
| OSError (msg : string)          (* FileNotFoundError and the like *)
| KeyError (key : string)
| ValueError (msg : string)
| IndexError (msg : string)
| SystemExit (code : Z).

(** [except Exception] catches everything but [SystemExit]. *)
Definition is_Exception (e : exn) : bool :=
  match e with SystemExit _ => false | _ => true end.

Definition is_TimeoutExpired (e : exn) : bool :=
  match e with TimeoutExpired _ => true | _ => false end.

(** [str(e)] *)
Definition exn_str (e : exn) : string :=
  match e with
  | TimeoutExpired m | OSError m | ValueError m | IndexError m => m
  | KeyError k => "'" +:+ k +:+ "'"
  | SystemExit _ => ""
  end.

(** A dataset row. *)
Record instance : Type := Instance {
  instance_id : string;
  repo : string;
  base_commit : string;
  problem_statement : string
}.

(** The values the scripts put in their result dictionaries.  A float is
    kept as a number of tenths: the only float is [round(elapsed, 1)]. *)
Inductive value : Type :=
| VStr (s : string)
| VInt (n : Z)
| VFloat (tenths : Z).

(** A dict literal, in insertion order (the order [json.dumps] writes). *)
Definition dict : Type := list (string * value).

Fixpoint dict_lookup (d : dict) (k : string) : option value :=
  match d with
  | [] => None
  | (k', v) :: d' => if String.eqb k' k then Some v else dict_lookup d' k
  end.

(** What a file of the harness holds: text written by [f.write], or a line
    [json.dumps(d) + "\n"]. *)
Inductive chunk : Type :=
| Text (s : string)
| JsonLine (d : dict).

(** One [subprocess.run] call. *)
Record command : Type := Command {
  argv : list string;
  cwd : option string;
  timeout : option Z;
  child_env : option (gmap string string);   (* [None]: inherited *)
  stdin : option string
}.

Inductive outcome : Type :=
| Returned (returncode : Z) (stdout stderr : string)
| Raised (e : exn).

(** Everything the harness asks of its surroundings.  The natural-number
    argument is the number of child processes launched so far, so that an
    answer may change as the run goes on. *)
Record environ : Type := Environ {
  home : string;                               (* what [~] expands to *)
  os_environ : gmap string string;
  load_dataset : list instance;
  dir_exists : nat -> string -> bool;          (* workspace directories *)
  child : nat -> command -> outcome;
  elapsed : nat -> Z;                          (* tenths of a second *)
  env_file : nat -> option string;             (* [COGNOS_DIR/.env] *)
  mkdtemp : nat -> string                      (* [tempfile.TemporaryDirectory] *)
}.

(** The state the harness owns: the files it writes (results directory and
    scratch files) and the child processes it has launched, oldest first.
    Creating directories and opening these files for writing is taken to
    succeed. *)
Record world : Type := World {
  files : gmap string (list chunk);
  trace : list command
}.

Definition clock (w : world) : nat := List.length (trace w).

(** ** The state-and-exception monad *)

Inductive res (A : Type) : Type :=
| Ok (a : A)
| Raise (e : exn).
Arguments Ok {A} a.
Arguments Raise {A} e.

Definition M (A : Type) : Type := world -> res A * world.

Definition ret {A} (a : A) : M A := fun w => (Ok a, w).

Definition raise {A} (e : exn) : M A := fun w => (Raise e, w).

Definition bind {A B} (m : M A) (k : A -> M B) : M B :=
  fun w =>
    match m w with
    | (Ok a, w') => k a w'
    | (Raise e, w') => (Raise e, w')
    end.

Notation "'do' x <- m ; k" := (bind m (fun x => k))
  (at level 10, x name, m at level 100, k at level 200).
Notation "'do' ' p <- m ; k" := (bind m (fun x => match x with p => k end))
  (at level 10, p pattern, m at level 100, k at level 200).
Notation "'exec' m ; k" := (bind m (fun _ => k))
  (at level 10, m at level 100, k at level 200).

(** [try: m  except <p>: ...]: the exception, if the clause catches it. *)
Definition attempt {A} (p : exn -> bool) (m : M A) : M (exn + A) :=
  fun w =>
    match m w with
    | (Ok a, w') => (Ok (inr a), w')
    | (Raise e, w') => if p e then (Ok (inl e), w') else (Raise e, w')
    end.

(** [d[k]] *)
Definition dict_get (d : dict) (k : string) : M value :=
  match dict_lookup d k with
  | Some v => ret v
  | None => raise (KeyError k)
  end.

(** [subprocess.run(...)]: the call is recorded, the environment answers. *)
Definition subprocess_run (E : environ) (c : command) : M (Z * string * string) :=
  fun w =>
    let w' := {| files := files w; trace := (trace w ++ [c])%list |} in
    match child E (clock w) c with
    | Returned rc out err => (Ok (rc, out, err), w')
    | Raised e => (Raise e, w')
    end.

(** [with open(path, "w") as f: f.write(s)] *)
Definition write_file (path s : string) : M unit :=
  fun w => (Ok tt, {| files := <[path := [Text s]]> (files w); trace := trace w |}).

(** [with open(path, "a") as f: f.write(json.dumps(d) + "\n")] *)
Definition append_json (path : string) (d : dict) : M unit :=
  fun w =>
    (Ok tt, {| files := <[path := (default [] (files w !! path) ++ [JsonLine d])%list]> (files w);
               trace := trace w |}).

(** [os.path.exists] on a file of the harness. *)
Definition file_exists (path : string) : M bool :=
  fun w => (Ok (bool_decide (is_Some (files w !! path))), w).

(** [os.path.exists] on a workspace directory. *)
Definition workspace_exists (E : environ) (path : string) : M bool :=
  fun w => (Ok (dir_exists E (clock w) path), w).

(** [time.time() - start_time], rounded to one decimal. *)
Definition elapsed_since_start (E : environ) : M Z :=
  fun w => (Ok (elapsed E (clock w)), w).

(** ** Paths *)

(** [os.path.join(a, b)] *)
Definition join2 (a b : string) : string :=
  if PyStr.startswith "/" b then b
  else if PyStr.is_empty a || bool_decide (PyStr.last_char a = Some "/"%char)
       then a +:+ b
       else a +:+ "/" +:+ b.

(** [os.path.join(a, *ps)] *)
Definition path_join (a : string) (ps : list string) : string :=
  fold_left join2 ps a.

(** [os.path.expanduser] on the paths the scripts use, all of the form
    [~/...]. *)
Definition expanduser (E : environ) (p : string) : string :=
  if PyStr.startswith "~/" p
  then PyStr.rstrip_slash (home E) +:+ String.substring 1 (String.length p - 1) p
  else p.

(** [l[lo:hi]] with Python's treatment of negative and overlong bounds. *)
Definition clamp_index (len i : Z) : Z :=
  if i <? 0 then Z.max 0 (i + len) else Z.min i len.

Definition py_slice {A} (l : list A) (lo hi : Z) : list A :=
  let len := Z.of_nat (List.length l) in
  let lo' := clamp_index len lo in
  let hi' := clamp_index len hi in
  firstn (Z.to_nat (hi' - lo')) (skipn (Z.to_nat lo') l).

(** ** [scripts/swe-bench-full.py] *)
Module Full.

Definition COGNOS (E : environ) : string :=
  expanduser E "~/clawd/neocognos/cognos-lang/target/release/cognos".
Definition COGNOS_DIR (E : environ) : string :=
  expanduser E "~/clawd/neocognos/cognos-lang".
Definition AGENT (E : environ) : string :=
  path_join (COGNOS_DIR E) ["examples/meta-agent-v3.cog"].
Definition RESULTS_DIR (E : environ) : string :=
  expanduser E "~/clawd/neocognos/cognos-lang/swe-results".
Definition REPOS_DIR : string := "/tmp/swe-repos".

Definition issue_file : string := "/tmp/cognos-issue.txt".
Definition repo_file : string := "/tmp/cognos-repo.txt".

Definition repo_path_of (iid : string) : string :=
  path_join REPOS_DIR [PyStr.replace_char "/" "__" iid].
Definition patch_file (E : environ) (iid : string) : string :=
  path_join (RESULTS_DIR E) ["patches"; iid +:+ ".patch"].
Definition log_file (E : environ) (iid : string) : string :=
  path_join (RESULTS_DIR E) ["logs"; iid +:+ ".log"].
Definition results_file (E : environ) : string :=
  path_join (RESULTS_DIR E) ["results.jsonl"].

Definition github_url (repo : string) : string :=
  "https://github.com/" +:+ repo +:+ ".git".

(** The git calls of [setup_repo] and [run_instance]. *)
Definition clone_shallow (repo repo_path : string) : command :=
  {| argv := ["git"; "clone"; "--depth"; "200"; github_url repo; repo_path];
     cwd := None; timeout := Some 180; child_env := None; stdin := None |}.
Definition clone_full (repo repo_path : string) : command :=
  {| argv := ["git"; "clone"; github_url repo; repo_path];
     cwd := None; timeout := Some 300; child_env := None; stdin := None |}.
Definition git_in (repo_path : string) (args : list string) : command :=
  {| argv := "git" :: args;
     cwd := Some repo_path; timeout := None; child_env := None; stdin := None |}.

(** Clone and checkout the correct commit for an instance. *)
Definition setup_repo (E : environ) (inst : instance) : M string :=
  let repo := repo inst in
  let commit := base_commit inst in
  let iid := instance_id inst in
  let repo_path := repo_path_of iid in
  do present <- workspace_exists E repo_path;
  exec (if negb present then
          do ' (rc, _, _) <- subprocess_run E (clone_shallow repo repo_path);
          if negb (rc =? 0) then
            (* Try full clone for repos that need deeper history *)
            exec subprocess_run E (clone_full repo repo_path);
            ret tt
          else ret tt
        else ret tt);
  (* Checkout the base commit *)
  exec subprocess_run E (git_in repo_path ["checkout"; commit]);
  exec subprocess_run E (git_in repo_path ["checkout"; "--"; "."]);
  exec subprocess_run E (git_in repo_path ["clean"; "-fd"]);
  ret repo_path.

(** The environment handed to the agent. *)
Definition agent_env (E : environ) : gmap string string :=
  delete "ANTHROPIC_API_KEY" (os_environ E).

Definition agent_cmd (E : environ) (tmo : Z) : command :=
  {| argv := [COGNOS E; "run"; "--allow-shell"; AGENT E];
     cwd := Some (COGNOS_DIR E); timeout := Some tmo;
     child_env := Some (agent_env E); stdin := None |}.

(** The loop over [output.split("\n")] that sets [mode]. *)
Definition detect_mode (output : string) : string :=
  fold_left
    (fun mode line =>
       if PyStr.contains "Phase 1:" line then "v3-scout"
       else if PyStr.contains "Falling back to agent" line then "v3-fallback"
       else mode)
    (PyStr.split PyStr.LF output) "unknown".

(** [patch and len(patch) > 10] *)
Definition has_patch (patch : string) : bool :=
  negb (PyStr.is_empty patch) && (10 <? Z.of_nat (String.length patch)).

(** The two dict literals of [run_instance]. *)
Definition clone_failed_result (iid : string) (e : exn) : dict :=
  [("id", VStr iid); ("status", VStr "CLONE_FAILED"); ("error", VStr (exn_str e))].

Definition completed_result (iid patch mode : string) (elapsed exit_code : Z) : dict :=
  [("id", VStr iid);
   ("status", VStr (if has_patch patch then "PATCH" else "NO_PATCH"));
   ("patch_size",
    VInt (if PyStr.is_empty patch then 0 else Z.of_nat (String.length patch)));
   ("mode", VStr mode);
   ("time", VFloat elapsed);
   ("exit_code", VInt exit_code)].

(** What the [try]/[except subprocess.TimeoutExpired] around the agent
    leaves in [output] and [exit_code]. *)
Definition captured (ar : exn + Z * string * string) : string * Z :=
  match ar with
  | inr (rc, out, err) => (out +:+ err, rc)
  | inl _ => ("TIMEOUT", -1)
  end.

(** Run the meta-agent on a single instance. *)
Definition run_instance (E : environ) (inst : instance) (tmo : Z) : M dict :=
  let iid := instance_id inst in
  let problem := problem_statement inst in
  (* Setup repo *)
  do sr <- attempt is_Exception (setup_repo E inst);
  match sr with
  | inl e => ret (clone_failed_result iid e)
  | inr repo_path =>
      (* Write issue and repo path *)
      exec write_file issue_file problem;
      exec write_file repo_file repo_path;
      (* Run meta-agent *)
      do ar <- attempt is_TimeoutExpired (subprocess_run E (agent_cmd E tmo));
      let '(output, exit_code) := captured ar in
      do elapsed <- elapsed_since_start E;
      (* Check for patch *)
      do ' (_, diff_stdout, _) <- subprocess_run E (git_in repo_path ["diff"]);
      let patch := PyStr.strip diff_stdout in
      (* Extract mode from output *)
      let mode := detect_mode output in
      let result := completed_result iid patch mode elapsed exit_code in
      (* Save patch *)
      exec (if has_patch patch then write_file (patch_file E iid) patch else ret tt);
      (* Save output *)
      exec write_file (log_file E iid) output;
      ret result
  end.

Record args : Type := Args {
  arg_start : Z;
  arg_limit : Z;
  arg_instance : option string;
  arg_timeout : Z
}.

(** The body of [for i, instance in enumerate(dataset)]. *)
Fixpoint main_loop (E : environ) (tmo : Z) (dataset : list instance)
    (results : list dict) : M (list dict) :=
  match dataset with
  | [] => ret results
  | inst :: rest =>
      let iid := instance_id inst in
      (* Check if already done *)
      do done_already <- file_exists (log_file E iid);
      if done_already then main_loop E tmo rest results
      else
        do result <- run_instance E inst tmo;
        let results := (results ++ [result])%list in
        (* the operands of the progress line *)
        do _status <- dict_get result "status";
        do _status' <- dict_get result "status";
        do _time <- dict_get result "time";
        do _mode <- dict_get result "mode";
        (* Append to results file *)
        exec append_json (results_file E) result;
        main_loop E tmo rest results
  end.

(** [sum(1 for r in results if r["status"] == "PATCH")] *)
Fixpoint count_patches (results : list dict) : M Z :=
  match results with
  | [] => ret 0
  | r :: rest =>
      do st <- dict_get r "status";
      do n <- count_patches rest;
      ret (match st with
           | VStr s => if String.eqb s "PATCH" then 1 + n else n
           | _ => n
           end)
  end.

(** [main]; the value is the pair (patches, total) of the SUMMARY line,
    or [None] when [--instance] names no row of the dataset. *)
Definition main (E : environ) (a : args) : M (option (Z * Z)) :=
  let dataset := load_dataset E in
  let selected :=
    match arg_instance a with
    | Some id =>
        if PyStr.is_empty id
        then inr (py_slice dataset (arg_start a) (arg_start a + arg_limit a))
        else
          let ds := List.filter (fun d => String.eqb (instance_id d) id) dataset in
          match ds with [] => inl tt | _ => inr ds end
    | None => inr (py_slice dataset (arg_start a) (arg_start a + arg_limit a))
    end in
  match selected with
  | inl _ => ret None
  | inr ds =>
      do results <- main_loop E (arg_timeout a) ds [];
      do patches <- count_patches results;
      ret (Some (patches, Z.of_nat (List.length results)))
  end.

End Full.

(** ** [scripts/swe-bench-run.py] *)
Module Run.

Definition COGNOS (E : environ) : string :=
  expanduser E "~/clawd/neocognos/cognos-lang/target/release/cognos".
Definition COGNOS_DIR (E : environ) : string :=
  expanduser E "~/clawd/neocognos/cognos-lang".

Definition AGENTS (E : environ) : list (string * string) :=
  [("coding", path_join (COGNOS_DIR E) ["examples/coding-agent-opus.cog"]);
   ("meta", path_join (COGNOS_DIR E) ["examples/meta-agent.cog"]);
   ("meta-multi", path_join (COGNOS_DIR E) ["examples/meta-agent-multi.cog"])].

Fixpoint agents_lookup (l : list (string * string)) (k : string) : option string :=
  match l with
  | [] => None
  | (k', v) :: l' => if String.eqb k' k then Some v else agents_lookup l' k
  end.

Definition issue_file : string := "/tmp/cognos-issue.txt".
Definition repo_file : string := "/tmp/cognos-repo.txt".
Definition memory_db (iid : string) : string := "/tmp/cognos-swe-" +:+ iid +:+ ".db".
Definition trace_file (iid : string) : string :=
  "/tmp/cognos-swe-trace-" +:+ iid +:+ ".jsonl".

Definition OPEN : string := "--- PATCH ---".
Definition CLOSE : string := "--- END PATCH ---".

Definition github_url (repo : string) : string :=
  "https://github.com/" +:+ repo +:+ ".git".

Definition clone_cmd (repo repo_path : string) : command :=
  {| argv := ["git"; "clone"; "--depth"; "100"; github_url repo; repo_path];
     cwd := None; timeout := Some 120; child_env := None; stdin := None |}.
Definition git_in (repo_path : string) (args : list string) : command :=
  {| argv := "git" :: args;
     cwd := Some repo_path; timeout := None; child_env := None; stdin := None |}.

(** One turn of the loop that sources the [.env] file.  Under its guard
    ["=" in line] the unpacking [key, val = line.split("=", 1)] always
    finds two parts. *)
Definition source_line (env : gmap string string) (line : string) : gmap string string :=
  let line := PyStr.strip line in
  if negb (PyStr.is_empty line) && negb (PyStr.startswith "#" line)
     && PyStr.contains "=" line
  then match PyStr.split1 "=" line with
       | [key; val] => <[key := val]> env
       | _ => env
       end
  else env.

(** The environment handed to the agent. *)
Definition agent_env (E : environ) (now : nat) : gmap string string :=
  let env := os_environ E in
  match env_file E now with
  | Some content => fold_left source_line (PyStr.file_lines content) env
  | None => env
  end.

Definition agent_cmd (E : environ) (agent iid : string) (tmo : Z)
    (env : gmap string string) : command :=
  {| argv := [COGNOS E; "run"; "--memory"; "--allow-shell"; "-vv";
              "--trace"; trace_file iid;
              "--trace-level"; "full";
              "--memory-db"; memory_db iid;
              "--memory-ns"; iid;
              agent];
     cwd := Some (COGNOS_DIR E); timeout := Some tmo;
     child_env := Some env; stdin := Some "" |}.

(** [s.index(sub)] *)
Definition str_index (sub s : string) : M nat :=
  match PyStr.find sub s with
  | Some i => ret i
  | None => raise (ValueError "substring not found")
  end.

(** The slice between the delimiters, trimmed; empty without an opening
    delimiter. *)
Definition extract_delimited (output : string) : M string :=
  if PyStr.contains OPEN output then
    do i <- str_index OPEN output;
    let start := (i + String.length OPEN)%nat in
    do stop <- (if PyStr.contains CLOSE output then str_index CLOSE output
                else ret (String.length output));
    ret (PyStr.strip (PyStr.slice start stop output))
  else ret "".

(** The two steps of [run_instance] that settle [patch]. *)
Definition extract_patch (E : environ) (repo_path output : string) : M string :=
  (* Extract diff from output *)
  do patch <- extract_delimited output;
  (* Also try getting diff directly from repo *)
  if PyStr.is_empty patch then
    do ' (_, diff_stdout, _) <- subprocess_run E (git_in repo_path ["diff"]);
    ret (PyStr.strip diff_stdout)
  else ret patch.

(** [os.remove(path)] inside [try: ... except: pass]. *)
Definition remove_quietly (path : string) : M unit :=
  fun w => (Ok tt, {| files := delete path (files w); trace := trace w |}).

Definition mk_tmpdir (E : environ) : M string :=
  fun w => (Ok (mkdtemp E (clock w)), w).

Definition read_agent_env (E : environ) : M (gmap string string) :=
  fun w => (Ok (agent_env E (clock w)), w).

Definition prediction (iid patch : string) : dict :=
  [("instance_id", VStr iid);
   ("model_name_or_path", VStr "cognos-agent");
   ("model_patch", VStr patch)].

(** Run the coding agent on a single SWE-bench instance.  [agent] is the
    module global [AGENT] as [main] has set it. *)
Definition run_instance (E : environ) (agent : string) (inst : instance)
    (tmo : Z) : M dict :=
  let iid := instance_id inst in
  let problem := problem_statement inst in
  (* Clone repo at the right commit *)
  do tmpdir <- mk_tmpdir E;
  let repo_path := path_join tmpdir ["repo"] in
  do ' (rc, _, _) <- subprocess_run E (clone_cmd (repo inst) repo_path);
  if negb (rc =? 0) then ret (prediction iid "")
  else
    (* Checkout base commit *)
    exec subprocess_run E (git_in repo_path ["checkout"; base_commit inst]);
    (* Run the Cognos agent *)
    do env <- read_agent_env E;
    (* Write issue and repo path to files for the agent *)
    exec write_file issue_file problem;
    exec write_file repo_file repo_path;
    do ar <- attempt is_TimeoutExpired
               (subprocess_run E (agent_cmd E agent iid tmo env));
    let '(output, stderr) :=
      match ar with
      | inr (_, out, err) => (out, err)
      | inl _ => ("", "timeout")
      end in
    do patch <- extract_patch E repo_path output;
    (* Clean up memory db *)
    exec remove_quietly (memory_db iid);
    ret (prediction iid patch).

(** Rough heuristic: shorter problem statements with clear error
    messages are easier. *)
Definition estimate_difficulty (inst : instance) : Z :=
  let problem := problem_statement inst in
  let len := Z.of_nat (String.length problem) in
  let s1 := if len <? 500 then 2 else if len <? 1000 then 1 else 0 in
  let s2 := if PyStr.contains "TypeError" problem
               || PyStr.contains "AttributeError" problem
               || PyStr.contains "ValueError" problem then 2 else 0 in
  let s3 := if PyStr.contains "Traceback" problem then 1 else 0 in
  let s4 := if PyStr.startswith "psf/requests" (repo inst)
               || PyStr.startswith "pallets/flask" (repo inst) then 1 else 0 in
  s1 + s2 + s3 + s4.

(** [sorted(l, key=key)]: stable. *)
Fixpoint insert_by {A} (key : A -> Z) (x : A) (l : list A) : list A :=
  match l with
  | [] => [x]
  | y :: l' => if key x <? key y then x :: l else y :: insert_by key x l'
  end.

Definition sorted_by {A} (key : A -> Z) (l : list A) : list A :=
  fold_left (fun acc x => insert_by key x acc) l [].

(** [range(a, b)] *)
Definition py_range (a b : Z) : list Z :=
  List.map (fun k => a + Z.of_nat k) (seq 0 (Z.to_nat (b - a))).

(** [ds[i]] *)
Definition ds_getitem (ds : list instance) (i : Z) : M instance :=
  let len := Z.of_nat (List.length ds) in
  let j := if i <? 0 then i + len else i in
  if (j <? 0) || (len <=? j) then raise (IndexError "index out of range")
  else match nth_error ds (Z.to_nat j) with
       | Some d => ret d
       | None => raise (IndexError "index out of range")
       end.

(** The loop over [sys.argv] that picks the agent: every argument that
    starts with [--agent=] sets [agent_name] to what follows its first
    ['='] (under that guard [arg.split("=", 1)] always has a second part). *)
Definition agent_name_of (argv : list string) : string :=
  fold_left
    (fun agent_name arg =>
       if PyStr.startswith "--agent=" arg then
         match PyStr.split1 "=" arg with
         | _ :: name :: _ => name
         | _ => agent_name
         end
       else agent_name)
    argv "coding".

(** The command line as [main] reads it from [sys.argv]. *)
Record args : Type := Args {
  arg_n : Z;
  arg_start : Z;
  arg_output_file : string;
  arg_easy_first : bool;
  arg_agent_name : string
}.

(** The body of [for i in run_indices]. *)
Fixpoint main_loop (E : environ) (agent output_file : string) (ds : list instance)
    (run_indices : list Z) (predictions : list dict) : M (list dict) :=
  match run_indices with
  | [] => ret predictions
  | i :: rest =>
      do inst <- ds_getitem ds i;
      do pred <- run_instance E agent inst 600;
      let predictions := (predictions ++ [pred])%list in
      (* Append to file incrementally *)
      exec append_json output_file pred;
      main_loop E agent output_file ds rest predictions
  end.

Definition default_zero (o : option instance) : Z :=
  match o with Some d => estimate_difficulty d | None => 0 end.

(** [main]; the value is the list of predictions made. *)
Definition main (E : environ) (a : args) : M (list dict) :=
  let ds := load_dataset E in
  let n := arg_n a in
  let start := arg_start a in
  match agents_lookup (AGENTS E) (arg_agent_name a) with
  | None => raise (SystemExit 1)
  | Some agent =>
      let len := Z.of_nat (List.length ds) in
      let run_indices :=
        if arg_easy_first a then
          (* Sort by estimated difficulty (easiest first) *)
          let indices :=
            sorted_by (fun i => - default_zero (nth_error ds (Z.to_nat i)))
                      (py_range 0 len) in
          py_slice indices start (start + n)
        else py_range start (Z.min (start + n) len) in
      main_loop E agent (arg_output_file a) ds run_indices []
  end.

(** [int(sys.argv[k]) if len(sys.argv) > k else default].  Python's
    builtin [int] is taken as [py_int], with [None] for its ValueError. *)
Definition int_arg (py_int : string -> option Z) (argv : list string) (k : nat)
    (default : Z) : M Z :=
  match nth_error argv k with
  | Some s =>
      match py_int s with
      | Some z => ret z
      | None => raise (ValueError "invalid literal for int() with base 10")
      end
  | None => ret default
  end.

(** The part of [main] that reads [sys.argv]. *)
Definition parse_args (py_int : string -> option Z) (argv : list string) : M args :=
  do n <- int_arg py_int argv 1 5;
  do start <- int_arg py_int argv 2 0;
  let output_file :=
    match nth_error argv 3 with
    | Some s => s
    | None => "/tmp/cognos-swe-predictions.jsonl"
    end in
  let easy_first := existsb (String.eqb "--easy") argv in
  (* Agent selection *)
  let agent_name := agent_name_of argv in
  ret {| arg_n := n; arg_start := start; arg_output_file := output_file;
         arg_easy_first := easy_first; arg_agent_name := agent_name |}.

(** [main] from [sys.argv]. *)
Definition main_of_argv (py_int : string -> option Z) (E : environ)
    (argv : list string) : M (list dict) :=
  do a <- parse_args py_int argv;
  main E a.

End Run.

(** ** Notions used to state the properties *)

(** A call of [git] (as opposed to a launch of the agent). *)
Definition is_git (c : command) : bool :=
  match argv c with
  | prog :: _ => String.eqb prog "git"
  | [] => false
  end.

(** [result["status"]] as an option. *)
Definition status_of (d : dict) : option value := dict_lookup d "status".

(** The child processes launched between two states of the world. *)
Definition launched (w w' : world) : list command :=
  skipn (List.length (trace w)) (trace w').

(** The records a line-oriented log holds. *)
Definition records_at (w : world) (path : string) : list chunk :=
  default [] (files w !! path).

(** What the agent call leaves behind, read off the environment's answer:
    [Some (output, exit_code)], or [None] when the call raises something
    other than a timeout. *)
Definition agent_capture (o : outcome) : option (string * Z) :=
  match o with
  | Returned rc out err => Some (out +:+ err, rc)
  | Raised e => if is_TimeoutExpired e then Some ("TIMEOUT", -1) else None
  end.

(** The files of the harness after an attempt that got past provisioning. *)
Definition files_after_attempt (E : environ) (inst : instance) (repo_path output patch : string)
    (fs : gmap string (list chunk)) : gmap string (list chunk) :=
  let iid := instance_id inst in
  let fs := <[Full.repo_file := [Text repo_path]]>
              (<[Full.issue_file := [Text (problem_statement inst)]]> fs) in
  let fs := if Full.has_patch patch then <[Full.patch_file E iid := [Text patch]]> fs else fs in
  <[Full.log_file E iid := [Text output]]> fs.

(** A well-formed delimited block in [output]: the first opening delimiter
    is preceded by [pre] and followed by [body]; then comes either the first
    closing delimiter and some [post], or, with no closing delimiter
    anywhere, the end of the output. *)
Definition delimited_block (output pre body : string) (post : option string) : Prop :=
  PyStr.find Run.OPEN (pre +:+ Run.OPEN) = Some (String.length pre) /\
  match post with
  | Some post =>
      output = pre +:+ Run.OPEN +:+ body +:+ Run.CLOSE +:+ post /\
      PyStr.find Run.CLOSE (pre +:+ Run.OPEN +:+ body +:+ Run.CLOSE)
        = Some (String.length pre + String.length Run.OPEN + String.length body)%nat
  | None =>
      output = pre +:+ Run.OPEN +:+ body /\
      PyStr.find Run.CLOSE output = None
  end.

(** The files of the harness after an attempt of swe-bench-run.py that got
    as far as launching the agent. *)
Definition run_files_after_attempt (inst : instance) (repo_path : string)
    (fs : gmap string (list chunk)) : gmap string (list chunk) :=
  delete (Run.memory_db (instance_id inst))
    (<[Run.repo_file := [Text repo_path]]>
       (<[Run.issue_file := [Text (problem_statement inst)]]> fs)).

(** A result that the SUMMARY line counts as a patch. *)
Definition is_patch_result (d : dict) : bool :=
  match status_of d with
  | Some (VStr s) => String.eqb s "PATCH"
  | _ => false
  end.


(** [os.path.exists(logs/<instance_id>.log)]: the test [main] skips an
    instance by. *)
Definition logged (E : environ) (w : world) (inst : instance) : bool :=
  bool_decide (is_Some (files w !! Full.log_file E (instance_id inst))).

(** ** Sample data: one repository, two instances, a few environments *)
Module Sample.

Definition inst1 : instance :=
  {| instance_id := "proj-1"; repo := "org/proj"; base_commit := "abc123";
     problem_statement := "TypeError in parse()" |}.

Definition inst2 : instance :=
  {| instance_id := "proj-2"; repo := "org/proj"; base_commit := "def456";
     problem_statement := "crash on empty input" |}.

Definition w0 : world := {| files := ∅; trace := [] |}.

Definition is_clone (c : command) : bool :=
  match argv c with
  | _ :: sub :: _ => String.eqb sub "clone"
  | _ => false
  end.

Definition is_diff (c : command) : bool :=
  match argv c with
  | _ :: sub :: _ => String.eqb sub "diff"
  | _ => false
  end.

Definition is_agent (c : command) : bool :=
  match argv c with
  | _ :: sub :: _ => String.eqb sub "run"
  | _ => false
  end.

Definition is_checkout_of (commit : string) (c : command) : bool :=
  match argv c with
  | [_; sub; rev] => String.eqb sub "checkout" && String.eqb rev commit
  | _ => false
  end.

Definition base_env (answer : nat -> command -> outcome) : environ :=
  {| home := "/home/u";
     os_environ := {[ "ANTHROPIC_API_KEY" := "sk-live"; "PATH" := "/usr/bin" ]};
     load_dataset := [inst1; inst2];
     dir_exists := fun _ _ => false;
     child := answer;
     elapsed := fun _ => 50;
     env_file := fun _ => None;
     mkdtemp := fun _ => "/tmp/swe-bench-k3" |}.

(** Every child process exits 0; the working tree shows a 26-character diff. *)
Definition E_ok : environ :=
  base_env (fun _ c =>
    if is_diff c then Returned 0 "diff --git a/p.py b/p.py
" "" else Returned 0 "" "").

(** The agent never exits by itself; the working tree is left untouched. *)
Definition E_hang : environ :=
  base_env (fun _ c =>
    if is_agent c then Raised (TimeoutExpired "timed out after 5 seconds")
    else Returned 0 "" "").

(** Every clone runs into its timeout. *)
Definition E_noclone : environ :=
  base_env (fun _ c =>
    if is_clone c then Raised (TimeoutExpired "timed out after 180 seconds")
    else Returned 0 "" "").

(** The shallow clone exits 128 and the full clone runs into its timeout. *)
Definition E_retry_timeout : environ :=
  base_env (fun n c =>
    if is_clone c then
      match n with
      | O => Returned 128 "" "fatal: unable to access"
      | _ => Raised (TimeoutExpired "timed out after 300 seconds")
      end
    else Returned 0 "" "").

(** Both clones exit 128 but leave their directory behind, so that the
    later git calls run (and fail) in it. *)
Definition E_clone_exit128 : environ :=
  base_env (fun _ c =>
    if is_agent c then Returned 0 "" ""
    else Returned 128 "" "fatal").

(** The shallow clone succeeds but the base commit is older than its depth:
    [git checkout abc123] exits 128. *)
Definition E_shallow_miss : environ :=
  base_env (fun _ c =>
    if is_checkout_of "abc123" c
    then Returned 128 "" "fatal: reference is not a tree: abc123"
    else Returned 0 "" "").

(** The agent prints an empty delimited block although the working tree
    holds a change. *)
Definition E_empty_block : environ :=
  base_env (fun _ c =>
    if is_agent c then Returned 0 "--- PATCH ---
--- END PATCH ---
" ""
    else if is_diff c then Returned 0 "diff --git a/p.py b/p.py
" ""
    else Returned 0 "" "").

(** The agent prints a delimited block; the working tree holds another
    change. *)
Definition E_block : environ :=
  base_env (fun _ c =>
    if is_agent c then Returned 0 "done
--- PATCH ---
diff --git a/q.py b/q.py
--- END PATCH ---
bye" ""
    else if is_diff c then Returned 0 "diff --git a/p.py b/p.py
" ""
    else Returned 0 "" "").

(** An [.env] file next to the agent. *)
Definition E_dotenv : environ :=
  {| home := "/home/u";
     os_environ := {[ "PATH" := "/usr/bin" ]};
     load_dataset := [inst1];
     dir_exists := fun _ _ => false;
     child := fun _ _ => Returned 0 "" "";
     elapsed := fun _ => 50;
     env_file := fun _ => Some "# keys

ANTHROPIC_API_KEY=sk-live=x
";
     mkdtemp := fun _ => "/tmp/swe-bench-k3" |}.

(** The workspaces are already on disk; every child process exits 0. *)
Definition E_reuse : environ :=
  {| home := "/home/u";
     os_environ := {[ "PATH" := "/usr/bin" ]};
     load_dataset := [inst1; inst2];
     dir_exists := fun _ _ => true;
     child := fun _ _ => Returned 0 "" "";
     elapsed := fun _ => 50;
     env_file := fun _ => None;
     mkdtemp := fun _ => "/tmp/swe-bench-k3" |}.

(** The agent binary is missing: its launch raises FileNotFoundError. *)
Definition E_no_binary : environ :=
  base_env (fun _ c =>
    if is_agent c then Raised (OSError "No such file or directory")
    else Returned 0 "" "").

(** The agent never exits by itself, but has changed the working tree. *)
Definition E_hang_dirty : environ :=
  base_env (fun _ c =>
    if is_agent c then Raised (TimeoutExpired "timed out after 600 seconds")
    else if is_diff c then Returned 0 "diff --git a/p.py b/p.py
" ""
    else Returned 0 "" "").


(** The agent binary disappears after the first attempt: the second
    launch (the eleventh child process) raises FileNotFoundError. *)
Definition E_second_agent_missing : environ :=
  base_env (fun n c =>
    if is_agent c && (5 <? Z.of_nat n)
    then Raised (OSError "No such file or directory")
    else Returned 0 "" "").

(** The clone of the first instance succeeds; every later clone (the
    first one is the first child process) runs into its timeout. *)
Definition E_second_clone_times_out : environ :=
  base_env (fun n c =>
    if is_clone c && (0 <? Z.of_nat n)
    then Raised (TimeoutExpired "timed out after 120 seconds")
    else if is_diff c then Returned 0 "diff --git a/p.py b/p.py
" ""
    else Returned 0 "" "").

(** Every child process exits 0; only the working tree of proj-1 shows a
    diff. *)
Definition E_one_patch : environ :=
  base_env (fun _ c =>
    if is_diff c && bool_decide (cwd c = Some "/tmp/swe-repos/proj-1")
    then Returned 0 "diff --git a/p.py b/p.py
" ""
    else Returned 0 "" "").

(** [int] on the plain decimal numerals the samples use. *)
Fixpoint digits_value (acc : Z) (s : string) : option Z :=
  match s with
  | EmptyString => Some acc
  | String c s' =>
      let d := Z.of_N (N_of_ascii c) - 48 in
      if (0 <=? d) && (d <=? 9) then digits_value (10 * acc + d) s' else None
  end.

Definition int_of_numeral (s : string) : option Z :=
  match s with
  | EmptyString => None
  | _ => digits_value 0 s
  end.

(** [AGENTS["coding"]] under [home = /home/u]. *)
Definition coding_agent : string :=
  "/home/u/clawd/neocognos/cognos-lang/examples/coding-agent-opus.cog".

Definition full_args : Full.args :=
  {| Full.arg_start := 0; Full.arg_limit := 300;
     Full.arg_instance := None; Full.arg_timeout := 300 |}.

Definition one_at_a_time : Full.args :=
  {| Full.arg_start := 1; Full.arg_limit := 1;
     Full.arg_instance := None; Full.arg_timeout := 300 |}.

Definition only_proj_9 : Full.args :=
  {| Full.arg_start := 0; Full.arg_limit := 300;
     Full.arg_instance := Some "proj-9"; Full.arg_timeout := 300 |}.

Definition run_args : Run.args :=
  {| Run.arg_n := 5; Run.arg_start := 0;
     Run.arg_output_file := "/tmp/cognos-swe-predictions.jsonl";
     Run.arg_easy_first := false; Run.arg_agent_name := "coding" |}.

Definition easy_args : Run.args :=
  {| Run.arg_n := 5; Run.arg_start := 0;
     Run.arg_output_file := "/tmp/cognos-swe-predictions.jsonl";
     Run.arg_easy_first := true; Run.arg_agent_name := "coding" |}.

Definition typo_args : Run.args :=
  {| Run.arg_n := 5; Run.arg_start := 0;
     Run.arg_output_file := "/tmp/cognos-swe-predictions.jsonl";
     Run.arg_easy_first := false; Run.arg_agent_name := "codign" |}.

End Sample.

(** * Properties *)

(** ** Strings and paths *)

Lemma last_char_None (s : string) : PyStr.last_char s = None -> s = "".
Proof.
  destruct s as [|c s]; [reflexivity|].
  simpl. destruct (PyStr.last_char s); discriminate.
Qed.

Lemma last_char_app (a b : string) :
  b <> "" -> PyStr.last_char (a +:+ b) = PyStr.last_char b.
Proof.
  intros Hb. induction a as [|c a IH]; simpl; [reflexivity|].
  rewrite IH. destruct (PyStr.last_char b) eqn:Hl; [reflexivity|].
  apply last_char_None in Hl. contradiction.
Qed.

Lemma join2_last_char (a b : string) :
  b <> "" -> PyStr.last_char (join2 a b) = PyStr.last_char b.
Proof.
  intros Hb. unfold join2.
  destruct (PyStr.startswith "/" b); [reflexivity|].
  destruct (PyStr.is_empty a || bool_decide (PyStr.last_char a = Some "/"%char)).
  - now apply last_char_app.
  - rewrite last_char_app; [now apply (last_char_app "/")|].
    destruct b; [contradiction|discriminate].
Qed.

Lemma app_suffix_nonempty (a : string) (c : ascii) (b : string) :
  a +:+ String c b <> "".
Proof. destruct a; discriminate. Qed.

Lemma log_file_last_char (E : environ) (iid : string) :
  PyStr.last_char (Full.log_file E iid) = Some "g"%char.
Proof.
  unfold Full.log_file, path_join. simpl.
  rewrite join2_last_char by apply app_suffix_nonempty.
  now rewrite last_char_app.
Qed.

Lemma patch_file_last_char (E : environ) (iid : string) :
  PyStr.last_char (Full.patch_file E iid) = Some "h"%char.
Proof.
  unfold Full.patch_file, path_join. simpl.
  rewrite join2_last_char by apply app_suffix_nonempty.
  now rewrite last_char_app.
Qed.

Lemma results_file_last_char (E : environ) :
  PyStr.last_char (Full.results_file E) = Some "l"%char.
Proof.
  unfold Full.results_file, path_join. simpl.
  now rewrite join2_last_char.
Qed.

Lemma log_file_neq_patch_file (E : environ) (i j : string) :
  Full.log_file E i <> Full.patch_file E j.
Proof.
  intros H. apply (f_equal PyStr.last_char) in H.
  rewrite log_file_last_char, patch_file_last_char in H. discriminate.
Qed.

Lemma log_file_neq_results_file (E : environ) (i : string) :
  Full.log_file E i <> Full.results_file E.
Proof.
  intros H. apply (f_equal PyStr.last_char) in H.
  rewrite log_file_last_char, results_file_last_char in H. discriminate.
Qed.

Lemma log_file_neq_scratch (E : environ) (i : string) :
  Full.log_file E i <> Full.issue_file /\ Full.log_file E i <> Full.repo_file.
Proof.
  split; intros H; apply (f_equal PyStr.last_char) in H;
    rewrite log_file_last_char in H; discriminate.
Qed.

Lemma patch_file_neq_scratch (E : environ) (i : string) :
  Full.patch_file E i <> Full.issue_file /\ Full.patch_file E i <> Full.repo_file.
Proof.
  split; intros H; apply (f_equal PyStr.last_char) in H;
    rewrite patch_file_last_char in H; discriminate.
Qed.

(** The harness paths depend on the environment through [home] only. *)
Lemma log_file_home (E1 E2 : environ) (iid : string) :
  home E2 = home E1 -> Full.log_file E2 iid = Full.log_file E1 iid.
Proof.
  intros H. unfold Full.log_file, Full.RESULTS_DIR, expanduser. now rewrite H.
Qed.

(** ** [setup_repo] *)

Ltac destruct_child :=
  match goal with
  | H : context [match child ?E ?n ?c with _ => _ end] |- _ =>
      let Hc := fresh "Hchild" in destruct (child E n c) as [? ? ?|?] eqn:Hc
  | |- context [match child ?E ?n ?c with _ => _ end] =>
      let Hc := fresh "Hchild" in destruct (child E n c) as [? ? ?|?] eqn:Hc
  end.

Ltac destruct_if :=
  match goal with
  | H : context [if ?b then _ else _] |- _ => destruct b eqn:?
  | |- context [if ?b then _ else _] => destruct b eqn:?
  end.

Ltac unfold_setup :=
  unfold Full.setup_repo, bind, workspace_exists, subprocess_run, ret, clock in *;
  simpl in *.

Ltac pair_inv :=
  repeat match goal with
         | H : (_, _) = (_, _) |- _ => inversion H; subst; clear H
         end.

(** Provisioning touches no file of the harness, and launches git only. *)
Lemma setup_repo_frame (E : environ) (inst : instance) (w w1 : world) (r : res string) :
  Full.setup_repo E inst w = (r, w1) ->
  files w1 = files w /\
  exists cs, trace w1 = (trace w ++ cs)%list /\ Forall (fun c => is_git c = true) cs.
Proof.
  intros H. unfold_setup.
  repeat (first [destruct_child | destruct_if]; simpl in * );
    pair_inv; simpl; (split; [reflexivity|]);
    rewrite <- ?app_assoc; simpl;
    (eexists; split; [reflexivity | repeat constructor]).
Qed.

Lemma setup_repo_path (E : environ) (inst : instance) (w w1 : world) (p : string) :
  Full.setup_repo E inst w = (Ok p, w1) -> p = Full.repo_path_of (instance_id inst).
Proof.
  intros H. unfold_setup.
  repeat (first [destruct_child | destruct_if]; simpl in * ); pair_inv;
    try discriminate; reflexivity.
Qed.



Lemma launched_app (fs fs' : gmap string (list chunk)) (tr cs : list command) :
  launched {| files := fs; trace := tr |} {| files := fs'; trace := (tr ++ cs)%list |} = cs.
Proof.
  unfold launched. simpl. rewrite skipn_app, skipn_all, Nat.sub_diag. reflexivity.
Qed.

Lemma launched_app_from (w : world) (fs' : gmap string (list chunk)) (cs : list command) :
  launched w {| files := fs'; trace := (trace w ++ cs)%list |} = cs.
Proof. destruct w. apply launched_app. Qed.

(** ** [run_instance] of swe-bench-full.py *)

(** Every way [run_instance] can return a result. *)
Lemma run_instance_inv (E : environ) (inst : instance) (tmo : Z) (w w' : world) (r : dict) :
  Full.run_instance E inst tmo w = (Ok r, w') ->
  (exists e, Full.setup_repo E inst w = (Raise e, w') /\ is_Exception e = true /\
             r = Full.clone_failed_result (instance_id inst) e)
  \/
  (exists w1 output exit_code rc dout derr,
     let repo_path := Full.repo_path_of (instance_id inst) in
     Full.setup_repo E inst w = (Ok repo_path, w1) /\
     agent_capture (child E (clock w1) (Full.agent_cmd E tmo)) = Some (output, exit_code) /\
     child E (S (clock w1)) (Full.git_in repo_path ["diff"]) = Returned rc dout derr /\
     r = Full.completed_result (instance_id inst) (PyStr.strip dout)
           (Full.detect_mode output) (elapsed E (S (clock w1))) exit_code /\
     files w' = files_after_attempt E inst repo_path output (PyStr.strip dout) (files w) /\
     trace w' = (trace w1 ++ [Full.agent_cmd E tmo; Full.git_in repo_path ["diff"]])%list).
Proof.
  unfold Full.run_instance, bind, attempt.
  destruct (Full.setup_repo E inst w) as [[p|e] w1] eqn:Hs.
  - (* provisioning returned *)
    pose proof (setup_repo_path _ _ _ _ _ Hs) as ->.
    pose proof (setup_repo_frame _ _ _ _ _ Hs) as [Hf _].
    intros H. right. revert H.
    unfold write_file, subprocess_run, elapsed_since_start, ret, clock. simpl.
    destruct (child E (List.length (trace w1)) (Full.agent_cmd E tmo))
      as [rc out err|e] eqn:Ha; simpl.
    + rewrite ?length_app; simpl; rewrite ?Nat.add_1_r.
      destruct (child E _ (Full.git_in _ ["diff"])) as [rc2 dout derr|e2] eqn:Hd;
        simpl; [|discriminate].
      intros H.
      exists w1, (out +:+ err), rc, rc2, dout, derr. simpl.
      unfold agent_capture, clock. rewrite Ha, Hd.
      repeat split; try reflexivity.
      * destruct (Full.has_patch (PyStr.strip dout)); simpl in H; now inversion H.
      * unfold files_after_attempt. rewrite <- Hf.
        destruct (Full.has_patch (PyStr.strip dout)); simpl in H; now inversion H.
      * destruct (Full.has_patch (PyStr.strip dout)); simpl in H; inversion H; simpl;
          now rewrite <- app_assoc.
    + destruct (is_TimeoutExpired e) eqn:Ht; simpl; [|discriminate].
      rewrite ?length_app; simpl; rewrite ?Nat.add_1_r.
      destruct (child E _ (Full.git_in _ ["diff"])) as [rc2 dout derr|e2] eqn:Hd;
        simpl; [|discriminate].
      intros H.
      exists w1, "TIMEOUT", (-1), rc2, dout, derr. simpl.
      unfold agent_capture, clock. rewrite Ha, Hd. simpl. rewrite Ht.
      repeat split; try reflexivity.
      * destruct (Full.has_patch (PyStr.strip dout)); simpl in H; now inversion H.
      * unfold files_after_attempt. rewrite <- Hf.
        destruct (Full.has_patch (PyStr.strip dout)); simpl in H; now inversion H.
      * destruct (Full.has_patch (PyStr.strip dout)); simpl in H; inversion H; simpl;
          now rewrite <- app_assoc.
  - (* provisioning raised *)
    destruct (is_Exception e) eqn:He; simpl; [|discriminate].
    unfold ret. intros H. inversion H; subst. left. eauto.
Qed.


Lemma has_patch_iff (patch : string) :
  Full.has_patch patch = true <-> 10 < Z.of_nat (String.length patch).
Proof.
  unfold Full.has_patch. rewrite andb_true_iff, Z.ltb_lt.
  split; [tauto|]. intros H. split; [|assumption].
  destruct patch; [simpl in H; lia | reflexivity].
Qed.

Lemma completed_status (iid patch mode : string) (t x : Z) :
  status_of (Full.completed_result iid patch mode t x) =
    Some (VStr (if Full.has_patch patch then "PATCH" else "NO_PATCH")).
Proof. reflexivity. Qed.

Lemma files_after_attempt_log (E : environ) (inst : instance) (rp output patch : string)
    (fs : gmap string (list chunk)) :
  files_after_attempt E inst rp output patch fs !! Full.log_file E (instance_id inst)
    = Some [Text output].
Proof. unfold files_after_attempt. now rewrite lookup_insert_eq. Qed.

Lemma files_after_attempt_patch (E : environ) (inst : instance) (rp output patch : string)
    (fs : gmap string (list chunk)) :
  files_after_attempt E inst rp output patch fs !! Full.patch_file E (instance_id inst)
    = if Full.has_patch patch then Some [Text patch]
      else fs !! Full.patch_file E (instance_id inst).
Proof.
  unfold files_after_attempt.
  rewrite lookup_insert_ne by apply log_file_neq_patch_file.
  destruct (patch_file_neq_scratch E (instance_id inst)) as [Hi Hr].
  destruct (Full.has_patch patch).
  - now rewrite lookup_insert_eq.
  - rewrite !lookup_insert_ne by congruence. reflexivity.
Qed.

(** Files are only ever added or overwritten by an attempt. *)
Lemma files_after_attempt_mono (E : environ) (inst : instance) (rp output patch : string)
    (fs : gmap string (list chunk)) (p : string) :
  is_Some (fs !! p) -> is_Some (files_after_attempt E inst rp output patch fs !! p).
Proof.
  intros H. unfold files_after_attempt.
  destruct (Full.has_patch patch);
    repeat (rewrite lookup_insert; case_decide; [eauto|]); assumption.
Qed.

(** ** The claims about swe-bench-full.py *)




(** C3: a result of a completed (not clone-failed) attempt has status PATCH
    exactly when the trimmed output of the attempt's [git diff] is longer
    than 10 characters; at or below that it has status NO_PATCH and the
    attempt leaves the patch file as it was. *)
Theorem C3_status_PATCH_iff_over_threshold (E : environ) (inst : instance) (tmo : Z)
    (w w' : world) (r : dict) :
  Full.run_instance E inst tmo w = (Ok r, w') ->
  status_of r <> Some (VStr "CLONE_FAILED") ->
  exists rc dout derr,
    child E (Nat.pred (clock w')) (Full.git_in (Full.repo_path_of (instance_id inst)) ["diff"])
      = Returned rc dout derr /\
    let patch := PyStr.strip dout in
    let len := Z.of_nat (String.length patch) in
    (status_of r = Some (VStr "PATCH") <-> 10 < len) /\
    (len <= 10 ->
       status_of r = Some (VStr "NO_PATCH") /\
       files w' !! Full.patch_file E (instance_id inst)
         = files w !! Full.patch_file E (instance_id inst)) /\
    (10 < len ->
       files w' !! Full.patch_file E (instance_id inst) = Some [Text patch]).
Proof.
  intros Hrun Hst.
  destruct (run_instance_inv _ _ _ _ _ _ Hrun)
    as [(e & _ & _ & ->) | (w1 & output & x & rc & dout & derr & Hs & Ha & Hd & -> & Hf & Ht)].
  { exfalso. apply Hst. reflexivity. }
  exists rc, dout, derr. split.
  { unfold clock. rewrite Ht, length_app. simpl.
    replace (Nat.pred (List.length (trace w1) + 2)) with (S (List.length (trace w1))) by lia.
    exact Hd. }
  cbv zeta. rewrite completed_status, Hf, files_after_attempt_patch.
  pose proof (has_patch_iff (PyStr.strip dout)) as Hp.
  destruct (Full.has_patch (PyStr.strip dout)).
  - assert (10 < Z.of_nat (String.length (PyStr.strip dout))) by (now apply Hp).
    repeat split; intros; try reflexivity; try assumption; lia.
  - assert (~ 10 < Z.of_nat (String.length (PyStr.strip dout)))
      by (intros H; apply Hp in H; discriminate).
    repeat split; intros; try reflexivity; try discriminate; try lia.
Qed.

Lemma C3_status_PATCH_iff_over_threshold_witness :
  exists rc dout derr,
    child Sample.E_ok 5 (Full.git_in "/tmp/swe-repos/proj-1" ["diff"]) = Returned rc dout derr /\
    let patch := PyStr.strip dout in
    let len := Z.of_nat (String.length patch) in
    (status_of (Full.completed_result "proj-1" "diff --git a/p.py b/p.py" "unknown" 50 0)
       = Some (VStr "PATCH") <-> 10 < len) /\
    (len <= 10 ->
       status_of (Full.completed_result "proj-1" "diff --git a/p.py b/p.py" "unknown" 50 0)
         = Some (VStr "NO_PATCH") /\
       files (snd (Full.run_instance Sample.E_ok Sample.inst1 300 Sample.w0))
         !! Full.patch_file Sample.E_ok "proj-1"
         = files Sample.w0 !! Full.patch_file Sample.E_ok "proj-1") /\
    (10 < len ->
       files (snd (Full.run_instance Sample.E_ok Sample.inst1 300 Sample.w0))
         !! Full.patch_file Sample.E_ok "proj-1" = Some [Text patch]).
Proof.
  apply (C3_status_PATCH_iff_over_threshold Sample.E_ok Sample.inst1 300 Sample.w0
           (snd (Full.run_instance Sample.E_ok Sample.inst1 300 Sample.w0))
           (Full.completed_result "proj-1" "diff --git a/p.py b/p.py" "unknown" 50 0)).
  - vm_compute. reflexivity.
  - vm_compute. discriminate.
Defined.

(** C5, as the code has it: an attempt whose provisioning raised returns
    the CLONE_FAILED result and writes no file at all; every other attempt
    that returns has written the captured output (stdout followed by
    stderr, or the literal TIMEOUT) to its log file, and has written the
    patch file exactly when the trimmed diff is longer than 10 characters. *)
Theorem C5_artifacts_of_an_attempt (E : environ) (inst : instance) (tmo : Z)
    (w w' : world) (r : dict) :
  Full.run_instance E inst tmo w = (Ok r, w') ->
  (status_of r = Some (VStr "CLONE_FAILED") /\ files w' = files w)
  \/
  (exists n output exit_code rc dout derr,
     agent_capture (child E n (Full.agent_cmd E tmo)) = Some (output, exit_code) /\
     child E (S n) (Full.git_in (Full.repo_path_of (instance_id inst)) ["diff"])
       = Returned rc dout derr /\
     status_of r <> Some (VStr "CLONE_FAILED") /\
     files w' !! Full.log_file E (instance_id inst) = Some [Text output] /\
     files w' !! Full.patch_file E (instance_id inst)
       = if 10 <? Z.of_nat (String.length (PyStr.strip dout))
         then Some [Text (PyStr.strip dout)]
         else files w !! Full.patch_file E (instance_id inst)).
Proof.
  intros Hrun.
  destruct (run_instance_inv _ _ _ _ _ _ Hrun)
    as [(e & Hs & _ & ->) | (w1 & output & x & rc & dout & derr & Hs & Ha & Hd & -> & Hf & Ht)].
  - left. split; [reflexivity|]. now apply setup_repo_frame in Hs.
  - right. exists (clock w1), output, x, rc, dout, derr.
    repeat split; try assumption.
    + rewrite completed_status. destruct (Full.has_patch _); discriminate.
    + rewrite Hf. apply files_after_attempt_log.
    + rewrite Hf, files_after_attempt_patch.
      pose proof (has_patch_iff (PyStr.strip dout)) as Hp.
      destruct (Full.has_patch (PyStr.strip dout)).
      * replace (10 <? _) with true; [reflexivity|].
        symmetry. apply Z.ltb_lt. now apply Hp.
      * replace (10 <? _) with false; [reflexivity|].
        symmetry. apply Z.ltb_ge. apply Z.nlt_ge. intros H. apply Hp in H. discriminate.
Qed.

Lemma C5_artifacts_of_an_attempt_witness :
  (status_of (Full.completed_result "proj-1" "diff --git a/p.py b/p.py" "unknown" 50 0)
     = Some (VStr "CLONE_FAILED") /\
   files (snd (Full.run_instance Sample.E_ok Sample.inst1 300 Sample.w0)) = files Sample.w0)
  \/
  (exists n output exit_code rc dout derr,
     agent_capture (child Sample.E_ok n (Full.agent_cmd Sample.E_ok 300))
       = Some (output, exit_code) /\
     child Sample.E_ok (S n) (Full.git_in "/tmp/swe-repos/proj-1" ["diff"])
       = Returned rc dout derr /\
     status_of (Full.completed_result "proj-1" "diff --git a/p.py b/p.py" "unknown" 50 0)
       <> Some (VStr "CLONE_FAILED") /\
     files (snd (Full.run_instance Sample.E_ok Sample.inst1 300 Sample.w0))
       !! Full.log_file Sample.E_ok "proj-1" = Some [Text output] /\
     files (snd (Full.run_instance Sample.E_ok Sample.inst1 300 Sample.w0))
       !! Full.patch_file Sample.E_ok "proj-1"
       = if 10 <? Z.of_nat (String.length (PyStr.strip dout))
         then Some [Text (PyStr.strip dout)]
         else files Sample.w0 !! Full.patch_file Sample.E_ok "proj-1").
Proof.
  apply (C5_artifacts_of_an_attempt Sample.E_ok Sample.inst1 300 Sample.w0
           (snd (Full.run_instance Sample.E_ok Sample.inst1 300 Sample.w0))
           (Full.completed_result "proj-1" "diff --git a/p.py b/p.py" "unknown" 50 0)).
  vm_compute. reflexivity.
Defined.

(** C5 as stated fails: the clone of [E_noclone] runs into its timeout,
    the attempt ends with status CLONE_FAILED, and no log file exists
    afterwards (nor any other file). *)
Lemma C5_clone_failure_writes_no_log :
  fst (Full.run_instance Sample.E_noclone Sample.inst1 300 Sample.w0)
    = Ok [("id", VStr "proj-1"); ("status", VStr "CLONE_FAILED");
          ("error", VStr "timed out after 180 seconds")] /\
  files (snd (Full.run_instance Sample.E_noclone Sample.inst1 300 Sample.w0))
    !! Full.log_file Sample.E_noclone "proj-1" = None /\
  files (snd (Full.run_instance Sample.E_noclone Sample.inst1 300 Sample.w0)) = ∅.
Proof. repeat split; vm_compute; reflexivity. Qed.




(** C2, on the code: with the shallow clone exiting 128 and the full-clone
    retry running into its timeout, [run_instance] does return the
    CLONE_FAILED result, but [main] then raises [KeyError: 'time'] while it
    formats the progress line: nothing is appended to the results log and
    the second instance of the dataset is never attempted.  And with both
    clones exiting 128 without raising, the attempt is not recorded as
    CLONE_FAILED at all. *)
Theorem C2_clone_failure_halts_the_run :
  load_dataset Sample.E_retry_timeout = [Sample.inst1; Sample.inst2] /\
  fst (Full.run_instance Sample.E_retry_timeout Sample.inst1 300 Sample.w0)
    = Ok [("id", VStr "proj-1"); ("status", VStr "CLONE_FAILED");
          ("error", VStr "timed out after 300 seconds")] /\
  Full.main Sample.E_retry_timeout Sample.full_args Sample.w0
    = (Raise (KeyError "time"),
       {| files := ∅;
          trace := [Full.clone_shallow "org/proj" "/tmp/swe-repos/proj-1";
                    Full.clone_full "org/proj" "/tmp/swe-repos/proj-1"] |}) /\
  fst (Full.run_instance Sample.E_clone_exit128 Sample.inst1 300 Sample.w0)
    = Ok [("id", VStr "proj-1"); ("status", VStr "NO_PATCH"); ("patch_size", VInt 0);
          ("mode", VStr "unknown"); ("time", VFloat 50); ("exit_code", VInt 0)].
Proof. repeat split; vm_compute; reflexivity. Qed.

(** C7, on the code: the shallow clone succeeds, [git checkout abc123]
    exits 128 because the commit lies beyond the clone's depth, and
    [setup_repo] returns the workspace all the same; the agent is launched
    on a checkout that is not at the base revision. *)
Theorem C7_failed_checkout_goes_unnoticed :
  child Sample.E_shallow_miss 1 (Full.git_in "/tmp/swe-repos/proj-1" ["checkout"; "abc123"])
    = Returned 128 "" "fatal: reference is not a tree: abc123" /\
  fst (Full.setup_repo Sample.E_shallow_miss Sample.inst1 Sample.w0)
    = Ok "/tmp/swe-repos/proj-1" /\
  List.map argv
    (launched Sample.w0 (snd (Full.run_instance Sample.E_shallow_miss Sample.inst1 300 Sample.w0)))
    = [ ["git"; "clone"; "--depth"; "200"; "https://github.com/org/proj.git";
         "/tmp/swe-repos/proj-1"];
        ["git"; "checkout"; "abc123"];
        ["git"; "checkout"; "--"; "."];
        ["git"; "clean"; "-fd"];
        ["/home/u/clawd/neocognos/cognos-lang/target/release/cognos"; "run";
         "--allow-shell"; "/home/u/clawd/neocognos/cognos-lang/examples/meta-agent-v3.cog"];
        ["git"; "diff"] ] /\
  files (snd (Full.run_instance Sample.E_shallow_miss Sample.inst1 300 Sample.w0))
    !! Full.repo_file = Some [Text "/tmp/swe-repos/proj-1"].
Proof. repeat split; vm_compute; reflexivity. Qed.

(** ** Resuming a run *)

(** An attempt never removes a file of the harness. *)
Lemma run_instance_files_mono (E : environ) (inst : instance) (tmo : Z) (w w' : world)
    (x : res dict) (p : string) :
  Full.run_instance E inst tmo w = (x, w') ->
  is_Some (files w !! p) -> is_Some (files w' !! p).
Proof.
  unfold Full.run_instance, bind, attempt.
  destruct (Full.setup_repo E inst w) as [[rp|e] w1] eqn:Hs;
    pose proof (setup_repo_frame _ _ _ _ _ Hs) as [Hf _].
  - unfold write_file, subprocess_run, elapsed_since_start, ret, clock. simpl.
    rewrite Hf.
    assert (Hscratch : is_Some (files w !! p) ->
              is_Some (<[Full.repo_file := [Text rp]]>
                         (<[Full.issue_file := [Text (problem_statement inst)]]> (files w)) !! p)).
    { intros H. repeat (rewrite lookup_insert; case_decide; [eauto|]). assumption. }
    destruct (child E (List.length (trace w1)) (Full.agent_cmd E tmo)) as [rc out err|e];
      simpl.
    + destruct (child E _ _) as [rc2 dout derr|e2]; simpl;
        [destruct (Full.has_patch _); simpl|];
        intros H Hp; inversion H; subst; simpl;
        repeat (rewrite lookup_insert; case_decide; [eauto|]); auto.
    + destruct (is_TimeoutExpired e); simpl;
        [destruct (child E _ _) as [rc2 dout derr|e2]; simpl;
         [destruct (Full.has_patch _); simpl|]|];
        intros H Hp; inversion H; subst; simpl;
        repeat (rewrite lookup_insert; case_decide; [eauto|]); auto.
  - destruct (is_Exception e); unfold ret; intros H Hp; inversion H; subst;
      now rewrite Hf.
Qed.

(** A result that has a ["time"] entry comes with a log file. *)
Lemma run_instance_timed_has_log (E : environ) (inst : instance) (tmo : Z) (w w' : world)
    (r : dict) (v : value) :
  Full.run_instance E inst tmo w = (Ok r, w') ->
  dict_lookup r "time" = Some v ->
  is_Some (files w' !! Full.log_file E (instance_id inst)).
Proof.
  intros Hrun Ht.
  destruct (run_instance_inv _ _ _ _ _ _ Hrun)
    as [(e & _ & _ & ->) | (w1 & output & x & rc & dout & derr & _ & _ & _ & _ & Hf & _)].
  - discriminate.
  - rewrite Hf, files_after_attempt_log. eauto.
Qed.

Lemma append_json_files_mono (path : string) (d : dict) (w : world) (p : string) :
  is_Some (files w !! p) -> is_Some (files (snd (append_json path d w)) !! p).
Proof.
  intros H. simpl. rewrite lookup_insert. case_decide; [eauto|assumption].
Qed.

(** After a loop that ran to its end, every instance it went over has a
    log file, and no file has disappeared. *)
Lemma main_loop_all_logged (E : environ) (tmo : Z) (ds : list instance) :
  forall (results results' : list dict) (w w' : world),
    Full.main_loop E tmo ds results w = (Ok results', w') ->
    (forall p, is_Some (files w !! p) -> is_Some (files w' !! p)) /\
    Forall (fun inst => is_Some (files w' !! Full.log_file E (instance_id inst))) ds.
Proof.
  induction ds as [|inst ds IH]; intros results results' w w' H.
  - simpl in H. unfold ret in H. inversion H; subst. split; [auto|constructor].
  - simpl in H. unfold bind at 1 in H. unfold file_exists in H. simpl in H.
    case_bool_decide as Hlog.
    + apply IH in H. destruct H as [Hmono Hall].
      split; [assumption|]. constructor; [now apply Hmono | assumption].
    + unfold bind at 1 in H.
      destruct (Full.run_instance E inst tmo w) as [[r|e] w1] eqn:Hrun; [|discriminate].
      unfold bind, dict_get in H.
      destruct (dict_lookup r "status") as [st|]; [|discriminate]. simpl in H.
      destruct (dict_lookup r "time") as [t|] eqn:Htime; [|discriminate]. simpl in H.
      destruct (dict_lookup r "mode") as [m|]; [|discriminate]. simpl in H.
      apply IH in H. destruct H as [Hmono Hall].
      assert (Hstep : forall p, is_Some (files w !! p) -> is_Some (files w' !! p)).
      { intros p Hp. apply Hmono. apply append_json_files_mono.
        eapply run_instance_files_mono; eassumption. }
      split; [assumption|]. constructor; [|assumption].
      apply Hmono. apply append_json_files_mono.
      eapply run_instance_timed_has_log; eassumption.
Qed.

(** A loop over instances that all have their log file does nothing. *)
Lemma main_loop_skips_logged (E : environ) (tmo : Z) (ds : list instance)
    (results : list dict) (w : world) :
  Forall (fun inst => is_Some (files w !! Full.log_file E (instance_id inst))) ds ->
  Full.main_loop E tmo ds results w = (Ok results, w).
Proof.
  induction 1 as [|inst ds Hlog _ IH]; [reflexivity|].
  simpl. unfold bind at 1. unfold file_exists. simpl.
  rewrite bool_decide_eq_true_2 by assumption. exact IH.
Qed.

Lemma logged_under_same_home (E1 E2 : environ) (tmo : Z) (ds : list instance)
    (w : world) :
  home E2 = home E1 ->
  Forall (fun inst => is_Some (files w !! Full.log_file E1 (instance_id inst))) ds ->
  Forall (fun inst => is_Some (files w !! Full.log_file E2 (instance_id inst))) ds.
Proof.
  intros Hh H. induction H as [|inst ds Hi _ IH]; constructor; [|assumption].
  now rewrite (log_file_home E1 E2).
Qed.

(** After a first run that ran to completion, a second run over the same
    dataset with the same arguments, whatever its environment answers,
    returns without launching any child process and leaves every file of
    the harness as it was. *)
Lemma main_after_completed_run (E1 E2 : environ) (a : Full.args) (w0 w1 : world)
    (s : option (Z * Z)) :
  load_dataset E2 = load_dataset E1 ->
  home E2 = home E1 ->
  Full.main E1 a w0 = (Ok s, w1) ->
  exists s', Full.main E2 a w1 = (Ok s', w1).
Proof.
  intros Hds Hhome. unfold Full.main. rewrite Hds.
  set (sel := match Full.arg_instance a with
              | Some id => _
              | None => _
              end).
  destruct sel as [[]|ds]; [eauto|].
  unfold bind at 1.
  destruct (Full.main_loop E1 (Full.arg_timeout a) ds [] w0) as [[rs|e] w'] eqn:Hloop;
    [|discriminate].
  intros H.
  assert (w' = w1) as ->.
  { unfold bind in H. destruct (Full.count_patches rs w') as [[n|e] w''] eqn:Hc.
    - assert (w'' = w').
      { clear -Hc. revert n w' w'' Hc. induction rs as [|r rs IH]; intros n w' w'' Hc.
        - simpl in Hc. unfold ret in Hc. now inversion Hc.
        - simpl in Hc. unfold bind, dict_get in Hc.
          destruct (dict_lookup r "status"); [|discriminate]. unfold ret in Hc at 1.
          destruct (Full.count_patches rs w') as [[m|e] w3] eqn:Hm; [|discriminate].
          unfold ret in Hc. inversion Hc; subst. eapply IH; eassumption. }
      subst. unfold ret in H. now inversion H.
    - discriminate. }
  apply main_loop_all_logged in Hloop. destruct Hloop as [_ Hall].
  apply (logged_under_same_home E1 E2 (Full.arg_timeout a)) in Hall; [|assumption].
  unfold bind.
  rewrite (main_loop_skips_logged E2 (Full.arg_timeout a) ds [] w1 Hall).
  simpl. unfold ret. eauto.
Qed.

Lemma logged_mono_attempt (E : environ) (inst : instance) (tmo : Z) (w w1 : world)
    (x : res dict) (i : instance) :
  Full.run_instance E inst tmo w = (x, w1) ->
  logged E w i = true -> logged E w1 i = true.
Proof.
  unfold logged. intros Hrun H. apply bool_decide_eq_true in H.
  apply bool_decide_eq_true. eapply run_instance_files_mono; eassumption.
Qed.

(** One turn of the loop. *)
Lemma main_loop_cons (E : environ) (tmo : Z) (inst : instance) (ds : list instance)
    (results : list dict) (w : world) :
  Full.main_loop E tmo (inst :: ds) results w =
    if logged E w inst then Full.main_loop E tmo ds results w
    else
      match Full.run_instance E inst tmo w with
      | (Raise e, w1) => (Raise e, w1)
      | (Ok r, w1) =>
          match dict_lookup r "status", dict_lookup r "time", dict_lookup r "mode" with
          | None, _, _ => (Raise (KeyError "status"), w1)
          | Some _, None, _ => (Raise (KeyError "time"), w1)
          | Some _, Some _, None => (Raise (KeyError "mode"), w1)
          | Some _, Some _, Some _ =>
              Full.main_loop E tmo ds (results ++ [r])%list
                (snd (append_json (Full.results_file E) r w1))
          end
      end.
Proof.
  cbn [Full.main_loop]. unfold bind at 1. unfold file_exists, logged.
  destruct (bool_decide _); [reflexivity|].
  unfold bind at 1.
  destruct (Full.run_instance E inst tmo w) as [[r|e] w1]; [|reflexivity].
  unfold bind, dict_get, ret, raise.
  destruct (dict_lookup r "status"); [|reflexivity].
  destruct (dict_lookup r "time"); [|reflexivity].
  destruct (dict_lookup r "mode"); reflexivity.
Qed.

(** The loop does the same on a list from which instances that have their
    log file were removed. *)
Lemma main_loop_skips_marked (E : environ) (tmo : Z) (P : instance -> bool)
    (ds : list instance) :
  forall (results : list dict) (w : world),
    (forall i, P i = true -> logged E w i = true) ->
    Full.main_loop E tmo ds results w
      = Full.main_loop E tmo (List.filter (fun i => negb (P i)) ds) results w.
Proof.
  induction ds as [|inst ds IH]; intros results w HP; [reflexivity|].
  cbn [List.filter]. destruct (P inst) eqn:HPi; cbn [negb].
  - rewrite main_loop_cons, (HP inst HPi). now apply IH.
  - rewrite !main_loop_cons.
    destruct (logged E w inst); [now apply IH|].
    destruct (Full.run_instance E inst tmo w) as [[r|e] w1] eqn:Hrun; [|reflexivity].
    destruct (dict_lookup r "status"); [|reflexivity].
    destruct (dict_lookup r "time"); [|reflexivity].
    destruct (dict_lookup r "mode"); [|reflexivity].
    apply IH. intros i Hi.
    unfold logged. apply bool_decide_eq_true. apply append_json_files_mono.
    specialize (HP i Hi). apply (logged_mono_attempt _ _ _ _ _ _ i Hrun) in HP.
    now apply bool_decide_eq_true in HP.
Qed.

(** However the loop ends, the instances it went over before it stopped
    all have their log file, and no file has disappeared; when it ends by
    an exception, it stopped at an instance without a log file whose
    attempt raised or ended in CLONE_FAILED. *)
Lemma main_loop_logged_prefix (E : environ) (tmo : Z) (ds : list instance) :
  forall (results : list dict) (w w' : world) (x : res (list dict)),
    Full.main_loop E tmo ds results w = (x, w') ->
    (forall p, is_Some (files w !! p) -> is_Some (files w' !! p)) /\
    exists k,
      Forall (fun i => logged E w' i = true) (firstn k ds) /\
      (forall rs, x = Ok rs -> k = List.length ds) /\
      (forall e, x = Raise e ->
         exists inst wk,
           nth_error ds k = Some inst /\
           logged E wk inst = false /\
           snd (Full.run_instance E inst tmo wk) = w' /\
           (forall r, fst (Full.run_instance E inst tmo wk) = Ok r ->
                      status_of r = Some (VStr "CLONE_FAILED"))).
Proof.
  induction ds as [|inst ds IH]; intros results w w' x H.
  - cbn in H. inversion H; subst. split; [auto|]. exists 0%nat.
    repeat split; [constructor|discriminate].
  - rewrite main_loop_cons in H.
    destruct (logged E w inst) eqn:Hl.
    + destruct (IH _ _ _ _ H) as [Hm (k & Hk & Hok & Hraise)].
      split; [assumption|]. exists (S k). repeat split.
      * cbn [firstn]. constructor; [|assumption].
        unfold logged in *. apply bool_decide_eq_true. apply Hm.
        now apply bool_decide_eq_true in Hl.
      * intros rs Hrs. simpl. f_equal. eauto.
      * intros e He. exact (Hraise e He).
    + destruct (Full.run_instance E inst tmo w) as [xr w1] eqn:Hrun.
      assert (Hm1 : forall p, is_Some (files w !! p) -> is_Some (files w1 !! p))
        by (intros p Hp; eapply run_instance_files_mono; eassumption).
      assert (Hstop : forall e,
                (Raise e, w1) = (x, w') ->
                (forall r, xr = Ok r -> status_of r = Some (VStr "CLONE_FAILED")) ->
                (forall p, is_Some (files w !! p) -> is_Some (files w' !! p)) /\
                exists k,
                  Forall (fun i => logged E w' i = true) (firstn k (inst :: ds)) /\
                  (forall rs, x = Ok rs -> k = List.length (inst :: ds)) /\
                  (forall e, x = Raise e ->
                     exists inst0 wk,
                       nth_error (inst :: ds) k = Some inst0 /\
                       logged E wk inst0 = false /\
                       snd (Full.run_instance E inst0 tmo wk) = w' /\
                       (forall r, fst (Full.run_instance E inst0 tmo wk) = Ok r ->
                                  status_of r = Some (VStr "CLONE_FAILED")))).
      { intros e Heq Hcf. inversion Heq; subst. split; [assumption|]. exists 0%nat.
        repeat split; [constructor|discriminate|].
        intros e0 _. exists inst, w. rewrite Hrun. repeat split; assumption. }
      destruct xr as [r|e]; [|apply (Hstop e H); discriminate].
      assert (Hcf : dict_lookup r "status" = None \/ dict_lookup r "time" = None \/
                    dict_lookup r "mode" = None ->
                    forall r0, Ok r = Ok r0 -> status_of r0 = Some (VStr "CLONE_FAILED")).
      { intros Hnone r0 Hr0. inversion Hr0; subst r0.
        destruct (run_instance_inv _ _ _ _ _ _ Hrun)
          as [(e & _ & _ & ->) | (w3 & output & c & rc & dout & derr & _ & _ & _ & -> & _)];
          [reflexivity|].
        destruct Hnone as [Hn|[Hn|Hn]]; discriminate. }
      destruct (dict_lookup r "status"); [|apply (Hstop _ H); auto].
      destruct (dict_lookup r "time") as [t|] eqn:Ht; [|apply (Hstop _ H); auto].
      destruct (dict_lookup r "mode"); [|apply (Hstop _ H); auto].
      destruct (IH _ _ _ _ H) as [Hm (k & Hk & Hok & Hraise)].
      split.
      { intros p Hp. apply Hm. apply append_json_files_mono. now apply Hm1. }
      exists (S k). repeat split.
      * cbn [firstn]. constructor; [|assumption].
        unfold logged. apply bool_decide_eq_true. apply Hm.
        apply append_json_files_mono.
        eapply run_instance_timed_has_log; eassumption.
      * intros rs Hrs. simpl. f_equal. eauto.
      * intros e He. exact (Hraise e He).
Qed.

(** C4, as the code has it.  Whatever the first run left behind, returned
    or interrupted, the loop over the same instances skips those whose log
    file exists: it behaves as the loop over the others.  However the first
    run ended, the instances it went over before it stopped have their log
    file, and it stopped, if it did, at an instance without a log file
    whose attempt raised or ended in CLONE_FAILED.  After a first run that
    ran to completion every instance has its log file, and the second run
    launches nothing and leaves every file, the results log among them, as
    it was.  An attempt that ends in CLONE_FAILED writes no log file: the
    first run leaves that instance without one, and the second run does
    not skip it. *)
Theorem C4_second_run_skips_logged_instances
    (E : environ) (tmo : Z) (ds : list instance) (results : list dict) (w : world)
    (E1 E2 : environ) (a : Full.args) (w0 w1 : world) (s : option (Z * Z))
    (inst : instance) (rest : list instance) (r : dict) (wf wl : world)
    (x : res (list dict)) (w2 : world) (x2 : res (list dict)) :
  Full.main_loop E tmo ds results w
    = Full.main_loop E tmo (List.filter (fun i => negb (logged E w i)) ds) results w
  /\
  (Full.main_loop E tmo ds results w = (x2, w2) ->
   exists k,
     Forall (fun i => logged E w2 i = true) (firstn k ds) /\
     (forall rs, x2 = Ok rs -> k = List.length ds) /\
     (forall e, x2 = Raise e ->
        exists stopped wk,
          nth_error ds k = Some stopped /\
          logged E wk stopped = false /\
          snd (Full.run_instance E stopped tmo wk) = w2 /\
          (forall r', fst (Full.run_instance E stopped tmo wk) = Ok r' ->
                      status_of r' = Some (VStr "CLONE_FAILED"))))
  /\
  (load_dataset E2 = load_dataset E1 -> home E2 = home E1 ->
   Full.main E1 a w0 = (Ok s, w1) ->
   exists s', Full.main E2 a w1 = (Ok s', w1))
  /\
  (logged E w inst = false ->
   Full.run_instance E inst tmo w = (Ok r, wf) ->
   status_of r = Some (VStr "CLONE_FAILED") ->
   Full.main_loop E tmo (inst :: rest) results w = (x, wl) ->
   logged E wl inst = false /\
   List.filter (fun i => negb (logged E wl i)) (inst :: rest)
     = inst :: List.filter (fun i => negb (logged E wl i)) rest).
Proof.
  split; [|split; [|split]].
  - apply main_loop_skips_marked. auto.
  - intros H. now apply main_loop_logged_prefix in H.
  - apply main_after_completed_run.
  - intros Hnew Hrun Hst Hloop.
    assert (Hwl : logged E wl inst = false).
    { destruct (run_instance_inv _ _ _ _ _ _ Hrun)
        as [(e & Hs & _ & ->) | (w3 & output & c & rc & dout & derr & _ & _ & _ & -> & _)].
      - apply setup_repo_frame in Hs. destruct Hs as [Hf _].
        rewrite main_loop_cons, Hnew, Hrun in Hloop. cbn in Hloop.
        inversion Hloop; subst. unfold logged in *. now rewrite Hf.
      - rewrite completed_status in Hst. destruct (Full.has_patch _); discriminate. }
    split; [assumption|]. cbn [List.filter]. now rewrite Hwl.
Qed.

Lemma C4_second_run_skips_logged_instances_witness :
  (logged Sample.E_second_agent_missing
     (snd (Full.main_loop Sample.E_second_agent_missing 300
             [Sample.inst1; Sample.inst2] [] Sample.w0)) Sample.inst1 = true /\
   logged Sample.E_second_agent_missing
     (snd (Full.main_loop Sample.E_second_agent_missing 300
             [Sample.inst1; Sample.inst2] [] Sample.w0)) Sample.inst2 = false /\
   exists k,
     Forall (fun i => logged Sample.E_second_agent_missing
                        (snd (Full.main_loop Sample.E_second_agent_missing 300
                                [Sample.inst1; Sample.inst2] [] Sample.w0)) i = true)
            (firstn k [Sample.inst1; Sample.inst2]) /\
     exists inst wk,
       nth_error [Sample.inst1; Sample.inst2] k = Some inst /\
       logged Sample.E_second_agent_missing wk inst = false /\
       snd (Full.run_instance Sample.E_second_agent_missing inst 300 wk)
         = snd (Full.main_loop Sample.E_second_agent_missing 300
                  [Sample.inst1; Sample.inst2] [] Sample.w0))
  /\
  (exists s',
     Full.main Sample.E_hang Sample.full_args
       (snd (Full.main Sample.E_ok Sample.full_args Sample.w0))
     = (Ok s', snd (Full.main Sample.E_ok Sample.full_args Sample.w0)))
  /\
  (logged Sample.E_noclone
     (snd (Full.main_loop Sample.E_noclone 300 [Sample.inst1; Sample.inst2] [] Sample.w0))
     Sample.inst1 = false /\
   List.filter
     (fun i => negb (logged Sample.E_noclone
        (snd (Full.main_loop Sample.E_noclone 300 [Sample.inst1; Sample.inst2] [] Sample.w0))
        i))
     [Sample.inst1; Sample.inst2]
   = Sample.inst1 ::
     List.filter
       (fun i => negb (logged Sample.E_noclone
          (snd (Full.main_loop Sample.E_noclone 300 [Sample.inst1; Sample.inst2] []
                  Sample.w0)) i))
       [Sample.inst2]).
Proof.
  destruct (C4_second_run_skips_logged_instances
              Sample.E_noclone 300 [Sample.inst1; Sample.inst2] [] Sample.w0
              Sample.E_ok Sample.E_hang Sample.full_args Sample.w0
              (snd (Full.main Sample.E_ok Sample.full_args Sample.w0)) (Some (2, 2))
              Sample.inst1 [Sample.inst2]
              (Full.clone_failed_result "proj-1" (TimeoutExpired "timed out after 180 seconds"))
              (snd (Full.run_instance Sample.E_noclone Sample.inst1 300 Sample.w0))
              (snd (Full.main_loop Sample.E_noclone 300 [Sample.inst1; Sample.inst2] []
                      Sample.w0))
              (fst (Full.main_loop Sample.E_noclone 300 [Sample.inst1; Sample.inst2] []
                      Sample.w0))
              Sample.w0 (Ok []))
    as (_ & _ & Hdone & Hfailed).
  destruct (C4_second_run_skips_logged_instances
              Sample.E_second_agent_missing 300 [Sample.inst1; Sample.inst2] [] Sample.w0
              Sample.E_ok Sample.E_hang Sample.full_args Sample.w0 Sample.w0 None
              Sample.inst1 [] [] Sample.w0 Sample.w0 (Ok [])
              (snd (Full.main_loop Sample.E_second_agent_missing 300
                      [Sample.inst1; Sample.inst2] [] Sample.w0))
              (Raise (OSError "No such file or directory")))
    as (_ & Hprefix & _ & _).
  split; [|split].
  - destruct Hprefix as (k & Hk & _ & Hstop); [vm_compute; reflexivity|].
    split; [vm_compute; reflexivity|]. split; [vm_compute; reflexivity|].
    exists k. split; [exact Hk|].
    destruct (Hstop (OSError "No such file or directory") eq_refl)
      as (inst & wk & Hnth & Hnew & Hw & _).
    exists inst, wk. repeat split; assumption.
  - apply Hdone; vm_compute; reflexivity.
  - apply Hfailed; vm_compute; reflexivity.
Defined.

(** C4 as stated fails: in the first run the clone of proj-1 times out and
    the attempt leaves no log file; the second run, with every artifact of
    the first kept, clones again. *)
Lemma C4_failed_clone_is_attempted_again :
  launched Sample.w0 (snd (Full.main Sample.E_noclone Sample.full_args Sample.w0))
    = [Full.clone_shallow "org/proj" "/tmp/swe-repos/proj-1"] /\
  files (snd (Full.main Sample.E_noclone Sample.full_args Sample.w0))
    !! Full.log_file Sample.E_noclone "proj-1" = None /\
  launched (snd (Full.main Sample.E_noclone Sample.full_args Sample.w0))
           (snd (Full.main Sample.E_noclone Sample.full_args
                   (snd (Full.main Sample.E_noclone Sample.full_args Sample.w0))))
    = [Full.clone_shallow "org/proj" "/tmp/swe-repos/proj-1"].
Proof. repeat split; vm_compute; reflexivity. Qed.

(** ** Searching and slicing *)

Lemma prefix_length (p s : string) :
  String.prefix p s = true -> (String.length p <= String.length s)%nat.
Proof.
  revert p. induction s as [|c s IH]; intros [|a p] H; simpl in *; try lia; try discriminate.
  destruct (ascii_dec a c); [|discriminate]. apply IH in H. lia.
Qed.

Lemma prefix_app_same (p s t : string) :
  (String.length p <= String.length s)%nat ->
  String.prefix p (s +:+ t) = String.prefix p s.
Proof.
  revert p. induction s as [|c s IH]; intros [|a p] H; simpl in *; try reflexivity; try lia.
  - now destruct t.
  - destruct (ascii_dec a c); [|reflexivity]. apply IH. lia.
Qed.

Lemma prefix_app_self (p t : string) : String.prefix p (p +:+ t) = true.
Proof.
  induction p as [|a p IH]; simpl; [now destruct t|].
  destruct (ascii_dec a a); [assumption|contradiction].
Qed.

Lemma find_length (sub s : string) (k : nat) :
  PyStr.find sub s = Some k -> (k + String.length sub <= String.length s)%nat.
Proof.
  revert k. induction s as [|c s IH]; intros k H.
  - cbn [PyStr.find] in H. destruct (String.prefix sub "") eqn:Hp; [|discriminate].
    inversion H; subst. apply prefix_length in Hp. simpl in *. lia.
  - cbn [PyStr.find] in H. destruct (String.prefix sub (String c s)) eqn:Hp.
    + inversion H; subst. now apply prefix_length in Hp.
    + destruct (PyStr.find sub s) as [j|]; [|discriminate].
      inversion H; subst. specialize (IH j eq_refl). simpl. lia.
Qed.

(** An occurrence found in a text is found at the same place in any
    extension of the text. *)
Lemma find_app_l (sub s t : string) (k : nat) :
  PyStr.find sub s = Some k -> PyStr.find sub (s +:+ t) = Some k.
Proof.
  revert k. induction s as [|c s IH]; intros k H.
  - cbn [PyStr.find] in H. destruct (String.prefix sub "") eqn:Hp; [|discriminate].
    inversion H; subst. destruct sub; [|discriminate].
    simpl. destruct t; reflexivity.
  - pose proof (find_length _ _ _ H) as Hlen.
    cbn [PyStr.find] in H. change (String c s +:+ t) with (String c (s +:+ t)).
    cbn [PyStr.find].
    change (String c (s +:+ t)) with (String c s +:+ t).
    rewrite prefix_app_same by lia.
    destruct (String.prefix sub (String c s)); [assumption|].
    destruct (PyStr.find sub s) as [j|]; [|discriminate].
    rewrite (IH j eq_refl). assumption.
Qed.

Lemma contains_find (sub s : string) (k : nat) :
  PyStr.find sub s = Some k -> PyStr.contains sub s = true.
Proof.
  intros H. unfold PyStr.contains. rewrite H. apply bool_decide_eq_true_2. eauto.
Qed.

Lemma contains_false_find (sub s : string) :
  PyStr.contains sub s = false <-> PyStr.find sub s = None.
Proof.
  unfold PyStr.contains. destruct (PyStr.find sub s).
  - split; [|discriminate]. intros H. apply bool_decide_eq_false in H.
    exfalso. apply H. eauto.
  - split; [reflexivity|]. intros _. apply bool_decide_eq_false. intros [? ?]. discriminate.
Qed.

Lemma app_String (c : ascii) (a b : string) : String c a +:+ b = String c (a +:+ b).
Proof. reflexivity. Qed.

Lemma string_length_app (a b : string) :
  String.length (a +:+ b) = (String.length a + String.length b)%nat.
Proof.
  induction a as [|c a IH]; [reflexivity|].
  rewrite app_String. simpl. now rewrite IH.
Qed.

Lemma substring_skip (a s : string) (n m : nat) :
  String.substring (String.length a + n) m (a +:+ s) = String.substring n m s.
Proof.
  induction a as [|c a IH]; [reflexivity|].
  rewrite app_String. simpl. exact IH.
Qed.

Lemma substring_take (b r : string) :
  String.substring 0 (String.length b) (b +:+ r) = b.
Proof.
  induction b as [|c b IH]; [now destruct r|].
  rewrite app_String. simpl. now rewrite IH.
Qed.

Lemma string_app_assoc (a b c : string) : (a +:+ b) +:+ c = a +:+ (b +:+ c).
Proof.
  induction a as [|x a IH]; [reflexivity|].
  rewrite !app_String. now rewrite IH.
Qed.

Lemma string_app_nil_r (a : string) : a +:+ "" = a.
Proof.
  induction a as [|x a IH]; [reflexivity|].
  rewrite app_String. now rewrite IH.
Qed.

(** The slice taken between two delimiters is the text between them. *)
Lemma slice_between (pre opening body rest : string) :
  PyStr.slice (String.length pre + String.length opening)
              (String.length pre + String.length opening + String.length body)
              (pre +:+ opening +:+ body +:+ rest) = body.
Proof.
  unfold PyStr.slice.
  replace (String.length pre + String.length opening + String.length body
           - (String.length pre + String.length opening))%nat
    with (String.length body) by lia.
  rewrite <- (Nat.add_0_r (String.length opening)), Nat.add_assoc.
  rewrite <- string_length_app, <- string_app_assoc.
  rewrite substring_skip. apply substring_take.
Qed.

(** ** [run_instance] of swe-bench-run.py *)

(** Under its guard, [index] never raises: extraction is a pure function
    of the output. *)
Lemma extract_delimited_pure (output : string) :
  exists patch, forall w, Run.extract_delimited output w = (Ok patch, w).
Proof.
  unfold Run.extract_delimited, Run.str_index, PyStr.contains.
  destruct (PyStr.find Run.OPEN output) as [i|].
  - rewrite bool_decide_eq_true_2 by eauto.
    destruct (PyStr.find Run.CLOSE output) as [j|].
    + rewrite bool_decide_eq_true_2 by eauto. eexists. intros w. reflexivity.
    + rewrite bool_decide_eq_false_2 by (intros [? ?]; discriminate).
      eexists. intros w. reflexivity.
  - rewrite bool_decide_eq_false_2 by (intros [? ?]; discriminate).
    eexists. intros w. reflexivity.
Qed.

Lemma extract_delimited_absent (output : string) (w : world) :
  PyStr.contains Run.OPEN output = false ->
  Run.extract_delimited output w = (Ok "", w).
Proof. intros H. unfold Run.extract_delimited. now rewrite H. Qed.

(** The text between the delimiters, trimmed. *)
Lemma extract_delimited_block (output pre body : string) (post : option string) (w : world) :
  delimited_block output pre body post ->
  Run.extract_delimited output w = (Ok (PyStr.strip body), w).
Proof.
  intros [Hopen Hpost]. unfold Run.extract_delimited, Run.str_index.
  destruct post as [post|]; destruct Hpost as [-> Hclose].
  - assert (Ho : PyStr.find Run.OPEN (pre +:+ Run.OPEN +:+ body +:+ Run.CLOSE +:+ post)
                 = Some (String.length pre)).
    { rewrite <- string_app_assoc. now apply find_app_l. }
    assert (Hc : PyStr.find Run.CLOSE (pre +:+ Run.OPEN +:+ body +:+ Run.CLOSE +:+ post)
                 = Some (String.length pre + String.length Run.OPEN + String.length body)%nat).
    { replace (pre +:+ Run.OPEN +:+ body +:+ Run.CLOSE +:+ post)
        with ((pre +:+ Run.OPEN +:+ body +:+ Run.CLOSE) +:+ post)
        by (now rewrite !string_app_assoc).
      now apply find_app_l. }
    rewrite (contains_find _ _ _ Ho), (contains_find _ _ _ Hc), Ho, Hc.
    unfold bind, ret. now rewrite slice_between.
  - assert (Ho : PyStr.find Run.OPEN (pre +:+ Run.OPEN +:+ body) = Some (String.length pre)).
    { rewrite <- string_app_assoc. now apply find_app_l. }
    rewrite (contains_find _ _ _ Ho), Ho.
    rewrite (proj2 (contains_false_find _ _) Hclose).
    unfold bind, ret.
    replace (String.length (pre +:+ Run.OPEN +:+ body))
      with (String.length pre + String.length Run.OPEN + String.length body)%nat
      by (rewrite !string_length_app; lia).
    rewrite <- (string_app_nil_r body) at 2.
    now rewrite slice_between.
Qed.

(** An attempt whose clone exits 0, whose checkout returns and whose agent
    exits by itself: the prediction is the delimited text when there is
    one, and the trimmed output of [git diff] otherwise. *)
Lemma run_instance_agent_returned (E : environ) (agent : string) (inst : instance) (tmo : Z)
    (w : world) (o1 e1 : string) (rc2 : Z) (o2 e2 : string) (rc3 : Z) (output err3 : string)
    (patch : string) :
  let n := clock w in
  let iid := instance_id inst in
  let repo_path := path_join (mkdtemp E n) ["repo"] in
  let clone := Run.clone_cmd (repo inst) repo_path in
  let checkout := Run.git_in repo_path ["checkout"; base_commit inst] in
  let launch := Run.agent_cmd E agent iid tmo (Run.agent_env E (S (S n))) in
  let diff := Run.git_in repo_path ["diff"] in
  child E n clone = Returned 0 o1 e1 ->
  child E (S n) checkout = Returned rc2 o2 e2 ->
  child E (S (S n)) launch = Returned rc3 output err3 ->
  (forall w, Run.extract_delimited output w = (Ok patch, w)) ->
  Run.run_instance E agent inst tmo w =
    if PyStr.is_empty patch then
      match child E (S (S (S n))) diff with
      | Returned _ dout _ =>
          (Ok (Run.prediction iid (PyStr.strip dout)),
           {| files := run_files_after_attempt inst repo_path (files w);
              trace := (trace w ++ [clone; checkout; launch; diff])%list |})
      | Raised e =>
          (Raise e,
           {| files := <[Run.repo_file := [Text repo_path]]>
                         (<[Run.issue_file := [Text (problem_statement inst)]]> (files w));
              trace := (trace w ++ [clone; checkout; launch; diff])%list |})
      end
    else
      (Ok (Run.prediction iid patch),
       {| files := run_files_after_attempt inst repo_path (files w);
          trace := (trace w ++ [clone; checkout; launch])%list |}).
Proof.
  intros n iid repo_path clone checkout launch diff Hclone Hco Hagent Hex.
  subst n iid repo_path clone checkout launch diff.
  unfold run_files_after_attempt, path_join, clock in *. cbn [fold_left] in *.
  unfold Run.run_instance, Run.extract_patch, bind, attempt, Run.mk_tmpdir,
    Run.read_agent_env, subprocess_run, write_file, Run.remove_quietly, ret, path_join, clock.
  cbn [fold_left files trace].
  rewrite Hclone. cbn [negb Z.eqb files trace].
  rewrite !length_app. cbn [List.length]. rewrite !Nat.add_1_r.
  rewrite Hco. cbn [files trace].
  rewrite !length_app. cbn [List.length]. rewrite !Nat.add_1_r.
  rewrite Hagent. cbn [files trace is_TimeoutExpired].
  rewrite Hex.
  destruct (PyStr.is_empty patch); cbn [files trace].
  - rewrite !length_app. cbn [List.length]. rewrite !Nat.add_1_r.
    match goal with
    | |- context [child E (S (S (S ?k))) ?c] =>
        destruct (child E (S (S (S k))) c) as [rc4 dout derr|e]
    end; simpl; rewrite <- !app_assoc; reflexivity.
  - rewrite <- !app_assoc. reflexivity.
Qed.

Lemma is_empty_true (s : string) : PyStr.is_empty s = true <-> s = "".
Proof. destruct s; simpl; split; congruence. Qed.

(** ** The claims about swe-bench-run.py *)

(** C6, as the code has it: when the agent's output holds a well-formed
    delimited block whose trimmed text is not empty, the prediction is that
    text and [git diff] is not even run; the trimmed working-tree diff is
    used when the output holds no opening delimiter, and also when the
    delimited text is empty after trimming. *)
Theorem C6_delimited_block_takes_precedence (E : environ) (agent : string) (inst : instance)
    (tmo : Z) (w : world) (o1 e1 : string) (rc2 : Z) (o2 e2 : string) (rc3 : Z)
    (output err3 : string) :
  let n := clock w in
  let iid := instance_id inst in
  let repo_path := path_join (mkdtemp E n) ["repo"] in
  let clone := Run.clone_cmd (repo inst) repo_path in
  let checkout := Run.git_in repo_path ["checkout"; base_commit inst] in
  let launch := Run.agent_cmd E agent iid tmo (Run.agent_env E (S (S n))) in
  let diff := Run.git_in repo_path ["diff"] in
  child E n clone = Returned 0 o1 e1 ->
  child E (S n) checkout = Returned rc2 o2 e2 ->
  child E (S (S n)) launch = Returned rc3 output err3 ->
  (forall pre body post,
     delimited_block output pre body post ->
     PyStr.strip body <> "" ->
     exists w',
       Run.run_instance E agent inst tmo w = (Ok (Run.prediction iid (PyStr.strip body)), w') /\
       launched w w' = [clone; checkout; launch])
  /\
  (forall rc4 dout derr,
     child E (S (S (S n))) diff = Returned rc4 dout derr ->
     PyStr.contains Run.OPEN output = false \/
     (exists pre body post, delimited_block output pre body post /\ PyStr.strip body = "") ->
     exists w',
       Run.run_instance E agent inst tmo w = (Ok (Run.prediction iid (PyStr.strip dout)), w') /\
       launched w w' = [clone; checkout; launch; diff]).
Proof.
  intros n iid repo_path clone checkout launch diff Hclone Hco Hagent. split.
  - intros pre body post Hblock Hne.
    rewrite (run_instance_agent_returned E agent inst tmo w _ _ _ _ _ _ _ _
               (PyStr.strip body) Hclone Hco Hagent)
      by (intros w2; eapply extract_delimited_block; eassumption).
    destruct (PyStr.is_empty (PyStr.strip body)) eqn:Hemp.
    + apply is_empty_true in Hemp. contradiction.
    + eexists. split; [reflexivity|]. apply launched_app_from.
  - intros rc4 dout derr Hdiff Hcase.
    assert (Hex : forall w2, Run.extract_delimited output w2 = (Ok "", w2)).
    { intros w2. destruct Hcase as [Habs | (pre & body & post & Hblock & Hemp)].
      - now apply extract_delimited_absent.
      - rewrite <- Hemp. eapply extract_delimited_block; eassumption. }
    rewrite (run_instance_agent_returned E agent inst tmo w _ _ _ _ _ _ _ _
               "" Hclone Hco Hagent Hex).
    cbn [PyStr.is_empty]. fold n repo_path diff. rewrite Hdiff.
    eexists. split; [reflexivity|]. apply launched_app_from.
Qed.

Lemma C6_delimited_block_takes_precedence_witness :
  exists w',
    Run.run_instance Sample.E_block Sample.coding_agent Sample.inst1 600 Sample.w0
      = (Ok (Run.prediction "proj-1" "diff --git a/q.py b/q.py"), w') /\
    List.map argv (launched Sample.w0 w')
      = [ ["git"; "clone"; "--depth"; "100"; "https://github.com/org/proj.git";
           "/tmp/swe-bench-k3/repo"];
          ["git"; "checkout"; "abc123"];
          ["/home/u/clawd/neocognos/cognos-lang/target/release/cognos"; "run"; "--memory";
           "--allow-shell"; "-vv"; "--trace"; "/tmp/cognos-swe-trace-proj-1.jsonl";
           "--trace-level"; "full"; "--memory-db"; "/tmp/cognos-swe-proj-1.db";
           "--memory-ns"; "proj-1";
           "/home/u/clawd/neocognos/cognos-lang/examples/coding-agent-opus.cog"] ].
Proof.
  destruct (proj1 (C6_delimited_block_takes_precedence Sample.E_block Sample.coding_agent
                     Sample.inst1 600 Sample.w0 "" "" 0 "" "" 0
                     "done
--- PATCH ---
diff --git a/q.py b/q.py
--- END PATCH ---
bye" "" eq_refl eq_refl eq_refl)
             "done
" "
diff --git a/q.py b/q.py
" (Some "
bye"))
    as (w' & Hrun & Hl).
  - unfold delimited_block. repeat split; vm_compute; reflexivity.
  - vm_compute. discriminate.
  - exists w'. split; [exact Hrun|]. rewrite Hl. vm_compute. reflexivity.
Defined.

(** C6 as stated fails: the output of the agent of [E_empty_block] holds a
    well-formed delimited block, whose text is a single newline, and the
    working tree holds a change; the prediction is the working-tree diff,
    not the (empty) trimmed text between the delimiters. *)
Lemma C6_empty_block_falls_back_to_diff :
  child Sample.E_empty_block 2
    (Run.agent_cmd Sample.E_empty_block Sample.coding_agent "proj-1" 600
       (Run.agent_env Sample.E_empty_block 2))
    = Returned 0 "--- PATCH ---
--- END PATCH ---
" "" /\
  delimited_block "--- PATCH ---
--- END PATCH ---
" "" "
" (Some "
") /\
  PyStr.strip "
" = "" /\
  fst (Run.run_instance Sample.E_empty_block Sample.coding_agent Sample.inst1 600 Sample.w0)
    = Ok [("instance_id", VStr "proj-1"); ("model_name_or_path", VStr "cognos-agent");
          ("model_patch", VStr "diff --git a/p.py b/p.py")].
Proof. unfold delimited_block. repeat split; vm_compute; reflexivity. Qed.

(** Settling the patch writes no file. *)
Lemma extract_patch_frame (E : environ) (repo_path output : string) (w w' : world)
    (x : res string) :
  Run.extract_patch E repo_path output w = (x, w') -> files w' = files w.
Proof.
  unfold Run.extract_patch, bind.
  destruct (extract_delimited_pure output) as [patch Hp]. rewrite Hp.
  destruct (PyStr.is_empty patch); unfold subprocess_run, ret.
  - destruct (child E (clock w) _) as [rc dout derr|e]; intros H; now inversion H.
  - intros H. now inversion H.
Qed.

(** A returned prediction has the three fields, and the attempt touched
    only the two scratch files and the memory database. *)
Lemma run_prediction_inv (E : environ) (agent : string) (inst : instance) (tmo : Z)
    (w w' : world) (d : dict) :
  Run.run_instance E agent inst tmo w = (Ok d, w') ->
  (exists patch, d = Run.prediction (instance_id inst) patch) /\
  (forall p, p <> Run.issue_file -> p <> Run.repo_file ->
             p <> Run.memory_db (instance_id inst) ->
             files w' !! p = files w !! p).
Proof.
  unfold Run.run_instance, bind, attempt, Run.mk_tmpdir, Run.read_agent_env,
    subprocess_run, write_file, Run.remove_quietly, ret.
  cbn [files trace].
  destruct (child E (clock w) _) as [rc o1 e1|e]; [|discriminate].
  destruct (negb (rc =? 0)).
  { intros H. inversion H; subst. split; [eauto|reflexivity]. }
  match goal with
  | |- context [child E ?n ?c] => destruct (child E n c) as [rc2 o2 e2|e]; [|discriminate]
  end.
  cbn [files trace].
  assert (Hfin : forall (x : res string) (w2 : world),
    files w2 = <[Run.repo_file := [Text (path_join (mkdtemp E (clock w)) ["repo"])]]>
                 (<[Run.issue_file := [Text (problem_statement inst)]]> (files w)) ->
    match x with
    | Ok a =>
        (Ok (Run.prediction (instance_id inst) a),
         {| files := delete (Run.memory_db (instance_id inst)) (files w2);
            trace := trace w2 |})
    | Raise e => (Raise e, w2)
    end = (Ok d, w') ->
    (exists patch, d = Run.prediction (instance_id inst) patch) /\
    (forall p, p <> Run.issue_file -> p <> Run.repo_file ->
               p <> Run.memory_db (instance_id inst) ->
               files w' !! p = files w !! p)).
  { intros [a|e] w2 Hf H; [|discriminate]. inversion H; subst. split; [eauto|].
    intros p H1 H2 H3. cbn [files]. rewrite Hf.
    rewrite lookup_delete_ne by congruence.
    now rewrite !lookup_insert_ne by congruence. }
  match goal with
  | |- context [child E ?n ?c] => destruct (child E n c) as [rc3 output err3|e]
  end.
  - match goal with
    | |- context [Run.extract_patch ?E' ?rp ?out ?w2] =>
        destruct (Run.extract_patch E' rp out w2) as [x w3] eqn:Hx
    end.
    apply extract_patch_frame in Hx. apply Hfin. exact Hx.
  - destruct (is_TimeoutExpired e); [|discriminate].
    match goal with
    | |- context [Run.extract_patch ?E' ?rp ?out ?w2] =>
        destruct (Run.extract_patch E' rp out w2) as [x w3] eqn:Hx
    end.
    apply extract_patch_frame in Hx. apply Hfin. exact Hx.
Qed.

(** However an attempt ends, it has touched only the two scratch files and
    the memory database. *)
Lemma run_attempt_frame (E : environ) (agent : string) (inst : instance) (tmo : Z)
    (w w' : world) (x : res dict) :
  Run.run_instance E agent inst tmo w = (x, w') ->
  forall p, p <> Run.issue_file -> p <> Run.repo_file ->
            p <> Run.memory_db (instance_id inst) ->
            files w' !! p = files w !! p.
Proof.
  unfold Run.run_instance, bind, attempt, Run.mk_tmpdir, Run.read_agent_env,
    subprocess_run, write_file, Run.remove_quietly, ret.
  cbn [files trace].
  destruct (child E (clock w) _) as [rc o1 e1|e];
    [|intros H; inversion H; subst; reflexivity].
  destruct (negb (rc =? 0)).
  { intros H. inversion H; subst. reflexivity. }
  match goal with
  | |- context [child E ?n ?c] =>
      destruct (child E n c) as [rc2 o2 e2|e];
        [|intros H; inversion H; subst; reflexivity]
  end.
  cbn [files trace].
  assert (Hfin : forall (r : res string) (w2 : world),
    files w2 = <[Run.repo_file := [Text (path_join (mkdtemp E (clock w)) ["repo"])]]>
                 (<[Run.issue_file := [Text (problem_statement inst)]]> (files w)) ->
    match r with
    | Ok a =>
        (Ok (Run.prediction (instance_id inst) a),
         {| files := delete (Run.memory_db (instance_id inst)) (files w2);
            trace := trace w2 |})
    | Raise e => (Raise e, w2)
    end = (x, w') ->
    forall p, p <> Run.issue_file -> p <> Run.repo_file ->
              p <> Run.memory_db (instance_id inst) ->
              files w' !! p = files w !! p).
  { intros [a|e] w2 Hf H; inversion H; subst; intros p H1 H2 H3; cbn [files];
      rewrite Hf; rewrite ?lookup_delete_ne by congruence;
      now rewrite !lookup_insert_ne by congruence. }
  match goal with
  | |- context [child E ?n ?c] => destruct (child E n c) as [rc3 output err3|e]
  end.
  - match goal with
    | |- context [Run.extract_patch ?E' ?rp ?out ?w2] =>
        destruct (Run.extract_patch E' rp out w2) as [r w3] eqn:Hx
    end.
    apply extract_patch_frame in Hx. apply Hfin. exact Hx.
  - destruct (is_TimeoutExpired e).
    + match goal with
      | |- context [Run.extract_patch ?E' ?rp ?out ?w2] =>
          destruct (Run.extract_patch E' rp out w2) as [r w3] eqn:Hx
      end.
      apply extract_patch_frame in Hx. apply Hfin. exact Hx.
    + intros H. inversion H; subst. intros p H1 H2 H3. cbn [files].
      now rewrite !lookup_insert_ne by congruence.
Qed.

Lemma ds_getitem_pure (ds : list instance) (i : Z) :
  exists x, forall w, Run.ds_getitem ds i w = (x, w).
Proof.
  unfold Run.ds_getitem.
  destruct (_ || _); [eexists; intros w; reflexivity|].
  destruct (nth_error ds _); eexists; intros w; reflexivity.
Qed.

Lemma records_at_append (path : string) (d : dict) (w : world) :
  records_at (snd (append_json path d w)) path = (records_at w path ++ [JsonLine d])%list.
Proof. unfold records_at. simpl. now rewrite lookup_insert_eq. Qed.

Lemma memory_db_last_char (iid : string) :
  PyStr.last_char (Run.memory_db iid) = Some "b"%char.
Proof.
  unfold Run.memory_db. rewrite last_char_app by apply app_suffix_nonempty.
  now rewrite last_char_app.
Qed.

(** The loop of [main], however it ends: the output file has gained one
    record per attempt that returned, in the order of the attempts; when
    the loop returns, every index has been attempted; when it raises, the
    exception comes from the lookup of the next index or from the attempt
    on it, which has appended nothing. *)
Lemma run_main_loop_records (E : environ) (agent out : string) (ds : list instance)
    (run_indices : list Z) :
  out <> Run.issue_file -> out <> Run.repo_file -> (forall iid, out <> Run.memory_db iid) ->
  forall (preds : list dict) (w w' : world) (x : res (list dict)),
    Run.main_loop E agent out ds run_indices preds w = (x, w') ->
    exists new,
      records_at w' out = (records_at w out ++ List.map JsonLine new)%list /\
      Forall2 (fun i p => exists inst patch,
                 (forall w2, Run.ds_getitem ds i w2 = (Ok inst, w2)) /\
                 p = Run.prediction (instance_id inst) patch)
              (firstn (List.length new) run_indices) new /\
      (forall preds', x = Ok preds' ->
         preds' = (preds ++ new)%list /\ List.length new = List.length run_indices) /\
      (forall e, x = Raise e ->
         exists i, nth_error run_indices (List.length new) = Some i /\
           ((forall w2, Run.ds_getitem ds i w2 = (Raise e, w2)) \/
            exists inst wk,
              (forall w2, Run.ds_getitem ds i w2 = (Ok inst, w2)) /\
              Run.run_instance E agent inst 600 wk = (Raise e, w') /\
              records_at wk out = records_at w' out)).
Proof.
  intros Hi Hr Hdb.
  induction run_indices as [|i rest IH]; intros preds w w' x H.
  - simpl in H. unfold ret in H. inversion H; subst. exists [].
    rewrite !app_nil_r. split; [reflexivity|]. split; [constructor|].
    split; [|discriminate].
    intros preds' Hp. inversion Hp; subst. split; reflexivity.
  - simpl in H. unfold bind at 1 in H.
    destruct (ds_getitem_pure ds i) as [xi Hx]. rewrite Hx in H.
    destruct xi as [inst|e].
    2:{ inversion H; subst. exists []. rewrite app_nil_r.
        split; [reflexivity|]. split; [constructor|]. split; [discriminate|].
        intros e0 He0. inversion He0; subst. exists i. split; [reflexivity|].
        left. exact Hx. }
    unfold bind at 1 in H.
    destruct (Run.run_instance E agent inst 600 w) as [[pred|e] w1] eqn:Hrun.
    2:{ inversion H; subst.
        assert (Hsame : records_at w' out = records_at w out).
        { unfold records_at.
          now rewrite (run_attempt_frame _ _ _ _ _ _ _ Hrun out Hi Hr (Hdb _)). }
        exists []. rewrite app_nil_r.
        split; [exact Hsame|]. split; [constructor|]. split; [discriminate|].
        intros e0 He0. inversion He0; subst. exists i. split; [reflexivity|].
        right. exists inst, w. repeat split; [exact Hx|exact Hrun|now symmetry]. }
    unfold bind at 1 in H.
    destruct (run_prediction_inv _ _ _ _ _ _ _ Hrun) as [[patch ->] Hframe].
    change (append_json out (Run.prediction (instance_id inst) patch) w1)
      with (Ok tt, snd (append_json out (Run.prediction (instance_id inst) patch) w1)) in H.
    cbv iota beta in H.
    apply IH in H. destruct H as (new & Hrec & Hall & Hok & Hraise).
    exists (Run.prediction (instance_id inst) patch :: new).
    split; [|split; [|split]].
    + assert (Hsame : records_at w1 out = records_at w out).
      { unfold records_at. now rewrite (Hframe out Hi Hr (Hdb _)). }
      rewrite Hrec, records_at_append, Hsame.
      now rewrite <- app_assoc.
    + cbn [List.length firstn]. constructor; [eauto|assumption].
    + intros preds' Hp. destruct (Hok preds' Hp) as [-> Hlen].
      split; [now rewrite <- app_assoc|]. cbn [List.length]. now f_equal.
    + intros e He. exact (Hraise e He).
Qed.

(** C10, as the code has it.  However the loop of the minimal variant
    ends, the output file has gained exactly one record per attempt that
    returned, in order, each with the fields instance_id,
    model_name_or_path = cognos-agent and model_patch; when the loop
    returns, that is one record per index; when it raises, at whichever
    index, the exception comes from the lookup of that index or from the
    attempt on it, and that attempt has appended no record.  A clone that
    exits non-zero yields the record with the empty model_patch, the same
    record as a completed attempt whose patch is empty. *)
Theorem C10_one_prediction_per_returned_attempt (E : environ) (agent out : string)
    (ds : list instance) (run_indices : list Z) (x : res (list dict)) (w w' : world) :
  out <> Run.issue_file -> out <> Run.repo_file -> (forall iid, out <> Run.memory_db iid) ->
  Run.main_loop E agent out ds run_indices [] w = (x, w') ->
  (exists new,
     records_at w' out = (records_at w out ++ List.map JsonLine new)%list /\
     Forall2 (fun i p => exists inst patch,
                (forall w2, Run.ds_getitem ds i w2 = (Ok inst, w2)) /\
                p = [("instance_id", VStr (instance_id inst));
                     ("model_name_or_path", VStr "cognos-agent");
                     ("model_patch", VStr patch)])
             (firstn (List.length new) run_indices) new /\
     (forall preds, x = Ok preds ->
        preds = new /\ List.length new = List.length run_indices) /\
     (forall e, x = Raise e ->
        exists i, nth_error run_indices (List.length new) = Some i /\
          ((forall w2, Run.ds_getitem ds i w2 = (Raise e, w2)) \/
           exists inst wk,
             (forall w2, Run.ds_getitem ds i w2 = (Ok inst, w2)) /\
             Run.run_instance E agent inst 600 wk = (Raise e, w') /\
             records_at wk out = records_at w' out))) /\
  (forall inst tmo w2 rc o e,
     child E (clock w2) (Run.clone_cmd (repo inst) (path_join (mkdtemp E (clock w2)) ["repo"]))
       = Returned rc o e ->
     rc <> 0 ->
     fst (Run.run_instance E agent inst tmo w2)
       = Ok [("instance_id", VStr (instance_id inst));
             ("model_name_or_path", VStr "cognos-agent");
             ("model_patch", VStr "")]).
Proof.
  intros Hi Hr Hdb H. split.
  - destruct (run_main_loop_records E agent out ds run_indices Hi Hr Hdb _ _ _ _ H)
      as (new & Hrec & Hall & Hok & Hraise).
    exists new. split; [exact Hrec|]. split; [exact Hall|]. split; [|exact Hraise].
    intros preds Hp. exact (Hok preds Hp).
  - intros inst tmo w2 rc o e Hclone Hrc.
    unfold Run.run_instance, bind, Run.mk_tmpdir, subprocess_run, ret.
    cbn [files trace]. rewrite Hclone.
    apply Z.eqb_neq in Hrc. rewrite Hrc. reflexivity.
Qed.

(** The first attempt returns and appends its record; the clone of the
    second instance runs into its timeout: the run ends there, with the
    one record in the output file. *)
Lemma C10_one_prediction_per_returned_attempt_witness :
  Run.main Sample.E_second_clone_times_out Sample.run_args Sample.w0
    = (Raise (TimeoutExpired "timed out after 120 seconds"),
       snd (Run.main Sample.E_second_clone_times_out Sample.run_args Sample.w0)) /\
  records_at (snd (Run.main Sample.E_second_clone_times_out Sample.run_args Sample.w0))
             "/tmp/cognos-swe-predictions.jsonl"
    = [JsonLine (Run.prediction "proj-1" "diff --git a/p.py b/p.py")] /\
  exists new,
    records_at (snd (Run.main Sample.E_second_clone_times_out Sample.run_args Sample.w0))
               "/tmp/cognos-swe-predictions.jsonl"
      = (records_at Sample.w0 "/tmp/cognos-swe-predictions.jsonl"
         ++ List.map JsonLine new)%list /\
    Forall2 (fun i p => exists inst patch,
               (forall w2, Run.ds_getitem (load_dataset Sample.E_second_clone_times_out) i w2
                           = (Ok inst, w2)) /\
               p = [("instance_id", VStr (instance_id inst));
                    ("model_name_or_path", VStr "cognos-agent");
                    ("model_patch", VStr patch)])
            (firstn (List.length new) [0; 1]) new /\
    exists i, nth_error [0; 1] (List.length new) = Some i.
Proof.
  destruct (C10_one_prediction_per_returned_attempt Sample.E_second_clone_times_out
              Sample.coding_agent "/tmp/cognos-swe-predictions.jsonl"
              (load_dataset Sample.E_second_clone_times_out) [0; 1]
              (Raise (TimeoutExpired "timed out after 120 seconds"))
              Sample.w0
              (snd (Run.main Sample.E_second_clone_times_out Sample.run_args Sample.w0)))
    as [(new & Hrec & Hall & _ & Hraise) _].
  - discriminate.
  - discriminate.
  - intros iid H. apply (f_equal PyStr.last_char) in H.
    rewrite memory_db_last_char in H. vm_compute in H. discriminate.
  - vm_compute. reflexivity.
  - split; [vm_compute; reflexivity|]. split; [vm_compute; reflexivity|].
    exists new. split; [exact Hrec|]. split; [exact Hall|].
    destruct (Hraise _ eq_refl) as (i & Hi & _). exists i. exact Hi.
Defined.

(** C10 as stated fails: the clone of the first instance runs into its
    timeout, the exception leaves [run_instance] and [main], and the
    attempted instance has appended no record. *)
Lemma C10_clone_timeout_appends_nothing :
  Run.main Sample.E_noclone Sample.run_args Sample.w0
    = (Raise (TimeoutExpired "timed out after 180 seconds"),
       {| files := ∅;
          trace := [Run.clone_cmd "org/proj" "/tmp/swe-bench-k3/repo"] |}) /\
  records_at (snd (Run.main Sample.E_noclone Sample.run_args Sample.w0))
             "/tmp/cognos-swe-predictions.jsonl" = [].
Proof. split; vm_compute; reflexivity. Qed.

(** ** The environment handed to the agent *)

Lemma launched_split (w w1 w' : world) (cs ds : list command) :
  trace w1 = (trace w ++ cs)%list -> trace w' = (trace w1 ++ ds)%list ->
  launched w w' = (cs ++ ds)%list.
Proof.
  intros H1 H2. unfold launched. rewrite H2, H1, <- app_assoc.
  now rewrite skipn_app, skipn_all, Nat.sub_diag.
Qed.

(** Whatever the outcome, an attempt of swe-bench-full.py launches git and
    the agent command, nothing else. *)
Lemma full_launched_commands (E : environ) (inst : instance) (tmo : Z) (w w' : world)
    (x : res dict) (c : command) :
  Full.run_instance E inst tmo w = (x, w') ->
  In c (launched w w') ->
  is_git c = true \/ c = Full.agent_cmd E tmo.
Proof.
  unfold Full.run_instance, bind, attempt.
  destruct (Full.setup_repo E inst w) as [[rp|e] w1] eqn:Hs;
    destruct (setup_repo_frame _ _ _ _ _ Hs) as [_ (cs & Ht & Hgit)];
    rewrite Forall_forall in Hgit.
  - unfold write_file, subprocess_run, elapsed_since_start, ret, clock. cbn [files trace].
    assert (Hin : forall ds w2, trace w2 = (trace w1 ++ ds)%list ->
              (forall d, In d ds -> is_git d = true \/ d = Full.agent_cmd E tmo) ->
              In c (launched w w2) -> is_git c = true \/ c = Full.agent_cmd E tmo).
    { intros ds w2 Hw2 Hds Hc. rewrite (launched_split w w1 w2 cs ds Ht Hw2) in Hc.
      apply in_app_or in Hc. destruct Hc as [Hc|Hc]; [left|]; auto.
      apply Hgit. now apply list_elem_of_In. }
    assert (Hdiff : forall (o : outcome) (output : string) (code t : Z) (w2 : world),
      trace w2 = (trace w1 ++ [Full.agent_cmd E tmo])%list ->
      (let (r, w3) :=
         match o with
         | Returned rc0 out0 err0 =>
             (Ok (rc0, out0, err0),
              {| files := files w2; trace := (trace w2 ++ [Full.git_in rp ["diff"]])%list |})
         | Raised e0 =>
             (Raise e0,
              {| files := files w2; trace := (trace w2 ++ [Full.git_in rp ["diff"]])%list |})
         end in
       match r with
       | Ok a =>
           (let '(_, diff_stdout, _) := a in
            fun w4 : world =>
              let (r0, w5) :=
                (if Full.has_patch (PyStr.strip diff_stdout)
                 then write_file (Full.patch_file E (instance_id inst)) (PyStr.strip diff_stdout)
                 else ret tt) w4 in
              match r0 with
              | Ok _ =>
                  let (r1, w6) := write_file (Full.log_file E (instance_id inst)) output w5 in
                  match r1 with
                  | Ok _ =>
                      (Ok (Full.completed_result (instance_id inst) (PyStr.strip diff_stdout)
                             (Full.detect_mode output) t code), w6)
                  | Raise e0 => (Raise e0, w6)
                  end
              | Raise e0 => (Raise e0, w5)
              end) w3
       | Raise e0 => (Raise e0, w3)
       end) = (x, w') ->
      In c (launched w w') -> is_git c = true \/ c = Full.agent_cmd E tmo).
    { intros o output code t w2 Hw2 H.
      apply (Hin [Full.agent_cmd E tmo; Full.git_in rp ["diff"]]).
      - destruct o as [rc0 out0 err0|e0]; cbn [files trace] in H.
        + unfold write_file, ret in H.
          destruct (Full.has_patch (PyStr.strip out0)); inversion H; subst; cbn [trace];
            rewrite Hw2, <- app_assoc; reflexivity.
        + inversion H; subst; cbn [trace]. rewrite Hw2, <- app_assoc. reflexivity.
      - intros d [<-|[<-|[]]]; auto. }
    destruct (child E (List.length (trace w1)) (Full.agent_cmd E tmo)) as [rc out err|e];
      cbn [Full.captured is_TimeoutExpired].
    + apply Hdiff. reflexivity.
    + destruct (is_TimeoutExpired e); cbn [files trace].
      * apply Hdiff. reflexivity.
      * intros H; inversion H; subst.
        apply (Hin [Full.agent_cmd E tmo]); [reflexivity|].
        intros d [<-|[]]; auto.
  - assert (Hend : launched w w1 = cs).
    { unfold launched. rewrite Ht. now rewrite skipn_app, skipn_all, Nat.sub_diag. }
    destruct (is_Exception e); unfold ret; intros H Hc; inversion H; subst w';
      rewrite Hend in Hc; left; apply Hgit; now apply list_elem_of_In.
Qed.

Lemma extract_patch_launched (E : environ) (repo_path output : string) (w w' : world)
    (x : res string) :
  Run.extract_patch E repo_path output w = (x, w') ->
  exists ds, trace w' = (trace w ++ ds)%list /\ Forall (fun c => is_git c = true) ds.
Proof.
  unfold Run.extract_patch, bind.
  destruct (extract_delimited_pure output) as [patch Hp]. rewrite Hp.
  destruct (PyStr.is_empty patch); unfold subprocess_run, ret.
  - destruct (child E (clock w) _) as [rc dout derr|e]; intros H; inversion H; subst;
      (eexists; split; [reflexivity|repeat constructor]).
  - intros H. inversion H; subst. exists []. rewrite app_nil_r. split; [reflexivity|constructor].
Qed.

(** The same for swe-bench-run.py: the agent is launched with the
    environment [agent_env] computes. *)
Lemma run_launched_commands (E : environ) (agent : string) (inst : instance) (tmo : Z)
    (w w' : world) (x : res dict) (c : command) :
  Run.run_instance E agent inst tmo w = (x, w') ->
  In c (launched w w') ->
  is_git c = true \/
  exists now, c = Run.agent_cmd E agent (instance_id inst) tmo (Run.agent_env E now).
Proof.
  unfold Run.run_instance, bind, attempt, Run.mk_tmpdir, Run.read_agent_env,
    subprocess_run, write_file, Run.remove_quietly, ret.
  cbn [files trace].
  set (Q := fun d : command =>
         is_git d = true \/
         exists now, d = Run.agent_cmd E agent (instance_id inst) tmo (Run.agent_env E now)).
  assert (Hin : forall ds w2, trace w2 = (trace w ++ ds)%list ->
            Forall Q ds -> In c (launched w w2) -> Q c).
  { intros ds w2 Hw2 Hds Hc. unfold launched in Hc.
    rewrite Hw2, skipn_app, skipn_all, Nat.sub_diag in Hc. simpl in Hc.
    rewrite Forall_forall in Hds. apply Hds. now apply list_elem_of_In. }
  destruct (child E (clock w) _) as [rc o1 e1|e].
  2:{ intros H; inversion H; subst. eapply Hin; [reflexivity|].
      repeat constructor. }
  destruct (negb (rc =? 0)).
  { intros H; inversion H; subst. eapply Hin; [reflexivity|]. repeat constructor. }
  match goal with
  | |- context [child E ?n ?k] => destruct (child E n k) as [rc2 o2 e2|e]
  end.
  2:{ intros H; inversion H; subst. eapply Hin; [cbn [trace]; now rewrite <- app_assoc|].
      repeat constructor. }
  cbn [files trace].
  assert (Hfin : forall (y : res string) (w2 w3 : world) (k : command),
    trace w2 = (trace w ++ [Run.clone_cmd (repo inst) (path_join (mkdtemp E (clock w)) ["repo"]);
                            Run.git_in (path_join (mkdtemp E (clock w)) ["repo"])
                              ["checkout"; base_commit inst]; k])%list ->
    Q k ->
    (exists ds, trace w3 = (trace w2 ++ ds)%list /\ Forall (fun c => is_git c = true) ds) ->
    match y with
    | Ok a =>
        (Ok (Run.prediction (instance_id inst) a),
         {| files := delete (Run.memory_db (instance_id inst)) (files w3);
            trace := trace w3 |})
    | Raise e => (Raise e, w3)
    end = (x, w') ->
    In c (launched w w') -> Q c).
  { intros y w2 w3 k Hw2 Hk (ds & Hw3 & Hds) H.
    assert (Htr : trace w' = trace w3) by (destruct y; inversion H; subst; reflexivity).
    apply (Hin ([Run.clone_cmd (repo inst) (path_join (mkdtemp E (clock w)) ["repo"]);
                 Run.git_in (path_join (mkdtemp E (clock w)) ["repo"])
                   ["checkout"; base_commit inst]; k] ++ ds)%list).
    - rewrite Htr, Hw3, Hw2. now rewrite <- app_assoc.
    - apply Forall_app. split.
      + constructor; [left; reflexivity|]. constructor; [left; reflexivity|].
        constructor; [exact Hk|constructor].
      + eapply Forall_impl; [exact Hds|]. intros d Hd. now left. }
  match goal with
  | |- context [child E ?n ?k] => destruct (child E n k) as [rc3 output err3|e] eqn:Hag
  end.
  - match goal with
    | |- context [Run.extract_patch ?E' ?rp ?out ?w2] =>
        destruct (Run.extract_patch E' rp out w2) as [y w3] eqn:Hx
    end.
    apply extract_patch_launched in Hx.
    eapply Hfin; [| |exact Hx].
    + cbn [trace]. now rewrite <- !app_assoc.
    + right. eexists. reflexivity.
  - destruct (is_TimeoutExpired e).
    + match goal with
      | |- context [Run.extract_patch ?E' ?rp ?out ?w2] =>
          destruct (Run.extract_patch E' rp out w2) as [y w3] eqn:Hx
      end.
      apply extract_patch_launched in Hx.
      eapply Hfin; [| |exact Hx].
      * cbn [trace]. now rewrite <- !app_assoc.
      * right. eexists. reflexivity.
    + intros H; inversion H; subst.
      eapply Hin; [cbn [trace]; now rewrite <- !app_assoc|].
      constructor; [left; reflexivity|]. constructor; [left; reflexivity|].
      constructor; [|constructor]. right. eexists. reflexivity.
Qed.

Lemma strip_keeps_hash (line : string) :
  PyStr.startswith "#" line = true -> PyStr.startswith "#" (PyStr.strip line) = true.
Proof.
  unfold PyStr.startswith, PyStr.strip.
  destruct line as [|c rest]; intros H; [cbn [String.prefix] in H; discriminate|].
  assert (Hc : c = "#"%char).
  { cbn [String.prefix] in H. destruct (ascii_dec "#" c); [congruence|discriminate]. }
  subst c. change (PyStr.lstrip (String "#" rest)) with (String "#" rest).
  cbn [PyStr.rstrip]. change (PyStr.is_space "#") with false. cbn [andb String.prefix].
  destruct (ascii_dec "#" "#"); [|contradiction].
  now destruct (PyStr.rstrip rest).
Qed.

Lemma find_eq_cons (c : ascii) (s : string) :
  PyStr.find "=" (String c s) = None -> c <> "="%char /\ PyStr.find "=" s = None.
Proof.
  cbn [PyStr.find String.prefix].
  destruct (ascii_dec "=" c) as [<-|Hne].
  - now destruct s.
  - destruct (PyStr.find "=" s); [discriminate|]. intros _. split; congruence.
Qed.

(** Without an ['='] in [key], the first cut of [key=val] is after [key]. *)
Lemma split_first_key (key val : string) :
  PyStr.find "=" key = None ->
  PyStr.split_first "=" (key +:+ "=" +:+ val) = Some (key, val).
Proof.
  induction key as [|c key IH]; intros H; [reflexivity|].
  apply find_eq_cons in H. destruct H as [Hc Hk].
  rewrite app_String. cbn [PyStr.split_first].
  destruct (Ascii.eqb_spec c "="); [contradiction|].
  now rewrite (IH Hk).
Qed.

Lemma find_in_middle (sub a t : string) : is_Some (PyStr.find sub (a +:+ sub +:+ t)).
Proof.
  induction a as [|c a IH].
  - change ("" +:+ sub +:+ t) with (sub +:+ t).
    destruct (sub +:+ t) eqn:Heq; cbn [PyStr.find]; rewrite <- ?Heq, prefix_app_self; eauto.
  - rewrite app_String. cbn [PyStr.find].
    destruct (String.prefix sub (String c (a +:+ sub +:+ t))); [eauto|].
    destruct IH as [k ->]. simpl. eauto.
Qed.

Lemma hash_prefix_app (key rest : string) :
  PyStr.startswith "#" key = false ->
  PyStr.startswith "#" (key +:+ "=" +:+ rest) = false.
Proof.
  unfold PyStr.startswith. destruct key as [|c key]; [reflexivity|].
  rewrite app_String. cbn [String.prefix].
  destruct (ascii_dec "#" c); [|reflexivity].
  destruct key; discriminate.
Qed.

(** C8: the agent of swe-bench-full.py is launched with the parent's
    environment minus ANTHROPIC_API_KEY, and that is the only command the
    script launches besides git.  The agent of swe-bench-run.py is launched
    with the parent's environment as it is, overlaid with the entries of
    the optional .env file: blank lines, lines starting with '#' and lines
    without '=' change nothing, and a line KEY=VALUE sets KEY to VALUE,
    cut at the first '='. *)
Theorem C8_agent_environment (E : environ) (agent : string) (tmo : Z) (now : nat)
    (env : gmap string string) (line key val : string) :
  (child_env (Full.agent_cmd E tmo) = Some (Full.agent_env E) /\
   Full.agent_env E !! "ANTHROPIC_API_KEY" = None /\
   (forall k, k <> "ANTHROPIC_API_KEY" -> Full.agent_env E !! k = os_environ E !! k) /\
   (forall inst w w' x c,
      Full.run_instance E inst tmo w = (x, w') -> In c (launched w w') ->
      is_git c = true \/ c = Full.agent_cmd E tmo))
  /\
  ((forall inst w w' x c,
      Run.run_instance E agent inst tmo w = (x, w') -> In c (launched w w') ->
      is_git c = true \/
      exists n, c = Run.agent_cmd E agent (instance_id inst) tmo (Run.agent_env E n) /\
                child_env c = Some (Run.agent_env E n)) /\
   Run.agent_env E now =
     match env_file E now with
     | Some content => fold_left Run.source_line (PyStr.file_lines content) (os_environ E)
     | None => os_environ E
     end /\
   (PyStr.strip line = "" -> Run.source_line env line = env) /\
   (PyStr.startswith "#" line = true -> Run.source_line env line = env) /\
   (PyStr.contains "=" (PyStr.strip line) = false -> Run.source_line env line = env) /\
   (PyStr.strip line = key +:+ "=" +:+ val ->
    PyStr.contains "=" key = false -> PyStr.startswith "#" key = false ->
    Run.source_line env line = <[key := val]> env)).
Proof.
  split; [|split; [|split; [|split; [|split; [|split]]]]].
  - split; [reflexivity|]. split; [apply lookup_delete_eq|]. split.
    + intros k Hk. unfold Full.agent_env. now rewrite lookup_delete_ne.
    + intros inst w w' x c. apply full_launched_commands.
  - intros inst w w' x c Hrun Hc.
    destruct (run_launched_commands _ _ _ _ _ _ _ _ Hrun Hc) as [Hg|[n ->]]; [now left|].
    right. exists n. split; reflexivity.
  - unfold Run.agent_env. now destruct (env_file E now).
  - intros H. unfold Run.source_line. now rewrite H.
  - intros H. unfold Run.source_line. rewrite (strip_keeps_hash _ H). simpl.
    now rewrite andb_false_r.
  - intros H. unfold Run.source_line. rewrite H. now rewrite andb_false_r.
  - intros Hline Hkey Hhash. unfold Run.source_line. rewrite Hline.
    rewrite (hash_prefix_app _ _ Hhash).
    assert (Hne : PyStr.is_empty (key +:+ "=" +:+ val) = false) by (now destruct key).
    rewrite Hne. simpl.
    assert (Hc : PyStr.contains "=" (key +:+ "=" +:+ val) = true).
    { unfold PyStr.contains. apply bool_decide_eq_true_2. apply find_in_middle. }
    rewrite Hc. unfold PyStr.split1.
    apply contains_false_find in Hkey. now rewrite (split_first_key _ _ Hkey).
Qed.

Lemma C8_agent_environment_witness :
  Full.agent_env Sample.E_ok !! "ANTHROPIC_API_KEY" = None /\
  Full.agent_env Sample.E_ok !! "PATH" = Some "/usr/bin" /\
  Run.source_line (os_environ Sample.E_dotenv) "ANTHROPIC_API_KEY=sk-live=x
" = <[ "ANTHROPIC_API_KEY" := "sk-live=x" ]> (os_environ Sample.E_dotenv) /\
  Run.source_line (os_environ Sample.E_dotenv) "# keys
" = os_environ Sample.E_dotenv /\
  Run.agent_env Sample.E_dotenv 2 !! "ANTHROPIC_API_KEY" = Some "sk-live=x".
Proof.
  pose proof (C8_agent_environment Sample.E_ok Sample.coding_agent 300 2
                (os_environ Sample.E_dotenv) "ANTHROPIC_API_KEY=sk-live=x
" "ANTHROPIC_API_KEY" "sk-live=x") as [[_ [Hkey [Hother _]]] (_ & _ & _ & _ & _ & Hset)].
  pose proof (C8_agent_environment Sample.E_dotenv Sample.coding_agent 300 2
                (os_environ Sample.E_dotenv) "# keys
" "" "") as (_ & _ & Henv & _ & Hhash & _).
  split; [exact Hkey|]. split.
  { rewrite Hother by discriminate. vm_compute. reflexivity. }
  split.
  { apply Hset; vm_compute; reflexivity. }
  split.
  { apply Hhash. vm_compute. reflexivity. }
  rewrite Henv. vm_compute. reflexivity.
Defined.

(** * Further properties of the two scripts *)

(** ** Workspaces *)

Lemma find_char_cons (a c : ascii) (s : string) :
  PyStr.find (String a "") (String c s) = None <->
  c <> a /\ PyStr.find (String a "") s = None.
Proof.
  cbn [PyStr.find String.prefix].
  destruct (ascii_dec a c) as [<-|Hne].
  - destruct s; split; try discriminate; intros [H _]; contradiction.
  - destruct (PyStr.find (String a "") s); split; try discriminate;
      try (intros [_ H]; discriminate); intros _; split; congruence.
Qed.

(** [iid.replace('/', '__')] leaves no slash behind. *)
Lemma replace_slash_no_slash (s : string) :
  PyStr.find "/" (PyStr.replace_char "/" "__" s) = None.
Proof.
  induction s as [|c s IH]; [reflexivity|].
  cbn [PyStr.replace_char]. destruct (Ascii.eqb_spec c "/") as [->|Hne].
  - change ("__" +:+ PyStr.replace_char "/" "__" s)
      with (String "_" (String "_" (PyStr.replace_char "/" "__" s))).
    apply find_char_cons. split; [discriminate|].
    apply find_char_cons. split; [discriminate|assumption].
  - apply find_char_cons. split; assumption.
Qed.

(** X1: the workspace path of an instance is /tmp/swe-repos/ followed by
    the instance id with every slash replaced by two underscores, and what
    follows /tmp/swe-repos/ holds no slash. *)
Theorem X1_workspace_name_holds_no_slash (iid : string) :
  Full.repo_path_of iid = "/tmp/swe-repos/" +:+ PyStr.replace_char "/" "__" iid /\
  PyStr.contains "/" (PyStr.replace_char "/" "__" iid) = false.
Proof.
  pose proof (replace_slash_no_slash iid) as Hno.
  split; [|now apply contains_false_find].
  unfold Full.repo_path_of, path_join, join2. cbn [fold_left].
  destruct (PyStr.replace_char "/" "__" iid) as [|c r] eqn:Hr; [reflexivity|].
  apply find_char_cons in Hno. destruct Hno as [Hc _].
  unfold PyStr.startswith. cbn [String.prefix].
  destruct (ascii_dec "/" c) as [<-|_]; [contradiction|]. reflexivity.
Qed.

(** X2: a workspace that is already on disk is never cloned again:
    whatever happens, [setup_repo] launches a prefix of checkout, reset,
    clean, and all three when it returns. *)
Theorem X2_existing_workspace_is_not_cloned (E : environ) (inst : instance) (w w1 : world)
    (r : res string) :
  let repo_path := Full.repo_path_of (instance_id inst) in
  let normalize := [Full.git_in repo_path ["checkout"; base_commit inst];
                    Full.git_in repo_path ["checkout"; "--"; "."];
                    Full.git_in repo_path ["clean"; "-fd"]] in
  dir_exists E (clock w) repo_path = true ->
  Full.setup_repo E inst w = (r, w1) ->
  (exists k, launched w w1 = firstn k normalize) /\
  (forall p, r = Ok p -> launched w w1 = normalize).
Proof.
  intros repo_path normalize Hex. subst repo_path normalize.
  unfold launched. unfold_setup. rewrite Hex. simpl.
  repeat (destruct_child; simpl); intros H; inversion H; subst; simpl;
    rewrite <- ?app_assoc, ?skipn_app, ?skipn_all, ?Nat.sub_diag; simpl;
    (split; [|intros p Hp; try discriminate; reflexivity]).
  - now exists 3%nat.
  - now exists 3%nat.
  - now exists 2%nat.
  - now exists 1%nat.
Qed.

Lemma X2_existing_workspace_is_not_cloned_witness :
  (exists k,
     launched Sample.w0 (snd (Full.setup_repo Sample.E_reuse Sample.inst1 Sample.w0))
       = firstn k [Full.git_in "/tmp/swe-repos/proj-1" ["checkout"; "abc123"];
                   Full.git_in "/tmp/swe-repos/proj-1" ["checkout"; "--"; "."];
                   Full.git_in "/tmp/swe-repos/proj-1" ["clean"; "-fd"]]) /\
  (forall p, Ok "/tmp/swe-repos/proj-1" = Ok p ->
     launched Sample.w0 (snd (Full.setup_repo Sample.E_reuse Sample.inst1 Sample.w0))
       = [Full.git_in "/tmp/swe-repos/proj-1" ["checkout"; "abc123"];
          Full.git_in "/tmp/swe-repos/proj-1" ["checkout"; "--"; "."];
          Full.git_in "/tmp/swe-repos/proj-1" ["clean"; "-fd"]]).
Proof.
  apply (X2_existing_workspace_is_not_cloned Sample.E_reuse Sample.inst1 Sample.w0
           (snd (Full.setup_repo Sample.E_reuse Sample.inst1 Sample.w0))
           (Ok "/tmp/swe-repos/proj-1")).
  - reflexivity.
  - vm_compute. reflexivity.
Defined.

(** X3: without a workspace on disk, a returning [setup_repo] has run the
    shallow clone first, the full clone exactly when the shallow one exited
    non-zero, and then checkout, reset and clean. *)
Theorem X3_full_clone_iff_shallow_clone_failed (E : environ) (inst : instance)
    (w w1 : world) (p : string) :
  let repo_path := Full.repo_path_of (instance_id inst) in
  dir_exists E (clock w) repo_path = false ->
  Full.setup_repo E inst w = (Ok p, w1) ->
  exists rc out err,
    child E (clock w) (Full.clone_shallow (repo inst) repo_path) = Returned rc out err /\
    launched w w1 =
      (Full.clone_shallow (repo inst) repo_path
       :: (if rc =? 0 then [] else [Full.clone_full (repo inst) repo_path])
       ++ [Full.git_in repo_path ["checkout"; base_commit inst];
           Full.git_in repo_path ["checkout"; "--"; "."];
           Full.git_in repo_path ["clean"; "-fd"]])%list.
Proof.
  intros repo_path Hex. subst repo_path.
  unfold launched. unfold_setup. rewrite Hex. simpl.
  destruct (child E (List.length (trace w)) _) as [rc out err|e] eqn:Hclone; simpl;
    [|discriminate].
  intros H. exists rc, out, err. split; [reflexivity|]. revert H.
  destruct (rc =? 0); simpl;
    repeat (destruct_child; simpl); intros H; inversion H; subst; simpl;
    rewrite <- ?app_assoc, ?skipn_app, ?skipn_all, ?Nat.sub_diag; reflexivity.
Qed.

Lemma X3_full_clone_iff_shallow_clone_failed_witness :
  exists rc out err,
    child Sample.E_clone_exit128 0 (Full.clone_shallow "org/proj" "/tmp/swe-repos/proj-1")
      = Returned rc out err /\
    launched Sample.w0 (snd (Full.setup_repo Sample.E_clone_exit128 Sample.inst1 Sample.w0)) =
      (Full.clone_shallow "org/proj" "/tmp/swe-repos/proj-1"
       :: (if rc =? 0 then [] else [Full.clone_full "org/proj" "/tmp/swe-repos/proj-1"])
       ++ [Full.git_in "/tmp/swe-repos/proj-1" ["checkout"; "abc123"];
           Full.git_in "/tmp/swe-repos/proj-1" ["checkout"; "--"; "."];
           Full.git_in "/tmp/swe-repos/proj-1" ["clean"; "-fd"]])%list.
Proof.
  apply (X3_full_clone_iff_shallow_clone_failed Sample.E_clone_exit128 Sample.inst1
           Sample.w0 (snd (Full.setup_repo Sample.E_clone_exit128 Sample.inst1 Sample.w0))
           "/tmp/swe-repos/proj-1").
  - reflexivity.
  - vm_compute. reflexivity.
Defined.

(** ** Attempts of swe-bench-full.py *)

(** The files after an attempt that got past provisioning, whatever its
    outcome: the two scratch files, and then possibly the patch and the
    log. *)
Lemma run_instance_files_cases (E : environ) (inst : instance) (tmo : Z) (w w1 w' : world)
    (p : string) (x : res dict) :
  Full.setup_repo E inst w = (Ok p, w1) ->
  Full.run_instance E inst tmo w = (x, w') ->
  files w' = <[Full.repo_file := [Text p]]>
               (<[Full.issue_file := [Text (problem_statement inst)]]> (files w))
  \/ exists output patch, files w' = files_after_attempt E inst p output patch (files w).
Proof.
  intros Hs. pose proof (setup_repo_frame _ _ _ _ _ Hs) as [Hf _].
  unfold Full.run_instance, bind, attempt. rewrite Hs.
  unfold write_file, subprocess_run, elapsed_since_start, ret, clock. cbn [files trace].
  rewrite Hf. unfold files_after_attempt.
  destruct (child E (List.length (trace w1)) (Full.agent_cmd E tmo)) as [rc out err|e];
    cbn [Full.captured files trace].
  - match goal with
    | |- context [child E ?n ?c] => destruct (child E n c) as [rc2 dout derr|e2]
    end; cbn [files trace].
    + destruct (Full.has_patch (PyStr.strip dout)) eqn:Hp; cbn [files trace];
        intros H; inversion H; subst; right; exists (out +:+ err), (PyStr.strip dout);
        cbn [files]; now rewrite Hp.
    + intros H; inversion H; subst. now left.
  - destruct (is_TimeoutExpired e); cbn [Full.captured files trace].
    + match goal with
      | |- context [child E ?n ?c] => destruct (child E n c) as [rc2 dout derr|e2]
      end; cbn [files trace].
      * destruct (Full.has_patch (PyStr.strip dout)) eqn:Hp; cbn [files trace];
          intros H; inversion H; subst; right; exists "TIMEOUT", (PyStr.strip dout);
          cbn [files]; now rewrite Hp.
      * intros H; inversion H; subst. now left.
    + intros H; inversion H; subst. now left.
Qed.

(** X4: once provisioning has returned, the two scratch files hold the
    problem statement and the workspace path, whatever becomes of the
    attempt afterwards. *)
Theorem X4_scratch_files_hold_issue_and_workspace (E : environ) (inst : instance) (tmo : Z)
    (w w1 w' : world) (p : string) (x : res dict) :
  Full.setup_repo E inst w = (Ok p, w1) ->
  Full.run_instance E inst tmo w = (x, w') ->
  files w' !! "/tmp/cognos-issue.txt" = Some [Text (problem_statement inst)] /\
  files w' !! "/tmp/cognos-repo.txt" = Some [Text (Full.repo_path_of (instance_id inst))].
Proof.
  intros Hs Hrun. pose proof (setup_repo_path _ _ _ _ _ Hs) as Hp.
  destruct (log_file_neq_scratch E (instance_id inst)) as [Hli Hlr].
  destruct (patch_file_neq_scratch E (instance_id inst)) as [Hpi Hpr].
  change "/tmp/cognos-issue.txt" with Full.issue_file.
  change "/tmp/cognos-repo.txt" with Full.repo_file.
  destruct (run_instance_files_cases _ _ _ _ _ _ _ _ Hs Hrun) as [->|(output & patch & ->)];
    unfold files_after_attempt; subst p.
  - split.
    + rewrite lookup_insert_ne by discriminate. apply lookup_insert_eq.
    + apply lookup_insert_eq.
  - rewrite !(lookup_insert_ne _ (Full.log_file E (instance_id inst))) by assumption.
    destruct (Full.has_patch patch).
    + rewrite !(lookup_insert_ne _ (Full.patch_file E (instance_id inst))) by assumption.
      split; [rewrite lookup_insert_ne by discriminate|]; apply lookup_insert_eq.
    + split; [rewrite lookup_insert_ne by discriminate|]; apply lookup_insert_eq.
Qed.

Lemma X4_scratch_files_hold_issue_and_workspace_witness :
  files (snd (Full.run_instance Sample.E_hang Sample.inst1 5 Sample.w0))
    !! "/tmp/cognos-issue.txt" = Some [Text "TypeError in parse()"] /\
  files (snd (Full.run_instance Sample.E_hang Sample.inst1 5 Sample.w0))
    !! "/tmp/cognos-repo.txt" = Some [Text (Full.repo_path_of "proj-1")].
Proof.
  apply (X4_scratch_files_hold_issue_and_workspace Sample.E_hang Sample.inst1 5 Sample.w0
           (snd (Full.setup_repo Sample.E_hang Sample.inst1 Sample.w0))
           (snd (Full.run_instance Sample.E_hang Sample.inst1 5 Sample.w0))
           "/tmp/swe-repos/proj-1"
           (fst (Full.run_instance Sample.E_hang Sample.inst1 5 Sample.w0)));
    vm_compute; reflexivity.
Defined.

(** X5: the result and the artifacts of an attempt agree: with status
    PATCH the patch file holds a text of more than 10 characters whose
    length is the recorded patch_size; with status NO_PATCH the recorded
    patch_size is between 0 and 10. *)
Theorem X5_patch_size_matches_patch_file (E : environ) (inst : instance) (tmo : Z)
    (w w' : world) (r : dict) :
  Full.run_instance E inst tmo w = (Ok r, w') ->
  (status_of r = Some (VStr "PATCH") ->
   exists patch,
     files w' !! Full.patch_file E (instance_id inst) = Some [Text patch] /\
     dict_lookup r "patch_size" = Some (VInt (Z.of_nat (String.length patch))) /\
     10 < Z.of_nat (String.length patch)) /\
  (status_of r = Some (VStr "NO_PATCH") ->
   exists n, dict_lookup r "patch_size" = Some (VInt n) /\ 0 <= n <= 10).
Proof.
  intros Hrun.
  destruct (run_instance_inv _ _ _ _ _ _ Hrun)
    as [(e & _ & _ & ->) | (w1 & output & c & rc & dout & derr & _ & _ & _ & -> & Hf & _)].
  { split; discriminate. }
  rewrite completed_status, Hf, files_after_attempt_patch.
  pose proof (has_patch_iff (PyStr.strip dout)) as Hp.
  destruct (Full.has_patch (PyStr.strip dout)); split; try discriminate; intros _.
  - exists (PyStr.strip dout). split; [reflexivity|].
    assert (Hlen : 10 < Z.of_nat (String.length (PyStr.strip dout))) by now apply Hp.
    split; [|assumption]. cbn.
    destruct (PyStr.strip dout); [simpl in Hlen; lia|reflexivity].
  - assert (Hlen : ~ 10 < Z.of_nat (String.length (PyStr.strip dout)))
      by (intros H; apply Hp in H; discriminate).
    eexists. split; [reflexivity|].
    destruct (PyStr.is_empty (PyStr.strip dout)); lia.
Qed.

Lemma X5_patch_size_matches_patch_file_witness :
  exists patch,
    files (snd (Full.run_instance Sample.E_ok Sample.inst1 300 Sample.w0))
      !! Full.patch_file Sample.E_ok "proj-1" = Some [Text patch] /\
    dict_lookup (Full.completed_result "proj-1" "diff --git a/p.py b/p.py" "unknown" 50 0)
      "patch_size" = Some (VInt (Z.of_nat (String.length patch))) /\
    10 < Z.of_nat (String.length patch).
Proof.
  apply (proj1 (X5_patch_size_matches_patch_file Sample.E_ok Sample.inst1 300 Sample.w0
                  (snd (Full.run_instance Sample.E_ok Sample.inst1 300 Sample.w0))
                  (Full.completed_result "proj-1" "diff --git a/p.py b/p.py" "unknown" 50 0)
                  ltac:(vm_compute; reflexivity))).
  vm_compute. reflexivity.
Defined.

(** X6: an exception of the agent launch other than its timeout (a missing
    binary, say) is not turned into a result: it leaves [run_instance],
    after the scratch files were written and before any log or patch
    file is. *)
Theorem X6_agent_error_other_than_timeout_propagates (E : environ) (inst : instance)
    (tmo : Z) (w w1 : world) (p : string) (e : exn) :
  Full.setup_repo E inst w = (Ok p, w1) ->
  child E (clock w1) (Full.agent_cmd E tmo) = Raised e ->
  is_TimeoutExpired e = false ->
  exists w',
    Full.run_instance E inst tmo w = (Raise e, w') /\
    launched w1 w' = [Full.agent_cmd E tmo] /\
    files w' !! Full.log_file E (instance_id inst)
      = files w !! Full.log_file E (instance_id inst) /\
    files w' !! Full.patch_file E (instance_id inst)
      = files w !! Full.patch_file E (instance_id inst).
Proof.
  intros Hs Ha Ht. pose proof (setup_repo_frame _ _ _ _ _ Hs) as [Hf _].
  destruct (log_file_neq_scratch E (instance_id inst)) as [Hli Hlr].
  destruct (patch_file_neq_scratch E (instance_id inst)) as [Hpi Hpr].
  unfold Full.run_instance, bind, attempt. rewrite Hs.
  unfold write_file, subprocess_run, elapsed_since_start, ret, clock in *. cbn [files trace].
  rewrite Ha, Ht. eexists. split; [reflexivity|]. cbn [files trace]. rewrite Hf.
  split; [apply launched_app_from|].
  split; now rewrite !lookup_insert_ne by congruence.
Qed.

Lemma X6_agent_error_other_than_timeout_propagates_witness :
  exists w',
    Full.run_instance Sample.E_no_binary Sample.inst1 300 Sample.w0
      = (Raise (OSError "No such file or directory"), w') /\
    launched (snd (Full.setup_repo Sample.E_no_binary Sample.inst1 Sample.w0)) w'
      = [Full.agent_cmd Sample.E_no_binary 300] /\
    files w' !! Full.log_file Sample.E_no_binary "proj-1"
      = files Sample.w0 !! Full.log_file Sample.E_no_binary "proj-1" /\
    files w' !! Full.patch_file Sample.E_no_binary "proj-1"
      = files Sample.w0 !! Full.patch_file Sample.E_no_binary "proj-1".
Proof.
  apply (X6_agent_error_other_than_timeout_propagates Sample.E_no_binary Sample.inst1 300
           Sample.w0 (snd (Full.setup_repo Sample.E_no_binary Sample.inst1 Sample.w0))
           "/tmp/swe-repos/proj-1" (OSError "No such file or directory"));
    vm_compute; reflexivity.
Defined.

(** ** The mode label *)

Lemma split_nonempty (sep : ascii) (s : string) : PyStr.split sep s <> [].
Proof.
  destruct s as [|c s]; [discriminate|]. cbn [PyStr.split].
  destruct (Ascii.eqb c sep); [discriminate|].
  destruct (PyStr.split sep s); discriminate.
Qed.

Lemma split_without_sep (sep : ascii) (s : string) :
  PyStr.find (String sep "") s = None -> PyStr.split sep s = [s].
Proof.
  induction s as [|c s IH]; [reflexivity|]. intros H.
  apply find_char_cons in H. destruct H as [Hc Hs].
  cbn [PyStr.split]. destruct (Ascii.eqb_spec c sep); [contradiction|].
  now rewrite (IH Hs).
Qed.

Lemma split_snoc_line (sep : ascii) (a line : string) :
  PyStr.find (String sep "") line = None ->
  PyStr.split sep (a +:+ String sep line) = (PyStr.split sep a ++ [line])%list.
Proof.
  intros Hl. induction a as [|c a IH].
  - change ("" +:+ String sep line) with (String sep line). cbn [PyStr.split].
    rewrite Ascii.eqb_refl. now rewrite (split_without_sep _ _ Hl).
  - rewrite app_String. cbn [PyStr.split]. rewrite IH.
    destruct (Ascii.eqb c sep); [reflexivity|].
    pose proof (split_nonempty sep a) as Hne.
    destruct (PyStr.split sep a); [contradiction|reflexivity].
Qed.

(** X7: the mode label is decided by the last line of the output that
    holds a marker, "Phase 1:" winning over "Falling back to agent" within
    a line; a last line without a marker leaves the label of the lines
    before it. *)
Theorem X7_last_marker_line_decides_mode (output line : string) :
  PyStr.contains (String PyStr.LF "") line = false ->
  Full.detect_mode (output +:+ String PyStr.LF line) =
    if PyStr.contains "Phase 1:" line then "v3-scout"
    else if PyStr.contains "Falling back to agent" line then "v3-fallback"
    else Full.detect_mode output.
Proof.
  intros H. apply contains_false_find in H.
  unfold Full.detect_mode. rewrite (split_snoc_line _ _ _ H).
  now rewrite fold_left_app.
Qed.

Lemma X7_last_marker_line_decides_mode_witness :
  Full.detect_mode ("Phase 1: scout" +:+ String PyStr.LF "Falling back to agent loop") =
    if PyStr.contains "Phase 1:" "Falling back to agent loop" then "v3-scout"
    else if PyStr.contains "Falling back to agent" "Falling back to agent loop"
         then "v3-fallback"
         else Full.detect_mode "Phase 1: scout".
Proof.
  apply (X7_last_marker_line_decides_mode "Phase 1: scout" "Falling back to agent loop").
  vm_compute. reflexivity.
Defined.

(** ** The results log and the summary *)

Lemma results_file_neq_others (E : environ) (iid : string) :
  Full.results_file E <> Full.patch_file E iid /\
  Full.results_file E <> Full.issue_file /\ Full.results_file E <> Full.repo_file.
Proof.
  repeat split; intros H; apply (f_equal PyStr.last_char) in H;
    rewrite results_file_last_char in H; rewrite ?patch_file_last_char in H; discriminate.
Qed.

(** An attempt, whatever its outcome, leaves the results log alone. *)
Lemma run_instance_keeps_results_log (E : environ) (inst : instance) (tmo : Z)
    (w w' : world) (x : res dict) :
  Full.run_instance E inst tmo w = (x, w') ->
  records_at w' (Full.results_file E) = records_at w (Full.results_file E).
Proof.
  intros Hrun. unfold records_at. f_equal.
  destruct (Full.setup_repo E inst w) as [[p|e] w1] eqn:Hs.
  - destruct (results_file_neq_others E (instance_id inst)) as (Hp & Hi & Hr).
    pose proof (log_file_neq_results_file E (instance_id inst)) as Hl.
    destruct (run_instance_files_cases _ _ _ _ _ _ _ _ Hs Hrun) as [->|(output & patch & ->)];
      unfold files_after_attempt.
    + now rewrite !lookup_insert_ne by congruence.
    + destruct (Full.has_patch patch); now rewrite !lookup_insert_ne by congruence.
  - pose proof (setup_repo_frame _ _ _ _ _ Hs) as [Hf _].
    unfold Full.run_instance, bind, attempt in Hrun. rewrite Hs in Hrun.
    destruct (is_Exception e); unfold ret in Hrun; inversion Hrun; subst; now rewrite Hf.
Qed.

(** The loop only ever appends to the results log, one record per result
    it has collected. *)
Lemma main_loop_appends (E : environ) (tmo : Z) (ds : list instance) :
  forall (results : list dict) (w w' : world) (x : res (list dict)),
    Full.main_loop E tmo ds results w = (x, w') ->
    exists new,
      records_at w' (Full.results_file E)
        = (records_at w (Full.results_file E) ++ List.map JsonLine new)%list /\
      (List.length new <= List.length ds)%nat /\
      Forall (fun d => is_Some (status_of d)) new /\
      (forall results', x = Ok results' -> results' = (results ++ new)%list).
Proof.
  induction ds as [|inst ds IH]; intros results w w' x H.
  - simpl in H. unfold ret in H. inversion H; subst. exists [].
    rewrite !app_nil_r. repeat split; [simpl; lia|constructor|].
    intros r' Hr. now inversion Hr.
  - simpl in H. unfold bind at 1 in H. unfold file_exists in H. cbn [fst snd] in H.
    destruct (bool_decide _).
    + destruct (IH _ _ _ _ H) as (new & Hrec & Hlen & Hst & Hres).
      exists new. repeat split; [assumption|simpl; lia|assumption|assumption].
    + unfold bind at 1 in H.
      destruct (Full.run_instance E inst tmo w) as [[r|e] w1] eqn:Hrun.
      * pose proof (run_instance_keeps_results_log _ _ _ _ _ _ Hrun) as Hkeep.
        unfold bind, dict_get in H. unfold status_of in *.
        destruct (dict_lookup r "status") as [st|] eqn:Hstat;
          [|inversion H; subst; exists []; rewrite app_nil_r;
            repeat split; [assumption|simpl; lia|constructor|discriminate]].
        unfold ret in H at 1 2. cbv beta iota in H.
        destruct (dict_lookup r "time") as [t|];
          [|inversion H; subst; exists []; rewrite app_nil_r;
            repeat split; [assumption|simpl; lia|constructor|discriminate]].
        unfold ret in H at 1. cbv beta iota in H.
        destruct (dict_lookup r "mode") as [m|];
          [|inversion H; subst; exists []; rewrite app_nil_r;
            repeat split; [assumption|simpl; lia|constructor|discriminate]].
        unfold ret in H at 1. cbv beta iota in H.
        change (append_json (Full.results_file E) r w1)
          with (Ok tt, snd (append_json (Full.results_file E) r w1)) in H.
        cbv beta iota in H.
        destruct (IH _ _ _ _ H) as (new & Hrec & Hlen & Hst & Hres).
        exists (r :: new). repeat split.
        -- rewrite Hrec, records_at_append, Hkeep. now rewrite <- app_assoc.
        -- simpl; lia.
        -- constructor; [unfold status_of; rewrite Hstat; eauto|assumption].
        -- intros r' Hr. rewrite (Hres r' Hr). now rewrite <- app_assoc.
      * inversion H; subst. exists []. rewrite app_nil_r.
        repeat split; [|simpl; lia|constructor|discriminate].
        eapply run_instance_keeps_results_log; eassumption.
Qed.

Lemma count_patches_counts (rs : list dict) (w : world) :
  Forall (fun d => is_Some (status_of d)) rs ->
  Full.count_patches rs w
    = (Ok (Z.of_nat (List.length (List.filter is_patch_result rs))), w).
Proof.
  induction 1 as [|r rs [st Hst] _ IH]; [reflexivity|].
  cbn [Full.count_patches]. unfold bind, dict_get. unfold status_of in Hst. rewrite Hst.
  unfold ret at 1. cbv beta iota. rewrite IH. unfold ret.
  assert (Hr : is_patch_result r
               = match st with VStr s => String.eqb s "PATCH" | _ => false end)
    by (unfold is_patch_result, status_of; now rewrite Hst).
  cbn [List.filter]. rewrite Hr.
  destruct st as [s| |]; try reflexivity.
  destruct (String.eqb s "PATCH"); [|reflexivity].
  cbn [List.length]. f_equal. f_equal. lia.
Qed.

(** X8: whatever way a run of [main] ends, normally or by an exception,
    the results log has only been appended to; and when [main] returns its
    summary, total is the number of records this run appended (instances
    skipped as already done are not counted) and patches is the number of
    those with status PATCH. *)
Theorem X8_results_log_is_append_only (E : environ) (a : Full.args) (w w' : world)
    (x : res (option (Z * Z))) :
  Full.main E a w = (x, w') ->
  exists new,
    records_at w' (Full.results_file E)
      = (records_at w (Full.results_file E) ++ List.map JsonLine new)%list /\
    (forall patches total, x = Ok (Some (patches, total)) ->
       total = Z.of_nat (List.length new) /\
       patches = Z.of_nat (List.length (List.filter is_patch_result new)) /\
       0 <= patches <= total).
Proof.
  unfold Full.main.
  set (sel := match Full.arg_instance a with
              | Some id => _
              | None => _
              end).
  destruct sel as [[]|ds].
  { unfold ret. intros H. inversion H; subst. exists []. rewrite app_nil_r.
    split; [reflexivity|discriminate]. }
  unfold bind at 1.
  destruct (Full.main_loop E (Full.arg_timeout a) ds [] w) as [[rs|e] w1] eqn:Hloop.
  - destruct (main_loop_appends _ _ _ _ _ _ _ Hloop) as (new & Hrec & _ & Hst & Hres).
    specialize (Hres rs eq_refl). simpl in Hres. subst new.
    unfold bind. rewrite (count_patches_counts rs w1 Hst). unfold ret.
    intros H. inversion H; subst. exists rs. split; [assumption|].
    intros p t Hpt. inversion Hpt; subst. repeat split; try lia.
    apply inj_le. apply List.filter_length_le.
  - destruct (main_loop_appends _ _ _ _ _ _ _ Hloop) as (new & Hrec & _ & _ & _).
    intros H. inversion H; subst. exists new. split; [assumption|discriminate].
Qed.

(** Two instances attempted in a fresh results directory, one of them
    leaving a patch: two records appended, summary 1 of 2. *)
Lemma X8_results_log_is_append_only_witness :
  Full.main Sample.E_one_patch Sample.full_args Sample.w0
    = (Ok (Some (1, 2)), snd (Full.main Sample.E_one_patch Sample.full_args Sample.w0)) /\
  exists new,
    records_at (snd (Full.main Sample.E_one_patch Sample.full_args Sample.w0))
               (Full.results_file Sample.E_one_patch)
      = (records_at Sample.w0 (Full.results_file Sample.E_one_patch)
         ++ List.map JsonLine new)%list /\
    2 = Z.of_nat (List.length new) /\
    1 = Z.of_nat (List.length (List.filter is_patch_result new)) /\
    0 <= 1 <= 2.
Proof.
  destruct (X8_results_log_is_append_only Sample.E_one_patch Sample.full_args Sample.w0
              (snd (Full.main Sample.E_one_patch Sample.full_args Sample.w0))
              (Ok (Some (1, 2))))
    as (new & Hrec & Hsum).
  - vm_compute. reflexivity.
  - split; [vm_compute; reflexivity|].
    exists new. split; [exact Hrec|]. exact (Hsum 1 2 eq_refl).
Defined.

Lemma py_slice_window {A} (l : list A) (lo n : Z) :
  0 <= lo -> 0 <= n ->
  py_slice l lo (lo + n) = firstn (Z.to_nat n) (skipn (Z.to_nat lo) l).
Proof.
  intros Hlo Hn. unfold py_slice, clamp_index.
  destruct (Z.ltb_spec lo 0); [lia|]. destruct (Z.ltb_spec (lo + n) 0); [lia|].
  set (len := Z.of_nat (List.length l)).
  destruct (Z.le_gt_cases lo len) as [Hle|Hgt].
  - rewrite (Z.min_l lo len) by assumption.
    destruct (Z.le_gt_cases (lo + n) len) as [Hle2|Hgt2].
    + rewrite Z.min_l by assumption. f_equal. f_equal. lia.
    + rewrite Z.min_r by lia.
      rewrite !firstn_all2; [reflexivity| |]; rewrite List.length_skipn; subst len; lia.
  - rewrite (Z.min_r lo len) by lia. rewrite Z.min_r by lia.
    rewrite Z.sub_diag. change (Z.to_nat 0) with 0%nat. cbn [firstn].
    assert (Hnil : skipn (Z.to_nat lo) l = []) by (apply List.skipn_all2; subst len; lia).
    rewrite Hnil. symmetry. apply firstn_nil.
Qed.

(** X9: with a start offset and a limit that are not negative, [main]
    goes over the window of [limit] instances that starts at [start], and
    its summary counts at most [limit] attempts. *)
Theorem X9_at_most_limit_attempts (E : environ) (a : Full.args) (w w' : world)
    (patches total : Z) :
  Full.arg_instance a = None ->
  0 <= Full.arg_start a -> 0 <= Full.arg_limit a ->
  Full.main E a w = (Ok (Some (patches, total)), w') ->
  Full.main E a w =
    (do results <- Full.main_loop E (Full.arg_timeout a)
                     (firstn (Z.to_nat (Full.arg_limit a))
                        (skipn (Z.to_nat (Full.arg_start a)) (load_dataset E))) [];
     do patches <- Full.count_patches results;
     ret (Some (patches, Z.of_nat (List.length results)))) w /\
  total <= Full.arg_limit a /\
  total <= Z.of_nat (List.length (load_dataset E)).
Proof.
  intros Hi Hs Hl. unfold Full.main. rewrite Hi.
  rewrite (py_slice_window _ _ _ Hs Hl).
  set (ds := firstn _ _).
  assert (Hds : (List.length ds <= Z.to_nat (Full.arg_limit a))%nat /\
                (List.length ds <= List.length (load_dataset E))%nat).
  { subst ds. rewrite length_firstn, length_skipn. lia. }
  intros H. split; [reflexivity|]. revert H.
  unfold bind at 1.
  destruct (Full.main_loop E (Full.arg_timeout a) ds [] w) as [[rs|e] w1] eqn:Hloop;
    [|discriminate].
  destruct (main_loop_appends _ _ _ _ _ _ _ Hloop) as (new & _ & Hlen & Hst & Hres).
  specialize (Hres rs eq_refl). simpl in Hres. subst new.
  unfold bind. rewrite (count_patches_counts rs w1 Hst). unfold ret.
  intros H. inversion H; subst. lia.
Qed.

Lemma X9_at_most_limit_attempts_witness :
  Full.main Sample.E_ok Sample.one_at_a_time Sample.w0 =
    (do results <- Full.main_loop Sample.E_ok 300
                     (firstn (Z.to_nat 1) (skipn (Z.to_nat 1) (load_dataset Sample.E_ok))) [];
     do patches <- Full.count_patches results;
     ret (Some (patches, Z.of_nat (List.length results)))) Sample.w0 /\
  1 <= 1 /\
  1 <= Z.of_nat (List.length (load_dataset Sample.E_ok)).
Proof.
  apply (X9_at_most_limit_attempts Sample.E_ok Sample.one_at_a_time Sample.w0
           (snd (Full.main Sample.E_ok Sample.one_at_a_time Sample.w0)) 1 1).
  - reflexivity.
  - vm_compute. discriminate.
  - vm_compute. discriminate.
  - vm_compute. reflexivity.
Defined.

Lemma filter_none {A} (f : A -> bool) (l : list A) :
  (forall x, In x l -> f x = false) -> List.filter f l = [].
Proof.
  induction l as [|x l IH]; intros H; [reflexivity|]. simpl.
  rewrite (H x) by (now left). apply IH. intros y Hy. apply H. now right.
Qed.

(** X10: an [--instance] identifier that no row of the dataset carries
    ends the run at once: nothing is launched and no file is written. *)
Theorem X10_unknown_instance_runs_nothing (E : environ) (a : Full.args) (w : world)
    (id : string) :
  Full.arg_instance a = Some id ->
  id <> "" ->
  (forall d, In d (load_dataset E) -> instance_id d <> id) ->
  Full.main E a w = (Ok None, w).
Proof.
  intros Hi Hne Hno. unfold Full.main. rewrite Hi.
  destruct id as [|c id]; [contradiction|]. cbn [PyStr.is_empty].
  rewrite filter_none; [reflexivity|].
  intros d Hd. apply String.eqb_neq. now apply Hno.
Qed.

Lemma X10_unknown_instance_runs_nothing_witness :
  Full.main Sample.E_ok Sample.only_proj_9 Sample.w0 = (Ok None, Sample.w0).
Proof.
  apply (X10_unknown_instance_runs_nothing Sample.E_ok Sample.only_proj_9 Sample.w0 "proj-9").
  - reflexivity.
  - discriminate.
  - intros d [<-|[<-|[]]]; discriminate.
Defined.

(** ** Attempts of swe-bench-run.py *)

Lemma substring_nothing (n : nat) (s : string) : String.substring n 0 s = "".
Proof.
  revert n. induction s as [|c s IH]; intros [|n]; try reflexivity. simpl. apply IH.
Qed.

(** X11: when the first closing delimiter does not come after the end of
    the first opening delimiter (it precedes it, or overlaps it as in
    [--- PATCH --- END PATCH ---]), nothing is extracted from the output. *)
Theorem X11_closing_delimiter_first_extracts_nothing (output : string) (i j : nat)
    (w : world) :
  PyStr.find Run.OPEN output = Some i ->
  PyStr.find Run.CLOSE output = Some j ->
  (j <= i + String.length Run.OPEN)%nat ->
  Run.extract_delimited output w = (Ok "", w).
Proof.
  intros Ho Hc Hle. unfold Run.extract_delimited, Run.str_index.
  rewrite (contains_find _ _ _ Ho), (contains_find _ _ _ Hc), Ho, Hc.
  unfold bind, ret, PyStr.slice.
  replace (j - (i + String.length Run.OPEN))%nat with 0%nat by lia.
  now rewrite substring_nothing.
Qed.

Lemma X11_closing_delimiter_first_extracts_nothing_witness :
  Run.extract_delimited "--- PATCH --- END PATCH ---" Sample.w0 = (Ok "", Sample.w0).
Proof.
  apply (X11_closing_delimiter_first_extracts_nothing "--- PATCH --- END PATCH ---" 0 10
           Sample.w0).
  - vm_compute. reflexivity.
  - vm_compute. reflexivity.
  - vm_compute. lia.
Defined.

(** X12: a timeout of the agent is not an error in the minimal variant:
    nothing is read from its output, and the prediction carries the
    trimmed working-tree diff. *)
Theorem X12_agent_timeout_predicts_the_diff (E : environ) (agent : string) (inst : instance)
    (tmo : Z) (w : world) (o1 e1 : string) (rc2 : Z) (o2 e2 msg : string) (rc4 : Z)
    (dout derr : string) :
  let n := clock w in
  let iid := instance_id inst in
  let repo_path := path_join (mkdtemp E n) ["repo"] in
  let clone := Run.clone_cmd (repo inst) repo_path in
  let checkout := Run.git_in repo_path ["checkout"; base_commit inst] in
  let launch := Run.agent_cmd E agent iid tmo (Run.agent_env E (S (S n))) in
  let diff := Run.git_in repo_path ["diff"] in
  child E n clone = Returned 0 o1 e1 ->
  child E (S n) checkout = Returned rc2 o2 e2 ->
  child E (S (S n)) launch = Raised (TimeoutExpired msg) ->
  child E (S (S (S n))) diff = Returned rc4 dout derr ->
  Run.run_instance E agent inst tmo w =
    (Ok (Run.prediction iid (PyStr.strip dout)),
     {| files := run_files_after_attempt inst repo_path (files w);
        trace := (trace w ++ [clone; checkout; launch; diff])%list |}).
Proof.
  intros n iid repo_path clone checkout launch diff Hclone Hco Hagent Hdiff.
  subst n iid repo_path clone checkout launch diff.
  unfold run_files_after_attempt, path_join, clock in *. cbn [fold_left] in *.
  unfold Run.run_instance, Run.extract_patch, bind, attempt, Run.mk_tmpdir,
    Run.read_agent_env, subprocess_run, write_file, Run.remove_quietly, ret, path_join, clock.
  cbn [fold_left files trace].
  rewrite Hclone. cbn [negb Z.eqb files trace].
  rewrite !length_app. cbn [List.length]. rewrite !Nat.add_1_r.
  rewrite Hco. cbn [files trace].
  rewrite !length_app. cbn [List.length]. rewrite !Nat.add_1_r.
  rewrite Hagent. cbn [files trace is_TimeoutExpired].
  change (Run.extract_delimited "") with (@ret string ""). unfold ret.
  cbn [PyStr.is_empty files trace].
  rewrite !length_app. cbn [List.length]. rewrite !Nat.add_1_r.
  rewrite Hdiff. cbn [files trace]. rewrite <- !app_assoc. reflexivity.
Qed.

Lemma X12_agent_timeout_predicts_the_diff_witness :
  Run.run_instance Sample.E_hang_dirty Sample.coding_agent Sample.inst1 600 Sample.w0 =
    (Ok (Run.prediction "proj-1" (PyStr.strip "diff --git a/p.py b/p.py
")),
     {| files := run_files_after_attempt Sample.inst1 "/tmp/swe-bench-k3/repo" (files Sample.w0);
        trace := (trace Sample.w0 ++
                  [Run.clone_cmd "org/proj" "/tmp/swe-bench-k3/repo";
                   Run.git_in "/tmp/swe-bench-k3/repo" ["checkout"; "abc123"];
                   Run.agent_cmd Sample.E_hang_dirty Sample.coding_agent "proj-1" 600
                     (Run.agent_env Sample.E_hang_dirty 2);
                   Run.git_in "/tmp/swe-bench-k3/repo" ["diff"]])%list |}).
Proof.
  apply (X12_agent_timeout_predicts_the_diff Sample.E_hang_dirty Sample.coding_agent
           Sample.inst1 600 Sample.w0 "" "" 0 "" "" "timed out after 600 seconds" 0
           "diff --git a/p.py b/p.py
" ""); reflexivity.
Defined.

(** X13: when the clone exits non-zero the attempt stops there: the
    prediction with the empty patch is returned, no other child process is
    launched (no checkout, no agent) and no file is written. *)
Theorem X13_failed_clone_launches_nothing_else (E : environ) (agent : string)
    (inst : instance) (tmo : Z) (w : world) (rc : Z) (out err : string) :
  let clone := Run.clone_cmd (repo inst) (path_join (mkdtemp E (clock w)) ["repo"]) in
  child E (clock w) clone = Returned rc out err ->
  rc <> 0 ->
  Run.run_instance E agent inst tmo w =
    (Ok (Run.prediction (instance_id inst) ""),
     {| files := files w; trace := (trace w ++ [clone])%list |}).
Proof.
  intros clone Hclone Hrc. subst clone.
  unfold Run.run_instance, bind, Run.mk_tmpdir, subprocess_run, ret.
  cbn [files trace]. rewrite Hclone.
  apply Z.eqb_neq in Hrc. rewrite Hrc. reflexivity.
Qed.

Lemma X13_failed_clone_launches_nothing_else_witness :
  Run.run_instance Sample.E_clone_exit128 Sample.coding_agent Sample.inst1 600 Sample.w0 =
    (Ok (Run.prediction "proj-1" ""),
     {| files := files Sample.w0;
        trace := (trace Sample.w0
                  ++ [Run.clone_cmd "org/proj" "/tmp/swe-bench-k3/repo"])%list |}).
Proof.
  apply (X13_failed_clone_launches_nothing_else Sample.E_clone_exit128 Sample.coding_agent
           Sample.inst1 600 Sample.w0 128 "" "fatal").
  - reflexivity.
  - discriminate.
Defined.

(** Sourcing a line never removes a variable. *)
Lemma source_line_keeps (env : gmap string string) (line k : string) :
  is_Some (env !! k) -> is_Some (Run.source_line env line !! k).
Proof.
  intros H. unfold Run.source_line.
  destruct (_ && _); [|assumption].
  destruct (PyStr.split1 "=" (PyStr.strip line)) as [|key [|val [|? ?]]]; try assumption.
  rewrite lookup_insert. case_decide; [eauto|assumption].
Qed.

(** X14: the [.env] file can add and override variables but never unset
    one: every variable of the parent environment, a credential included,
    reaches the agent of the minimal variant. *)
Theorem X14_dotenv_never_unsets_a_variable (E : environ) (now : nat) (k : string) :
  is_Some (os_environ E !! k) -> is_Some (Run.agent_env E now !! k).
Proof.
  intros H. unfold Run.agent_env. destruct (env_file E now) as [content|]; [|assumption].
  revert H. generalize (os_environ E).
  induction (PyStr.file_lines content) as [|line lines IH]; intros env H; [assumption|].
  cbn [fold_left]. apply IH. now apply source_line_keeps.
Qed.

Lemma X14_dotenv_never_unsets_a_variable_witness :
  is_Some (Run.agent_env Sample.E_dotenv 2 !! "PATH").
Proof.
  apply (X14_dotenv_never_unsets_a_variable Sample.E_dotenv 2 "PATH").
  vm_compute. eauto.
Defined.

(** ** [main] of swe-bench-run.py *)

Lemma insert_by_perm {A} (key : A -> Z) (x : A) (l : list A) :
  Permutation (Run.insert_by key x l) (x :: l).
Proof.
  induction l as [|y l IH]; [reflexivity|]. cbn [Run.insert_by].
  destruct (key x <? key y); [reflexivity|].
  rewrite IH. apply perm_swap.
Qed.

Lemma insert_by_sorted {A} (key : A -> Z) (x : A) (l : list A) :
  StronglySorted (fun a b => key a <= key b) l ->
  StronglySorted (fun a b => key a <= key b) (Run.insert_by key x l).
Proof.
  induction 1 as [|y l Hs IH Hy]; cbn [Run.insert_by].
  - repeat constructor.
  - destruct (Z.ltb_spec (key x) (key y)) as [Hlt|Hge].
    + constructor; [now constructor|].
      constructor; [lia|].
      rewrite List.Forall_forall in *. intros z Hz. specialize (Hy z Hz). lia.
    + constructor; [assumption|].
      rewrite List.Forall_forall in *. intros z Hz.
      apply (Permutation_in _ (insert_by_perm key x l)) in Hz.
      destruct Hz as [<-|Hz]; [assumption|now apply Hy].
Qed.

Lemma sorted_by_spec {A} (key : A -> Z) (l : list A) :
  Permutation (Run.sorted_by key l) l /\
  StronglySorted (fun a b => key a <= key b) (Run.sorted_by key l).
Proof.
  unfold Run.sorted_by.
  assert (H : forall acc,
            StronglySorted (fun a b => key a <= key b) acc ->
            Permutation (fold_left (fun acc x => Run.insert_by key x acc) l acc) (acc ++ l) /\
            StronglySorted (fun a b => key a <= key b)
              (fold_left (fun acc x => Run.insert_by key x acc) l acc)).
  { induction l as [|x l IH]; intros acc Hacc; cbn [fold_left].
    - rewrite app_nil_r. split; [reflexivity|assumption].
    - destruct (IH (Run.insert_by key x acc) (insert_by_sorted key x acc Hacc)) as [Hp Hs].
      split; [|assumption]. rewrite Hp, insert_by_perm. apply Permutation_middle. }
  apply (H []). constructor.
Qed.

Lemma estimate_difficulty_range (inst : instance) :
  0 <= Run.estimate_difficulty inst <= 6.
Proof.
  unfold Run.estimate_difficulty.
  repeat match goal with
         | |- context [if ?b then _ else _] => destruct b
         end; lia.
Qed.

(** X15: with [--easy], [main] attempts the slice [start : start + n] of
    a list that holds every index of the dataset exactly once, in order of
    non-increasing difficulty score; a score lies between 0 and 6. *)
Theorem X15_easy_first_order (E : environ) (a : Run.args) (agent : string) (w : world) :
  let ds := load_dataset E in
  let score := fun i : Z => Run.default_zero (nth_error ds (Z.to_nat i)) in
  let indices := Run.sorted_by (fun i => - score i)
                   (Run.py_range 0 (Z.of_nat (List.length ds))) in
  Run.arg_easy_first a = true ->
  Run.agents_lookup (Run.AGENTS E) (Run.arg_agent_name a) = Some agent ->
  Run.main E a w =
    Run.main_loop E agent (Run.arg_output_file a) ds
      (py_slice indices (Run.arg_start a) (Run.arg_start a + Run.arg_n a)) [] w /\
  Permutation indices (Run.py_range 0 (Z.of_nat (List.length ds))) /\
  StronglySorted (fun i j => score j <= score i) indices /\
  Forall (fun i => 0 <= score i <= 6) indices.
Proof.
  intros ds score indices Heasy Hagent.
  destruct (sorted_by_spec (fun i => - score i)
              (Run.py_range 0 (Z.of_nat (List.length ds)))) as [Hp Hs].
  split; [|split; [exact Hp|split]].
  - unfold Run.main. rewrite Hagent, Heasy. reflexivity.
  - fold indices in Hs. clear -Hs.
    induction Hs as [|i l Hs IH Hi]; constructor; [assumption|].
    rewrite List.Forall_forall in *. intros j Hj. specialize (Hi j Hj). lia.
  - rewrite List.Forall_forall. intros i _. unfold score, Run.default_zero.
    destruct (nth_error ds (Z.to_nat i)); [apply estimate_difficulty_range|lia].
Qed.

Lemma X15_easy_first_order_witness :
  Run.main Sample.E_ok Sample.easy_args Sample.w0 =
    Run.main_loop Sample.E_ok Sample.coding_agent "/tmp/cognos-swe-predictions.jsonl"
      (load_dataset Sample.E_ok) [0; 1] [] Sample.w0.
Proof.
  apply (X15_easy_first_order Sample.E_ok Sample.easy_args Sample.coding_agent Sample.w0);
    reflexivity.
Defined.

(** An argument that does not start with [--agent=] leaves the agent
    name as it is. *)
Lemma agent_name_fold_other (post : list string) :
  Forall (fun arg => PyStr.startswith "--agent=" arg = false) post ->
  forall d,
    fold_left
      (fun agent_name arg =>
         if PyStr.startswith "--agent=" arg then
           match PyStr.split1 "=" arg with
           | _ :: name :: _ => name
           | _ => agent_name
           end
         else agent_name)
      post d = d.
Proof.
  induction 1 as [|arg post Hf _ IH]; intros d; [reflexivity|].
  cbn [fold_left]. rewrite Hf. apply IH.
Qed.

Lemma agent_name_of_default (argv : list string) :
  Forall (fun arg => PyStr.startswith "--agent=" arg = false) argv ->
  Run.agent_name_of argv = "coding".
Proof. intros H. unfold Run.agent_name_of. now apply agent_name_fold_other. Qed.

Lemma agent_name_of_last (pre post : list string) (name : string) :
  Forall (fun arg => PyStr.startswith "--agent=" arg = false) post ->
  Run.agent_name_of (pre ++ ["--agent=" +:+ name] ++ post) = name.
Proof.
  intros H. unfold Run.agent_name_of.
  rewrite !fold_left_app. rewrite (agent_name_fold_other post H).
  cbn [fold_left].
  unfold PyStr.startswith. rewrite prefix_app_self.
  unfold PyStr.split1.
  change ("--agent=" +:+ name) with ("--agent" +:+ "=" +:+ name).
  now rewrite split_first_key.
Qed.

(** X16: agent selection as [main] reads it from [sys.argv].  When
    [argv[1]] and [argv[2]], where present, convert with [int], [main]
    works with the agent name ["coding"] if no argument starts with
    [--agent=], and otherwise with NAME of the last argument
    [--agent=NAME], wherever it stands, NAME being everything after its
    first ['='].  When one of the two does not convert, [main] raises
    ValueError before the agent is looked up, with nothing launched or
    written. *)
Theorem X16_last_agent_argument_wins (py_int : string -> option Z) (E : environ)
    (argv pre post : list string) (name : string) (w : world) :
  (Forall (fun s => is_Some (py_int s)) (firstn 2 (tl argv)) ->
   exists a,
     Run.parse_args py_int argv w = (Ok a, w) /\
     Run.main_of_argv py_int E argv w = Run.main E a w /\
     (Forall (fun arg => PyStr.startswith "--agent=" arg = false) argv ->
      Run.arg_agent_name a = "coding") /\
     (argv = (pre ++ ["--agent=" +:+ name] ++ post)%list ->
      Forall (fun arg => PyStr.startswith "--agent=" arg = false) post ->
      Run.arg_agent_name a = name)) /\
  (Exists (fun s => py_int s = None) (firstn 2 (tl argv)) ->
   exists msg, Run.main_of_argv py_int E argv w = (Raise (ValueError msg), w)).
Proof.
  split.
  - intros Hint.
    assert (Hparse : exists a, Run.parse_args py_int argv w = (Ok a, w) /\
                               Run.arg_agent_name a = Run.agent_name_of argv).
    { unfold Run.parse_args, Run.int_arg, bind, ret, raise.
      destruct argv as [|a0 [|a1 [|a2 rest]]]; cbn [nth_error tl firstn] in *.
      - eexists; split; reflexivity.
      - eexists; split; reflexivity.
      - inversion Hint as [|? ? [z1 H1] _]; subst. rewrite H1.
        eexists; split; reflexivity.
      - inversion Hint as [|? ? [z1 H1] Hint2]; subst.
        inversion Hint2 as [|? ? [z2 H2] _]; subst. rewrite H1, H2.
        eexists; split; reflexivity. }
    destruct Hparse as (a & Hp & Hname). exists a.
    split; [exact Hp|]. split; [|split].
    + unfold Run.main_of_argv, bind. now rewrite Hp.
    + intros Hnone. rewrite Hname. now apply agent_name_of_default.
    + intros -> Hpost. rewrite Hname. now apply agent_name_of_last.
  - intros Hbad.
    unfold Run.main_of_argv, Run.parse_args, Run.int_arg, bind, ret, raise.
    destruct argv as [|a0 [|a1 [|a2 rest]]]; cbn [nth_error tl firstn] in *.
    + inversion Hbad.
    + inversion Hbad.
    + destruct (py_int a1) eqn:H1.
      * inversion Hbad as [? ? Hn|? ? Hn]; subst; [congruence|inversion Hn].
      * eexists; reflexivity.
    + destruct (py_int a1) eqn:H1; [|eexists; reflexivity].
      destruct (py_int a2) eqn:H2; [|eexists; reflexivity].
      inversion Hbad as [? ? Hn|? ? Hn]; subst; [congruence|].
      inversion Hn as [? ? Hn2|? ? Hn2]; subst; [congruence|inversion Hn2].
Qed.

(** [--agent=meta] after another [--agent=] argument and before [--easy]
    selects meta; in the place of the first number it makes [main] raise. *)
Lemma X16_last_agent_argument_wins_witness :
  (exists a,
     Run.parse_args Sample.int_of_numeral
       ["swe-bench-run.py"; "1"; "1"; "/tmp/p.jsonl"; "--agent=coding"; "--agent=meta";
        "--easy"] Sample.w0 = (Ok a, Sample.w0) /\
     Run.arg_agent_name a = "meta") /\
  (exists msg,
     Run.main_of_argv Sample.int_of_numeral Sample.E_ok
       ["swe-bench-run.py"; "--agent=meta"] Sample.w0
     = (Raise (ValueError msg), Sample.w0)).
Proof.
  split.
  - destruct (proj1 (X16_last_agent_argument_wins Sample.int_of_numeral Sample.E_ok
                ["swe-bench-run.py"; "1"; "1"; "/tmp/p.jsonl"; "--agent=coding";
                 "--agent=meta"; "--easy"]
                ["swe-bench-run.py"; "1"; "1"; "/tmp/p.jsonl"; "--agent=coding"]
                ["--easy"] "meta" Sample.w0))
      as (a & Hp & _ & _ & Hlast).
    + repeat constructor; eexists; vm_compute; reflexivity.
    + exists a. split; [exact Hp|]. apply Hlast; [reflexivity|].
      repeat constructor.
  - apply (proj2 (X16_last_agent_argument_wins Sample.int_of_numeral Sample.E_ok
                    ["swe-bench-run.py"; "--agent=meta"] [] [] "" Sample.w0)).
    constructor. vm_compute. reflexivity.
Defined.

(** X17: an agent name other than coding, meta and meta-multi ends [main]
    with exit status 1 before anything is launched or written. *)
Theorem X17_unknown_agent_exits (E : environ) (a : Run.args) (w : world) :
  Run.arg_agent_name a <> "coding" ->
  Run.arg_agent_name a <> "meta" ->
  Run.arg_agent_name a <> "meta-multi" ->
  Run.main E a w = (Raise (SystemExit 1), w).
Proof.
  intros H1 H2 H3. unfold Run.main, Run.AGENTS. cbn [Run.agents_lookup].
  apply not_eq_sym in H1, H2, H3.
  apply String.eqb_neq in H1, H2, H3. now rewrite H1, H2, H3.
Qed.

Lemma X17_unknown_agent_exits_witness :
  Run.main Sample.E_ok Sample.typo_args Sample.w0 = (Raise (SystemExit 1), Sample.w0).
Proof.
  apply (X17_unknown_agent_exits Sample.E_ok Sample.typo_args Sample.w0); discriminate.
Defined.

Lemma run_main_loop_length (E : environ) (agent out : string) (ds : list instance)
    (run_indices : list Z) :
  forall (preds preds' : list dict) (w w' : world),
    Run.main_loop E agent out ds run_indices preds w = (Ok preds', w') ->
    List.length preds' = (List.length preds + List.length run_indices)%nat.
Proof.
  induction run_indices as [|i rest IH]; intros preds preds' w w' H.
  - simpl in H. unfold ret in H. inversion H; subst. simpl. lia.
  - simpl in H. unfold bind at 1 in H.
    destruct (Run.ds_getitem ds i w) as [[inst|e] w0] eqn:Hg; [|discriminate].
    unfold bind at 1 in H.
    destruct (Run.run_instance E agent inst 600 w0) as [[pred|e] w1]; [|discriminate].
    unfold bind at 1 in H.
    change (append_json out pred w1) with (Ok tt, snd (append_json out pred w1)) in H.
    cbv iota beta in H. apply IH in H. rewrite H, length_app. simpl. lia.
Qed.

(** X18: without [--easy], a run of [main] that returns has made exactly
    min(start + n, len(ds)) - start predictions (none when that is
    negative): never more than [n], and none past the end of the dataset. *)
Theorem X18_number_of_predictions (E : environ) (a : Run.args) (w w' : world)
    (preds : list dict) :
  Run.arg_easy_first a = false ->
  Run.main E a w = (Ok preds, w') ->
  Z.of_nat (List.length preds)
    = Z.max 0 (Z.min (Run.arg_start a + Run.arg_n a)
                     (Z.of_nat (List.length (load_dataset E))) - Run.arg_start a).
Proof.
  intros Heasy. unfold Run.main. rewrite Heasy.
  destruct (Run.agents_lookup _ _) as [agent|]; [|discriminate].
  intros H. apply run_main_loop_length in H. rewrite H.
  unfold Run.py_range. rewrite length_map, length_seq. simpl. lia.
Qed.

Lemma X18_number_of_predictions_witness :
  Z.of_nat (List.length [Run.prediction "proj-1" "diff --git a/p.py b/p.py";
                         Run.prediction "proj-2" "diff --git a/p.py b/p.py"])
    = Z.max 0 (Z.min (0 + 5) (Z.of_nat (List.length (load_dataset Sample.E_ok))) - 0).
Proof.
  apply (X18_number_of_predictions Sample.E_ok Sample.run_args Sample.w0
           (snd (Run.main Sample.E_ok Sample.run_args Sample.w0))).
  - reflexivity.
  - vm_compute. reflexivity.
Defined.

(** ** What the results log can hold *)

Lemma list_filter_sublist {A} (f : A -> bool) (l : list A) : sublist (List.filter f l) l.
Proof.
  induction l as [|x l IH]; [constructor|]. simpl.
  destruct (f x); [now apply sublist_skip|now apply sublist_cons].
Qed.

Lemma py_slice_sublist {A} (l : list A) (lo hi : Z) : sublist (py_slice l lo hi) l.
Proof.
  unfold py_slice. etransitivity; [apply sublist_take|apply sublist_drop].
Qed.

(** The loop, whatever way it ends: the records appended are the results
    of completed attempts, for instances taken in order from the list. *)
Lemma main_loop_records (E : environ) (tmo : Z) (ds : list instance) :
  forall (results : list dict) (w w' : world) (x : res (list dict)),
    Full.main_loop E tmo ds results w = (x, w') ->
    exists attempted new,
      sublist attempted ds /\
      records_at w' (Full.results_file E)
        = (records_at w (Full.results_file E) ++ List.map JsonLine new)%list /\
      Forall2 (fun inst d => exists patch mode t code,
                 d = Full.completed_result (instance_id inst) patch mode t code)
              attempted new.
Proof.
  induction ds as [|inst ds IH]; intros results w w' x H.
  - simpl in H. unfold ret in H. inversion H; subst. exists [], [].
    rewrite app_nil_r. repeat split; constructor.
  - simpl in H. unfold bind at 1 in H. unfold file_exists in H. cbn [fst snd] in H.
    assert (Hnone : forall w1,
              records_at w1 (Full.results_file E) = records_at w (Full.results_file E) ->
              exists attempted new,
                sublist attempted (inst :: ds) /\
                records_at w1 (Full.results_file E)
                  = (records_at w (Full.results_file E) ++ List.map JsonLine new)%list /\
                Forall2 (fun inst d => exists patch mode t code,
                           d = Full.completed_result (instance_id inst) patch mode t code)
                        attempted new).
    { intros w1 Hk. exists [], []. rewrite app_nil_r. repeat split;
        [apply sublist_nil_l|assumption|constructor]. }
    destruct (bool_decide _).
    + destruct (IH _ _ _ _ H) as (att & new & Hsub & Hrec & Hall).
      exists att, new. repeat split; [now apply sublist_cons|assumption|assumption].
    + unfold bind at 1 in H.
      destruct (Full.run_instance E inst tmo w) as [[r|e] w1] eqn:Hrun.
      * pose proof (run_instance_keeps_results_log _ _ _ _ _ _ Hrun) as Hkeep.
        unfold bind, dict_get in H.
        destruct (dict_lookup r "status") as [st|];
          [|inversion H; subst; now apply Hnone].
        unfold ret in H at 1 2. cbv beta iota in H.
        destruct (dict_lookup r "time") as [t|] eqn:Htime;
          [|inversion H; subst; now apply Hnone].
        unfold ret in H at 1. cbv beta iota in H.
        destruct (dict_lookup r "mode") as [m|];
          [|inversion H; subst; now apply Hnone].
        unfold ret in H at 1. cbv beta iota in H.
        change (append_json (Full.results_file E) r w1)
          with (Ok tt, snd (append_json (Full.results_file E) r w1)) in H.
        cbv beta iota in H.
        destruct (IH _ _ _ _ H) as (att & new & Hsub & Hrec & Hall).
        exists (inst :: att), (r :: new). repeat split.
        -- now apply sublist_skip.
        -- rewrite Hrec, records_at_append, Hkeep. now rewrite <- app_assoc.
        -- constructor; [|assumption].
           destruct (run_instance_inv _ _ _ _ _ _ Hrun)
             as [(e & _ & _ & ->) | (w2 & output & c & rc & dout & derr & _ & _ & _ & -> & _)];
             [discriminate|eauto 6].
      * inversion H; subst. apply Hnone.
        eapply run_instance_keeps_results_log; eassumption.
Qed.

(** X19: whatever way a run of [main] ends, the records it has appended to
    the results log belong to instances of the dataset, in dataset order,
    and each is the six-field result of a completed attempt, with status
    PATCH or NO_PATCH: a CLONE_FAILED result never reaches the log. *)
Theorem X19_results_log_holds_completed_attempts_only (E : environ) (a : Full.args)
    (w w' : world) (x : res (option (Z * Z))) :
  Full.main E a w = (x, w') ->
  exists attempted new,
    sublist attempted (load_dataset E) /\
    records_at w' (Full.results_file E)
      = (records_at w (Full.results_file E) ++ List.map JsonLine new)%list /\
    Forall2 (fun inst d =>
               exists patch mode t code,
                 d = [("id", VStr (instance_id inst));
                      ("status", VStr (if Full.has_patch patch then "PATCH" else "NO_PATCH"));
                      ("patch_size",
                       VInt (if PyStr.is_empty patch then 0
                             else Z.of_nat (String.length patch)));
                      ("mode", VStr mode);
                      ("time", VFloat t);
                      ("exit_code", VInt code)])
            attempted new.
Proof.
  unfold Full.main.
  set (sel := match Full.arg_instance a with
              | Some id => _
              | None => _
              end).
  assert (Hsel : forall ds, sel = inr ds -> sublist ds (load_dataset E)).
  { subst sel. intros ds. destruct (Full.arg_instance a) as [id|].
    - destruct (PyStr.is_empty id).
      + intros Hd. inversion Hd. apply py_slice_sublist.
      + destruct (List.filter _ _) eqn:Hf; [discriminate|].
        intros Hd. inversion Hd. rewrite <- Hf. apply list_filter_sublist.
    - intros Hd. inversion Hd. apply py_slice_sublist. }
  destruct sel as [[]|ds].
  { unfold ret. intros H. inversion H; subst. exists [], [].
    rewrite app_nil_r. repeat split; [apply sublist_nil_l|constructor]. }
  specialize (Hsel ds eq_refl).
  unfold bind at 1.
  destruct (Full.main_loop E (Full.arg_timeout a) ds [] w) as [[rs|e] w1] eqn:Hloop;
    destruct (main_loop_records _ _ _ _ _ _ _ Hloop) as (att & new & Hsub & Hrec & Hall).
  - destruct (main_loop_appends _ _ _ _ _ _ _ Hloop) as (new' & _ & _ & Hst & Hres).
    specialize (Hres rs eq_refl). simpl in Hres. subst new'.
    unfold bind. rewrite (count_patches_counts rs w1 Hst). unfold ret.
    intros H. inversion H; subst. exists att, new.
    repeat split; [etransitivity; eassumption|assumption|assumption].
  - intros H. inversion H; subst. exists att, new.
    repeat split; [etransitivity; eassumption|assumption|assumption].
Qed.

Lemma X19_results_log_holds_completed_attempts_only_witness :
  exists attempted new,
    sublist attempted (load_dataset Sample.E_retry_timeout) /\
    records_at (snd (Full.main Sample.E_retry_timeout Sample.full_args Sample.w0))
               (Full.results_file Sample.E_retry_timeout)
      = (records_at Sample.w0 (Full.results_file Sample.E_retry_timeout)
         ++ List.map JsonLine new)%list /\
    Forall2 (fun inst d =>
               exists patch mode t code,
                 d = [("id", VStr (instance_id inst));
                      ("status", VStr (if Full.has_patch patch then "PATCH" else "NO_PATCH"));
                      ("patch_size",
                       VInt (if PyStr.is_empty patch then 0
                             else Z.of_nat (String.length patch)));
                      ("mode", VStr mode);
                      ("time", VFloat t);
                      ("exit_code", VInt code)])
            attempted new.
Proof.
  apply (X19_results_log_holds_completed_attempts_only Sample.E_retry_timeout
           Sample.full_args Sample.w0
           (snd (Full.main Sample.E_retry_timeout Sample.full_args Sample.w0))
           (Raise (KeyError "time"))).
  vm_compute. reflexivity.
Defined.
